(** * Rubric grading engine and composite reward signal

    A shallow embedding of [tools/grading_engine.py], of the overall-score
    branch of [tools/eval_runner.py], of [studio/rewards.py] and of the
    pairwise extraction of [studio/ranker.py] with the configs of
    [studio/configs.py], together with the properties the specification
    states about them.

    Conventions of the embedding:
    - a Python [float] is a binary64 value of [PrimFloat]; every number read
      from a rubric (a weight, a threshold) is represented by its binary64
      value, which is what Python's mixed int/float arithmetic computes for
      the whole numbers a rubric contains;
    - a Python [str] is a [string]: a sequence of code points below 256.
      On that range the character tables used below (whitespace, decimal
      digits, lower-casing, case-insensitive matching) are exactly those of
      Python 3. Above that range a case-insensitive literal matches
      characters that [str.lower] does not turn into the letter (U+017F for
      s, U+0130 and U+0131 for i), so what is stated below about letter case
      goes from the lowered text to the match, never from a match back to
      the lowered text;
    - a [dict] keyed by strings is a [gmap string _]; a dictionary with a
      fixed set of optional keys (a rubric, a dimension, a scenario) is a
      record with [option] fields;
    - a Python exception is the [None] of an [option] result. *)

From stdpp Require Import gmap strings list.
From Stdlib Require Import Floats ZArith Ascii String.

Set Warnings "-inexact-float,-register-all".

Local Open Scope string_scope.
Local Open Scope list_scope.

(** ** Python built-ins on strings *)

Module Py.

Definition code (c : ascii) : N := N_of_ascii c.

(** [str.isspace] on one character. *)
Definition isspace (c : ascii) : bool :=
  let n := code c in
  ((9 <=? n) && (n <=? 13) || (28 <=? n) && (n <=? 32)
   || (n =? 133) || (n =? 160))%N.

(** Unicode category Nd. *)
Definition isdecimal (c : ascii) : bool :=
  let n := code c in ((48 <=? n) && (n <=? 57))%N.

Definition lower_code (n : N) : N :=
  (if (65 <=? n) && (n <=? 90) then n + 32
   else if (192 <=? n) && (n <=? 222) && negb (n =? 215) then n + 32
   else n)%N.

Definition lower_char (c : ascii) : ascii := ascii_of_N (lower_code (code c)).

(** [s.lower()] *)
Fixpoint lower (s : string) : string :=
  match s with
  | EmptyString => EmptyString
  | String c s' => String (lower_char c) (lower s')
  end.

(** [len(s)] *)
Definition len (s : string) : nat := String.length s.

Fixpoint startswith (p s : string) : bool :=
  match p, s with
  | EmptyString, _ => true
  | String a p', String b s' => if Ascii.eqb a b then startswith p' s' else false
  | String _ _, EmptyString => false
  end.

(** [sub in s] *)
Fixpoint contains (sub s : string) : bool :=
  startswith sub s ||
  match s with
  | EmptyString => false
  | String _ s' => contains sub s'
  end.

Fixpoint drop (n : nat) (s : string) : string :=
  match n, s with
  | O, _ => s
  | S n', String _ s' => drop n' s'
  | S _, EmptyString => EmptyString
  end.

Fixpoint take (n : nat) (s : string) : string :=
  match n, s with
  | S n', String c s' => String c (take n' s')
  | _, _ => EmptyString
  end.

(** [s[i:j]] for [0 <= i <= j]. *)
Definition slice (s : string) (i j : nat) : string := take (j - i) (drop i s).

Fixpoint lstrip (s : string) : string :=
  match s with
  | String c s' => if isspace c then lstrip s' else s
  | EmptyString => EmptyString
  end.

Fixpoint rstrip (s : string) : string :=
  match s with
  | EmptyString => EmptyString
  | String c s' =>
      match rstrip s' with
      | EmptyString => if isspace c then EmptyString else String c EmptyString
      | t => String c t
      end
  end.

(** [s.strip()] *)
Definition strip (s : string) : string := rstrip (lstrip s).

(** [s.split()]: the maximal runs of non-whitespace characters. *)
Fixpoint split_acc (s : string) (word : string) : list string :=
  match s with
  | EmptyString => match word with EmptyString => [] | _ => [word] end
  | String c s' =>
      if isspace c
      then match word with
           | EmptyString => split_acc s' EmptyString
           | _ => word :: split_acc s' EmptyString
           end
      else split_acc s' (word +:+ String c EmptyString)
  end.

Definition split (s : string) : list string := split_acc s EmptyString.

(** [s.split(sep)] for a non-empty separator: [fuel] bounds the number of
    characters still to read. *)
Fixpoint split_sep_acc (fuel : nat) (sep s piece : string) : list string :=
  match fuel with
  | O => [piece +:+ s]
  | S fuel' =>
      match s with
      | EmptyString => [piece]
      | String c s' =>
          if startswith sep s
          then piece :: split_sep_acc fuel' sep (drop (len sep) s) EmptyString
          else split_sep_acc fuel' sep s' (piece +:+ String c EmptyString)
      end
  end.

Definition split_sep (s sep : string) : list string :=
  split_sep_acc (S (len s)) sep s EmptyString.

(** [sep.join(parts)] *)
Fixpoint join (sep : string) (parts : list string) : string :=
  match parts with
  | [] => EmptyString
  | [p] => p
  | p :: rest => p +:+ sep +:+ join sep rest
  end.

(** [str(n)] for a non-negative int. *)
Definition digit_char (n : nat) : ascii := ascii_of_nat (48 + n).

Fixpoint str_nat_acc (fuel n : nat) (acc : string) : string :=
  match fuel with
  | O => acc
  | S fuel' =>
      let acc' := String (digit_char (n mod 10)) acc in
      if Nat.eqb (n / 10) 0 then acc' else str_nat_acc fuel' (n / 10) acc'
  end.

Definition str_nat (n : nat) : string := str_nat_acc (S n) n EmptyString.

End Py.

(** ** The part of Python's [re] module the code uses

    A backtracking matcher with Python's priorities (leftmost match,
    alternatives in order, greedy or lazy repetition), and a parser for the
    pattern syntax that occurs in the sources: literals, [.], classes,
    [\d \s \n \Z], groups, [(?:...)], [(?=...)], [^], the quantifiers
    [? * + {m} {m,n}] with their lazy forms, and a leading [(?i)].
    A pattern outside that syntax does not compile ([None]). *)

Module Re.

Inductive regex : Type :=
| Eps
| Chr (f : ascii -> bool)
| Cat (r1 r2 : regex)
| Or (r1 r2 : regex)
| Rep (greedy : bool) (lo : nat) (hi : option nat) (r : regex)
| Grp (i : nat) (r : regex)
| Ahead (r : regex)
| Bol (multiline : bool)
| Eos.

(** The matcher's position in the subject: index, previous character,
    remaining characters, and the spans of the groups closed so far. *)
Record mstate := MState {
  m_pos : nat;
  m_prev : option ascii;
  m_rest : list ascii;
  m_groups : list (nat * (nat * nat))
}.

Definition at_line_start (multiline : bool) (st : mstate) : bool :=
  match m_prev st with
  | None => true
  | Some c => multiline && N.eqb (Py.code c) 10
  end.

(** [run r st k]: match [r] at [st] and continue with [k]; the first
    success in priority order is the answer. An iteration of an unbounded
    repetition has to consume a character. *)
Fixpoint run (r : regex) (st : mstate) (k : mstate -> option mstate)
  {struct r} : option mstate :=
  match r with
  | Eps => k st
  | Chr f =>
      match m_rest st with
      | c :: cs =>
          if f c then k (MState (S (m_pos st)) (Some c) cs (m_groups st))
          else None
      | [] => None
      end
  | Cat r1 r2 => run r1 st (fun st1 => run r2 st1 k)
  | Or r1 r2 =>
      match run r1 st k with
      | Some res => Some res
      | None => run r2 st k
      end
  | Rep greedy lo hi r1 =>
      let fix optional (fuel : nat) (st0 : mstate) {struct fuel}
        : option mstate :=
        match fuel with
        | O => k st0
        | S fuel' =>
            let again (_ : unit) :=
              run r1 st0 (fun st1 =>
                if Nat.ltb (m_pos st0) (m_pos st1) || bool_decide (is_Some hi)
                then optional fuel' st1 else None) in
            if greedy
            then match again tt with Some res => Some res | None => k st0 end
            else match k st0 with Some res => Some res | None => again tt end
        end in
      let fix mandatory (n : nat) (st0 : mstate) {struct n} : option mstate :=
        match n with
        | O =>
            optional (match hi with
                      | Some h => h - lo
                      | None => List.length (m_rest st0)
                      end) st0
        | S n' => run r1 st0 (fun st1 => mandatory n' st1)
        end in
      mandatory lo st
  | Grp i r1 =>
      run r1 st (fun st1 =>
        k (MState (m_pos st1) (m_prev st1) (m_rest st1)
             ((i, (m_pos st, m_pos st1)) :: m_groups st1)))
  | Ahead r1 =>
      match run r1 st Some with
      | Some st1 =>
          k (MState (m_pos st) (m_prev st) (m_rest st) (m_groups st1))
      | None => None
      end
  | Bol multiline => if at_line_start multiline st then k st else None
  | Eos => match m_rest st with [] => k st | _ :: _ => None end
  end.

(** A match object: [m.start()], [m.end()] and the group spans. *)
Record match_obj := Match {
  m_start : nat;
  m_end : nat;
  m_spans : list (nat * (nat * nat))
}.

Definition match_at (r : regex) (pos : nat) (prev : option ascii)
    (rest : list ascii) : option match_obj :=
  match run r (MState pos prev rest []) Some with
  | Some st => Some (Match pos (m_pos st) (m_groups st))
  | None => None
  end.

(** The leftmost match starting at or after the current position. *)
Fixpoint scan (r : regex) (pos : nat) (prev : option ascii)
    (rest : list ascii) : option match_obj :=
  match match_at r pos prev rest with
  | Some m => Some m
  | None =>
      match rest with
      | [] => None
      | c :: cs => scan r (S pos) (Some c) cs
      end
  end.

(** The successive non-overlapping matches, left to right; [skip] counts the
    positions still covered by the previous match. *)
Fixpoint scan_all (r : regex) (pos : nat) (prev : option ascii)
    (rest : list ascii) (skip : nat) : list match_obj :=
  let here := match skip with
              | O => match_at r pos prev rest
              | S _ => None
              end in
  match here with
  | Some m =>
      m :: match rest with
           | [] => []
           | c :: cs => scan_all r (S pos) (Some c) cs (m_end m - pos - 1)
           end
  | None =>
      match rest with
      | [] => []
      | c :: cs => scan_all r (S pos) (Some c) cs (skip - 1)
      end
  end.

(** *** Pattern syntax *)

Record flags := Flags { ignorecase : bool; dotall : bool; multiline : bool }.

Definition no_flags : flags := Flags false false false.
Definition I : flags := Flags true false false.
Definition DOTALL : flags := Flags false true false.
Definition MULTILINE : flags := Flags false false true.

(** A pattern is written in the source file in UTF-8. *)
Fixpoint utf8_decode (bs : list N) : list N :=
  match bs with
  | [] => []
  | b :: rest =>
      if (b <? 128)%N then b :: utf8_decode rest
      else if (b <? 224)%N then
        match rest with
        | b2 :: rest2 => ((b - 192) * 64 + (b2 - 128))%N :: utf8_decode rest2
        | [] => []
        end
      else
        match rest with
        | b2 :: b3 :: rest3 =>
            ((b - 224) * 4096 + (b2 - 128) * 64 + (b3 - 128))%N
              :: utf8_decode rest3
        | _ => []
        end
  end.

Definition codepoints (s : string) : list N :=
  utf8_decode (List.map N_of_ascii (list_ascii_of_string s)).

Definition upper_code (n : N) : N :=
  (if (97 <=? n) && (n <=? 122) then n - 32
   else if (224 <=? n) && (n <=? 254) && negb (n =? 247) then n - 32
   else n)%N.

(** Of the code points above 255, only these three occur in the patterns;
    none of them matches a character below 256, with or without
    [IGNORECASE]. *)
Definition known_wide (p : N) : bool :=
  ((p =? 963) || (p =? 8226) || (p =? 8800))%N.

Definition literal_ok (p : N) : bool := ((p <? 256) || known_wide p)%N.

Definition lit (ic : bool) (p : N) : ascii -> bool :=
  fun c =>
    if ic then N.eqb (Py.lower_code (Py.code c)) (Py.lower_code p)
    else N.eqb (Py.code c) p.

Inductive class_item :=
| CLit (p : N)
| CRange (lo hi : N)
| CDigit
| CSpace.

Definition in_item (ic : bool) (c : ascii) (it : class_item) : bool :=
  match it with
  | CLit p => lit ic p c
  | CRange lo hi =>
      let inside n := ((lo <=? n) && (n <=? hi))%N in
      inside (Py.code c)
      || ic && (inside (Py.lower_code (Py.code c))
                || inside (upper_code (Py.code c)))
  | CDigit => Py.isdecimal c
  | CSpace => Py.isspace c
  end.

Definition in_class (ic negated : bool) (items : list class_item)
  : ascii -> bool :=
  fun c => xorb negated (existsb (in_item ic c) items).

Definition is_digit (p : N) : bool := ((48 <=? p) && (p <=? 57))%N.

Definition is_alnum (p : N) : bool :=
  (is_digit p || (65 <=? p) && (p <=? 90) || (97 <=? p) && (p <=? 122))%N.

Fixpoint read_nat (cs : list N) (acc : option nat) : option nat * list N :=
  match cs with
  | c :: cs' =>
      if is_digit c
      then read_nat cs' (Some (10 * default 0 acc + N.to_nat (c - 48)))
      else (acc, cs)
  | [] => (acc, cs)
  end.

(** The items of a class, up to and including the closing bracket. *)
Fixpoint read_class (fuel : nat) (cs : list N) (first : bool)
  : option (list class_item * list N) :=
  match fuel with
  | O => None
  | S fuel' =>
      let item_then (it : class_item) (rest : list N) :=
        match read_class fuel' rest false with
        | Some (its, rest') => Some (it :: its, rest')
        | None => None
        end in
      match cs with
      | [] => None
      | 93%N :: rest => if first then None else Some ([], rest)
      | 92%N :: e :: rest =>
          if N.eqb e 100 then item_then CDigit rest
          else if N.eqb e 115 then item_then CSpace rest
          else if N.eqb e 110 then item_then (CLit 10) rest
          else if is_alnum e || negb (e <? 128)%N then None
          else item_then (CLit e) rest
      | 92%N :: [] => None
      | a :: 45%N :: b :: rest =>
          if N.eqb b 93 then item_then (CLit a) (45%N :: b :: rest)
          else if N.eqb b 92 || negb (a <=? b)%N || negb (b <? 256)%N then None
          else item_then (CRange a b) rest
      | a :: rest => if literal_ok a then item_then (CLit a) rest else None
      end
  end.

(** A quantifier, if one follows: bounds and greediness. *)
Definition read_quantifier (cs : list N)
  : option (option (nat * option nat * bool) * list N) :=
  let lazy_suffix (lo : nat) (hi : option nat) (rest : list N) :=
    match rest with
    | 63%N :: rest' => Some (Some (lo, hi, false), rest')
    | 42%N :: _ | 43%N :: _ | 123%N :: _ => None
    | _ => Some (Some (lo, hi, true), rest)
    end in
  match cs with
  | 63%N :: rest => lazy_suffix 0 (Some 1) rest
  | 42%N :: rest => lazy_suffix 0 None rest
  | 43%N :: rest => lazy_suffix 1 None rest
  | 123%N :: rest =>
      match read_nat rest None with
      | (Some lo, 125%N :: rest') => lazy_suffix lo (Some lo) rest'
      | (Some lo, 44%N :: rest') =>
          match read_nat rest' None with
          | (Some hi, 125%N :: rest'') =>
              if Nat.leb lo hi then lazy_suffix lo (Some hi) rest'' else None
          | (None, 125%N :: rest'') => lazy_suffix lo None rest''
          | _ => None
          end
      | _ => None
      end
  | _ => Some (None, cs)
  end.

Definition quantify (q : option (nat * option nat * bool)) (r : regex)
  : regex :=
  match q with
  | Some (lo, hi, greedy) => Rep greedy lo hi r
  | None => r
  end.

(** Recursive descent; the last component of a result is the number of the
    next capturing group. *)
Fixpoint parse_alt (fuel : nat) (fl : flags) (cs : list N) (g : nat)
  {struct fuel} : option (regex * list N * nat) :=
  match fuel with
  | O => None
  | S fuel' =>
      match parse_seq fuel' fl cs g with
      | Some (r1, 124%N :: rest, g1) =>
          match parse_alt fuel' fl rest g1 with
          | Some (r2, rest2, g2) => Some (Or r1 r2, rest2, g2)
          | None => None
          end
      | other => other
      end
  end
with parse_seq (fuel : nat) (fl : flags) (cs : list N) (g : nat)
  {struct fuel} : option (regex * list N * nat) :=
  match fuel with
  | O => None
  | S fuel' =>
      match cs with
      | [] | 124%N :: _ | 41%N :: _ => Some (Eps, cs, g)
      | _ =>
          match parse_piece fuel' fl cs g with
          | Some (r1, rest, g1) =>
              match parse_seq fuel' fl rest g1 with
              | Some (Eps, rest2, g2) => Some (r1, rest2, g2)
              | Some (r2, rest2, g2) => Some (Cat r1 r2, rest2, g2)
              | None => None
              end
          | None => None
          end
      end
  end
with parse_piece (fuel : nat) (fl : flags) (cs : list N) (g : nat)
  {struct fuel} : option (regex * list N * nat) :=
  match fuel with
  | O => None
  | S fuel' =>
      let quantified (atom : regex) (rest : list N) (g' : nat) :=
        match read_quantifier rest with
        | Some (q, rest') => Some (quantify q atom, rest', g')
        | None => None
        end in
      let closing (wrap : regex -> regex) (body : list N) (g' : nat) :=
        match parse_alt fuel' fl body g' with
        | Some (r, 41%N :: rest, g'') => quantified (wrap r) rest g''
        | _ => None
        end in
      match cs with
      | [] => None
      | 40%N :: 63%N :: 58%N :: body => closing (fun r => r) body g
      | 40%N :: 63%N :: 61%N :: body => closing Ahead body g
      | 40%N :: 63%N :: _ => None
      | 40%N :: body => closing (Grp g) body (S g)
      | 91%N :: 94%N :: body =>
          match read_class (S (List.length body)) body true with
          | Some (items, rest) =>
              quantified (Chr (in_class (ignorecase fl) true items)) rest g
          | None => None
          end
      | 91%N :: body =>
          match read_class (S (List.length body)) body true with
          | Some (items, rest) =>
              quantified (Chr (in_class (ignorecase fl) false items)) rest g
          | None => None
          end
      | 46%N :: rest =>
          quantified
            (Chr (fun c => dotall fl || negb (N.eqb (Py.code c) 10))) rest g
      | 94%N :: rest => quantified (Bol (multiline fl)) rest g
      | 92%N :: e :: rest =>
          if N.eqb e 100 then quantified (Chr Py.isdecimal) rest g
          else if N.eqb e 115 then quantified (Chr Py.isspace) rest g
          else if N.eqb e 90 then quantified Eos rest g
          else if N.eqb e 110 then quantified (Chr (lit false 10)) rest g
          else if is_alnum e || negb (e <? 128)%N then None
          else quantified (Chr (lit (ignorecase fl) e)) rest g
      | 92%N :: [] => None
      | c :: rest =>
          if existsb (N.eqb c) [36; 42; 43; 63; 123; 125; 93; 41; 124]%N
             || negb (literal_ok c)
          then None
          else quantified (Chr (lit (ignorecase fl) c)) rest g
      end
  end.

(** [re.compile(pattern, flags)]; a leading [(?i)] sets [IGNORECASE]. *)
Definition compile (pattern : string) (fl : flags) : option regex :=
  let cs := codepoints pattern in
  let '(fl', body) :=
    match cs with
    | 40%N :: 63%N :: 105%N :: 41%N :: body =>
        (Flags true (dotall fl) (multiline fl), body)
    | _ => (fl, cs)
    end in
  match parse_alt (3 * List.length body + 3) fl' body 1 with
  | Some (r, [], _) => Some r
  | _ => None
  end.

(** [re.search(pattern, s, flags)] *)
Definition search (pattern s : string) (fl : flags) : option match_obj :=
  match compile pattern fl with
  | Some r => scan r 0 None (list_ascii_of_string s)
  | None => None
  end.

(** [bool(re.search(pattern, s, flags))] *)
Definition found (pattern s : string) (fl : flags) : bool :=
  bool_decide (is_Some (search pattern s fl)).

(** [re.finditer(pattern, s, flags)], for a pattern that matches no empty
    string (as all patterns searched repeatedly below). *)
Definition finditer (pattern s : string) (fl : flags) : list match_obj :=
  match compile pattern fl with
  | Some r => scan_all r 0 None (list_ascii_of_string s) 0
  | None => []
  end.

(** [re.findall(pattern, s, flags)] for a pattern without groups: the
    matched texts. (With groups Python lists the group texts instead; the
    number of entries is the same.) *)
Definition findall (pattern s : string) (fl : flags) : list string :=
  List.map (fun m => Py.slice s (m_start m) (m_end m)) (finditer pattern s fl).

(** [re.split(pattern, s)] for a pattern without groups. *)
Fixpoint pieces (s : string) (from : nat) (ms : list match_obj) : list string :=
  match ms with
  | [] => [Py.drop from s]
  | m :: ms' => Py.slice s from (m_start m) :: pieces s (m_end m) ms'
  end.

Definition split (pattern s : string) : list string :=
  pieces s 0 (finditer pattern s no_flags).

(** [m.group(i)] on subject [s], for a group that took part in the match. *)
Definition group (m : match_obj) (i : nat) (s : string) : string :=
  match i with
  | O => Py.slice s (m_start m) (m_end m)
  | _ =>
      match List.find (fun e => Nat.eqb (fst e) i) (m_spans m) with
      | Some (_, (a, b)) => Py.slice s a b
      | None => EmptyString
      end
  end.

End Re.

(** ** Python arithmetic on floats *)

Module Num.

(** [float(n)] for a count or a length [n] (exact below [2^53]). *)
Definition of_nat (n : nat) : float :=
  PrimFloat.of_uint63 (Uint63.of_Z (Z.of_nat n)).

(** [max(a, b)]: the first argument unless the second is greater. *)
Definition max (a b : float) : float := if (a <? b)%float then b else a.

(** [min(a, b)]: the first argument unless the second is smaller. *)
Definition min (a b : float) : float := if (b <? a)%float then b else a.

(** [a >= b] *)
Definition ge (a b : float) : bool := (b <=? a)%float.

(** [a > b] *)
Definition gt (a b : float) : bool := (b <? a)%float.

(** [a / b]: [ZeroDivisionError] on a zero divisor. *)
Definition truediv (a b : float) : option float :=
  if (b =? 0)%float then None else Some (a / b)%float.

(** [sum(xs)] of floats, added left to right from the int [0]. (From
    CPython 3.12 on, [sum] also carries a compensation term; on at most two
    floats the result is the same.) *)
Definition sum (xs : list float) : float :=
  List.fold_left (fun acc x => (acc + x)%float) xs 0%float.

(** [round(x, 4)]: the binary64 value nearest to the decimal that is [x]
    rounded, half to even, to four places. *)
Definition round4 (x : float) : float :=
  match Prim2SF x with
  | S754_finite s m e =>
      let num := (Z.pos m * 10000 * 2 ^ Z.max e 0)%Z in
      let den := (2 ^ Z.max (- e) 0)%Z in
      let q := (num / den)%Z in
      let r := (num mod den)%Z in
      let q' := if (2 * r <? den)%Z then q
                else if (den <? 2 * r)%Z then (q + 1)%Z
                else if Z.even q then q else (q + 1)%Z in
      match q' with
      | Zpos p =>
          SF2Prim (SFdiv prec emax (S754_finite s p 0)
                     (S754_finite false 10000 0))
      | _ => SF2Prim (S754_zero s)
      end
  | _ => x
  end.

End Num.

(** ** [tools/grading_engine.py] *)

Module GradingEngine.

(** A dimension of a rubric: [{id, name, weight}]. *)
Record Dimension := {
  dim_id : string;
  dim_name : option string;
  dim_weight : option float
}.

(** The rubric mapping; every key may be absent. *)
Record Rubric := {
  rubric_dimensions : option (list Dimension);
  rubric_critical_failures : option (list string);
  rubric_pass_threshold : option float
}.

(** A key fact of a scenario: [{fact, importance}]. *)
Record KeyFact := {
  fact : option string;
  importance : option string
}.

Record EvaluationCriteria := {
  criteria_critical_failures : option (list string)
}.

Record Scenario := {
  key_facts : option (list KeyFact);
  evaluation_criteria : option EvaluationCriteria
}.

(** The state that [__init__] stores on the engine. *)
Record Engine := {
  rubric : Rubric;
  dimensions : list Dimension;
  critical_failures : list string;
  pass_threshold : float
}.

Definition init (r : Rubric) : Engine :=
  {| rubric := r;
     dimensions := default [] (rubric_dimensions r);
     critical_failures := default [] (rubric_critical_failures r);
     pass_threshold := default 70%float (rubric_pass_threshold r) |}.

(** [any(re.search(p, s) for p in patterns)] *)
Definition any_search (patterns : list string) (s : string) (fl : Re.flags)
  : bool :=
  existsb (fun p => Re.found p s fl) patterns.

(** [sum(1 for p in patterns if re.search(p, s))] *)
Definition count_search (patterns : list string) (s : string) : nat :=
  List.length (List.filter (fun p => Re.found p s Re.no_flags) patterns).

(** [sum(len(re.findall(p, s, re.I)) for p in patterns)] *)
Definition count_findall (patterns : list string) (s : string) : nat :=
  List.fold_left
    (fun acc p => acc + List.length (Re.findall p s Re.I)) patterns 0.

Definition calculation_context_patterns : list string :=
  [ "(?i)(position|sizing|notional|volatility.adjusted|risk.contribution)";
    "(?i)(factor.{0,20}decomposition|attribution)";
    "(?i)(hedge|hedging).{0,20}(instrument|framework)";
    "(?i)(terminal|dcf|valuation).{0,20}(value|framework)" ].

(** The loop over [output_figures[:10]] with its counter. *)
Definition count_unmatched (figures fact_values : list string) : nat :=
  List.fold_left
    (fun unmatched_count fig =>
       if negb (existsb (fun fv => Py.contains fig fv) fact_values)
       then unmatched_count + 1
       else unmatched_count)
    (List.firstn 10 figures) 0.

Definition _detect_hallucination (ai_output : string) (scenario : Scenario)
  : bool :=
  let facts := default [] (key_facts scenario) in
  let fact_values :=
    List.fold_left
      (fun values f =>
         values ++ Re.findall "\$[\d,.]+[BMK]?|\d+\.?\d*%|\d{4}"
                     (default "" (fact f)) Re.no_flags)
      facts [] in
  let output_figures := Re.findall "\$[\d,.]+[BMK]?" ai_output Re.no_flags in
  let has_calculation_context :=
    any_search calculation_context_patterns ai_output Re.no_flags in
  if has_calculation_context then false
  else Nat.ltb 5 (count_unmatched output_figures fact_values).

Definition risk_patterns : list string :=
  [ "(?i)## ?risks?";
    "(?i)### ?key risks?";
    "(?i)risk assessment";
    "(?i)what could go wrong";
    "(?i)downside";
    "(?i)what.{0,20}wrong";
    "(?i)residual.{0,20}exposure";
    "(?i)unhedged";
    "(?i)factor.{0,20}drag";
    "(?i)critical.{0,20}failure";
    "(?i)common.{0,20}errors" ].

(** The loop of [_has_risk_section]: the first pattern whose first match is
    followed by enough text returns [True]. *)
Fixpoint risk_loop (patterns : list string) (ai_output : string) : bool :=
  match patterns with
  | [] => false
  | pattern :: rest =>
      match Re.search pattern ai_output Re.no_flags with
      | Some m =>
          let after_header :=
            Py.slice ai_output (Re.m_end m) (Re.m_end m + 200) in
          if Nat.ltb 50 (Py.len (Py.strip after_header)) then true
          else risk_loop rest ai_output
      | None => risk_loop rest ai_output
      end
  end.

Definition _has_risk_section (ai_output : string) : bool :=
  risk_loop risk_patterns ai_output.

Definition guarantee_patterns : list string :=
  [ "(?i)guaranteed";
    "(?i)will definitely";
    "(?i)certain to";
    "(?i)cannot fail";
    "(?i)100% chance";
    "(?i)risk.free" ].

Definition _has_guarantee_language (ai_output : string) : bool :=
  any_search guarantee_patterns ai_output Re.no_flags.

Definition _check_scenario_critical_failure (ai_output critical_failure : string)
  : bool :=
  let lower_failure := Py.lower critical_failure in
  if Py.contains "no probability estimate" lower_failure then
    let prob_patterns := ["\d+%"; "probability"; "likelihood"; "chance"] in
    let has_probability := any_search prob_patterns ai_output Re.I in
    negb has_probability
  else if Py.contains "ignores binary" lower_failure
          || Py.contains "binary nature" lower_failure then
    let scenario_patterns :=
      [ "if.*succeed"; "if.*fail"; "success.*scenario"; "failure.*scenario";
        "bull.*case"; "bear.*case"; "base.*case";
        "upside.*downside"; "asymmetric";
        "binary"; "catalyst";
        "probability.*success"; "probability.*fail";
        "\d+%.*probability"; "\d+%.*chance" ] in
    let has_scenarios := any_search scenario_patterns ai_output Re.I in
    negb has_scenarios
  else false.

Definition _check_critical_failures (ai_output : string) (scenario : Scenario)
  : list string :=
  let failures := [] in
  let failures :=
    if _detect_hallucination ai_output scenario
    then failures ++ ["Potential hallucinated data detected"] else failures in
  let failures :=
    if negb (_has_risk_section ai_output)
    then failures ++ ["Missing or inadequate risk assessment section"]
    else failures in
  let failures :=
    if _has_guarantee_language ai_output
    then failures ++ ["Contains forward-looking guarantees"] else failures in
  let scenario_critical :=
    match evaluation_criteria scenario with
    | Some ec => default [] (criteria_critical_failures ec)
    | None => []
    end in
  List.fold_left
    (fun failures critical =>
       if _check_scenario_critical_failure ai_output critical
       then failures ++ ["Scenario critical failure: " +:+ critical]
       else failures)
    scenario_critical failures.

(** *** Dimension scorers *)

(** [min(100.0, max(0.0, score))] *)
Definition clamp (score : float) : float :=
  Num.min 100%float (Num.max 0%float score).

(** ["; ".join(feedback_parts) if feedback_parts else fallback] *)
Definition feedback_of (feedback_parts : list string) (fallback : string)
  : string :=
  match feedback_parts with
  | [] => fallback
  | _ => Py.join "; " feedback_parts
  end.

Definition count_critical_facts (ai_output : string) (facts : list KeyFact)
  : nat :=
  List.fold_left
    (fun facts_found fact_obj =>
       let fact_text := default "" (fact fact_obj) in
       match importance fact_obj with
       | Some imp =>
           if String.eqb imp "critical" then
             let key_terms := List.firstn 5 (Py.split fact_text) in
             if existsb
                  (fun term => Py.contains (Py.lower term) (Py.lower ai_output))
                  (List.filter (fun term => Nat.ltb 4 (Py.len term)) key_terms)
             then facts_found + 1 else facts_found
           else facts_found
       | None => facts_found
       end)
    facts 0.

Definition _score_factual_accuracy (ai_output : string) (scenario : Scenario)
    (dimension : Dimension) : float * string :=
  let score := 70%float in
  let feedback_parts : list string := [] in
  let citation_patterns :=
    [ "10-[KQ]"; "Q[1-4]\s*20\d{2}"; "\(source:"; "according to"; "per the" ] in
  let citation_count := count_findall citation_patterns ai_output in
  let '(score, feedback_parts) :=
    if Nat.leb 5 citation_count
    then ((score + 10)%float, feedback_parts ++ ["Good citation density"])
    else if Nat.leb 2 citation_count
    then ((score + 5)%float, feedback_parts ++ ["Adequate citations present"])
    else ((score - 10)%float, feedback_parts ++ ["Insufficient citations"]) in
  let facts := default [] (key_facts scenario) in
  let facts_found := count_critical_facts ai_output facts in
  let '(score, feedback_parts) :=
    if Nat.leb 3 facts_found
    then ((score + 10)%float, feedback_parts ++ ["Key facts addressed"])
    else if Nat.leb 1 facts_found
    then ((score + 5)%float, feedback_parts ++ ["Some key facts addressed"])
    else (score, feedback_parts) in
  let score := clamp score in
  (score, feedback_of feedback_parts "Standard factual accuracy").

Definition _score_analytical_rigor (ai_output : string) (scenario : Scenario)
    (dimension : Dimension) : float * string :=
  let score := 70%float in
  let feedback_parts : list string := [] in
  let scenario_keywords :=
    ["bull case"; "bear case"; "base case"; "upside"; "downside"; "scenario"] in
  let scenario_count :=
    List.length
      (List.filter (fun kw => Py.contains kw (Py.lower ai_output))
         scenario_keywords) in
  let '(score, feedback_parts) :=
    if Nat.leb 3 scenario_count
    then ((score + 15)%float, feedback_parts ++ ["Good scenario analysis present"])
    else if Nat.leb 1 scenario_count
    then ((score + 5)%float, feedback_parts ++ ["Some scenario consideration"])
    else ((score - 10)%float, feedback_parts ++ ["Limited scenario analysis"]) in
  let assumption_keywords :=
    ["assuming"; "assumption"; "we assume"; "estimate"; "projected"] in
  let assumption_count := count_findall assumption_keywords ai_output in
  let '(score, feedback_parts) :=
    if Nat.leb 5 assumption_count
    then ((score + 10)%float, feedback_parts ++ ["Assumptions are explicit"])
    else if Nat.leb 2 assumption_count
    then ((score + 5)%float, feedback_parts ++ ["Some assumptions stated"])
    else (score, feedback_parts) in
  let structure_patterns :=
    ["therefore"; "thus"; "because"; "as a result"; "consequently"] in
  let structure_count := count_findall structure_patterns ai_output in
  let '(score, feedback_parts) :=
    if Nat.leb 3 structure_count
    then ((score + 5)%float, feedback_parts ++ ["Good logical flow"])
    else (score, feedback_parts) in
  let score := clamp score in
  (score, feedback_of feedback_parts "Standard analytical rigor").

Definition _score_risk_assessment (ai_output : string) (scenario : Scenario)
    (dimension : Dimension) : float * string :=
  let score := 60%float in
  let feedback_parts : list string := [] in
  let risk_section_match :=
    Re.search "(?i)(##.*risk|risk.*:)(.*?)(?=##|\Z)" ai_output Re.DOTALL in
  let '(score, feedback_parts) :=
    match risk_section_match with
    | Some m =>
        let risk_section := Re.group m 2 ai_output in
        let risk_items :=
          List.length (Re.findall "[-•\*]|\d+\." risk_section Re.no_flags) in
        if Nat.leb 5 risk_items
        then ((score + 20)%float,
              feedback_parts ++
                ["Comprehensive risk list (" +:+ Py.str_nat risk_items
                 +:+ "+ risks)"])
        else if Nat.leb 3 risk_items
        then ((score + 10)%float,
              feedback_parts ++
                ["Adequate risk coverage (" +:+ Py.str_nat risk_items
                 +:+ " risks)"])
        else (score, feedback_parts ++ ["Limited risk identification"])
    | None => ((score - 15)%float, feedback_parts ++ ["No clear risk section"])
    end in
  let prob_impact_patterns :=
    [ "(?i)probability"; "(?i)likelihood"; "(?i)impact"; "(?i)severity";
      "\d+%.*risk"; "(?i)(high|medium|low)\s*(probability|impact|risk)" ] in
  let has_assessment := any_search prob_impact_patterns ai_output Re.no_flags in
  let '(score, feedback_parts) :=
    if has_assessment
    then ((score + 15)%float,
          feedback_parts ++ ["Includes probability/impact assessment"])
    else (score, feedback_parts) in
  let '(score, feedback_parts) :=
    if Re.found "(?i)mitigat|hedge|protect" ai_output Re.no_flags
    then ((score + 5)%float, feedback_parts ++ ["Discusses risk mitigation"])
    else (score, feedback_parts) in
  let score := clamp score in
  (score, feedback_of feedback_parts "Standard risk assessment").

Definition _score_evidence_quality (ai_output : string) (scenario : Scenario)
    (dimension : Dimension) : float * string :=
  let score := 70%float in
  let feedback_parts : list string := [] in
  let specific_source_patterns :=
    [ "10-K"; "10-Q"; "8-K"; "earnings call"; "transcript";
      "investor presentation"; "Bloomberg"; "FactSet" ] in
  let source_count := count_findall specific_source_patterns ai_output in
  let '(score, feedback_parts) :=
    if Nat.leb 5 source_count
    then ((score + 15)%float, feedback_parts ++ ["Excellent source citations"])
    else if Nat.leb 2 source_count
    then ((score + 10)%float, feedback_parts ++ ["Good source references"])
    else ((score - 5)%float, feedback_parts ++ ["Limited source citations"]) in
  let calc_patterns := ["="; "\$\d+.*[x×\*]"; "EPS.*\$"; "P/E.*\d+"] in
  let has_calculations := any_search calc_patterns ai_output Re.no_flags in
  let '(score, feedback_parts) :=
    if has_calculations
    then ((score + 10)%float, feedback_parts ++ ["Includes shown calculations"])
    else (score, feedback_parts) in
  let score := clamp score in
  (score, feedback_of feedback_parts "Standard evidence quality").

Section Scoring.

(** The order in which Python iterates over a set of strings, given its
    elements: it depends on the hash seed of the process. *)
Variable set_order : list string -> list string.

Definition required_sections : list (string * list string) :=
  [ ("thesis", ["thesis"; "investment case"; "recommendation"]);
    ("valuation", ["valuation"; "price target"; "fair value"]);
    ("risks", ["risk"; "downside"; "bear case"]);
    ("catalyst", ["catalyst"; "trigger"; "timeline"; "event"]);
    ("position", ["position"; "sizing"; "allocation"; "portfolio"]) ].

Definition _score_completeness (ai_output : string) (scenario : Scenario)
    (dimension : Dimension) : float * string :=
  let score := 60%float in
  let feedback_parts : list string := [] in
  let sections_found :=
    List.map fst
      (List.filter
         (fun entry =>
            existsb (fun kw => Py.contains kw (Py.lower ai_output)) (snd entry))
         required_sections) in
  let coverage :=
    (Num.of_nat (List.length sections_found)
     / Num.of_nat (List.length required_sections))%float in
  let '(score, feedback_parts) :=
    if Num.ge coverage 0.9%float
    then ((score + 25)%float, feedback_parts ++ ["All major sections covered"])
    else if Num.ge coverage 0.7%float
    then ((score + 15)%float, feedback_parts ++ ["Most sections covered"])
    else if Num.ge coverage 0.5%float
    then ((score + 5)%float, feedback_parts ++ ["Some sections missing"])
    else
      let missing :=
        set_order
          (List.filter
             (fun section =>
                negb (existsb (String.eqb section) sections_found))
             (List.map fst required_sections)) in
      ((score - 15)%float,
       feedback_parts ++ ["Missing sections: " +:+ Py.join ", " missing]) in
  let has_bull :=
    existsb (fun kw => Py.contains kw (Py.lower ai_output))
      ["bull"; "upside"; "positive"] in
  let has_bear :=
    existsb (fun kw => Py.contains kw (Py.lower ai_output))
      ["bear"; "downside"; "risk"; "concern"] in
  let '(score, feedback_parts) :=
    if has_bull && has_bear
    then ((score + 10)%float,
          feedback_parts ++ ["Balanced bull/bear presentation"])
    else (score, feedback_parts) in
  let score := clamp score in
  (score, feedback_of feedback_parts "Standard completeness").

Definition _score_alpha_environment (ai_output : string) (scenario : Scenario)
    (dimension : Dimension) : float * string :=
  let score := 50%float in
  let feedback_parts : list string := [] in
  let separation_patterns :=
    [ "(?i)alpha.{0,30}(vs|versus|from|and).{0,30}environment";
      "(?i)company.specific.{0,30}(vs|versus|from).{0,30}(market|sector|macro)";
      "(?i)idiosyncratic.{0,30}(vs|versus|from).{0,30}(systematic|factor)";
      "(?i)durable.{0,30}(vs|versus|from).{0,30}(cyclical|temporary)";
      "(?i)environmental.{0,30}tailwind";
      "(?i)structural.{0,30}(vs|versus|from).{0,30}cyclical" ] in
  let separation_count := count_search separation_patterns ai_output in
  let '(score, feedback_parts) :=
    if Nat.leb 2 separation_count
    then ((score + 25)%float,
          feedback_parts ++ ["Strong alpha/environment separation"])
    else if Nat.leb 1 separation_count
    then ((score + 15)%float,
          feedback_parts ++ ["Some alpha/environment distinction"])
    else ((score - 10)%float,
          feedback_parts ++ ["No alpha/environment separation"]) in
  let quantification_patterns :=
    [ "\d+%?\s*(of|from)\s*(growth|outperformance|return)";
      "(?i)(contributed|drove|explained).{0,30}\d+%";
      "(?i)\d+.{0,5}%\s*(was|came from|attributable)" ] in
  let has_quantification :=
    any_search quantification_patterns ai_output Re.no_flags in
  let '(score, feedback_parts) :=
    if has_quantification
    then ((score + 15)%float,
          feedback_parts ++ ["Quantifies driver contributions"])
    else (score, feedback_parts) in
  let extrapolation_warning_patterns :=
    [ "(?i)cannot.{0,20}extrapolate";
      "(?i)not.{0,15}sustainable";
      "(?i)temporary.{0,15}(tailwind|boost|benefit)";
      "(?i)normalize";
      "(?i)revert.{0,15}mean" ] in
  let has_extrapolation_awareness :=
    any_search extrapolation_warning_patterns ai_output Re.no_flags in
  let '(score, feedback_parts) :=
    if has_extrapolation_awareness
    then ((score + 10)%float,
          feedback_parts ++ ["Warns against environmental extrapolation"])
    else (score, feedback_parts) in
  let score := clamp score in
  (score, feedback_of feedback_parts "Standard alpha/environment analysis").

Definition _score_risk_treatment (ai_output : string) (scenario : Scenario)
    (dimension : Dimension) : float * string :=
  let score := 50%float in
  let feedback_parts : list string := [] in
  let scenario_patterns :=
    [ "(?i)bull.{0,10}case";
      "(?i)bear.{0,10}case";
      "(?i)base.{0,10}case";
      "(?i)scenario.{0,20}analysis";
      "(?i)sensitivity";
      "(?i)probability.weighted" ] in
  let scenario_count := count_search scenario_patterns ai_output in
  let '(score, feedback_parts) :=
    if Nat.leb 3 scenario_count
    then ((score + 20)%float,
          feedback_parts ++ ["Comprehensive scenario analysis"])
    else if Nat.leb 2 scenario_count
    then ((score + 10)%float, feedback_parts ++ ["Includes scenario analysis"])
    else (score, feedback_parts) in
  let uncertainty_patterns :=
    [ "(?i)uncertainty";
      "(?i)not.{0,10}hedged";
      "(?i)residual.{0,10}risk";
      "(?i)what.{0,15}wrong";
      "(?i)unhedged" ] in
  let uncertainty_count := count_search uncertainty_patterns ai_output in
  let '(score, feedback_parts) :=
    if Nat.leb 2 uncertainty_count
    then ((score + 15)%float,
          feedback_parts ++ ["Explicit uncertainty acknowledgment"])
    else if Nat.leb 1 uncertainty_count
    then ((score + 5)%float, feedback_parts ++ ["Some uncertainty discussion"])
    else (score, feedback_parts) in
  let '(score, feedback_parts) :=
    if Re.found "\d+%\s*(probability|chance|likelihood)" ai_output Re.I
    then ((score + 15)%float,
          feedback_parts ++ ["Probability-weighted scenarios"])
    else (score, feedback_parts) in
  let score := clamp score in
  (score, feedback_of feedback_parts "Standard risk treatment").

Definition _score_terminal_value (ai_output : string) (scenario : Scenario)
    (dimension : Dimension) : float * string :=
  let score := 50%float in
  let feedback_parts : list string := [] in
  let terminal_patterns :=
    [ "(?i)terminal.{0,15}(growth|value|rate)";
      "(?i)perpetuity";
      "(?i)exit.{0,10}multiple";
      "(?i)long.term.{0,10}growth" ] in
  let has_terminal := any_search terminal_patterns ai_output Re.no_flags in
  let '(score, feedback_parts) :=
    if has_terminal
    then ((score + 15)%float, feedback_parts ++ ["Addresses terminal value"])
    else (score, feedback_parts) in
  let gdp_patterns :=
    [ "(?i)(at|near|around).{0,10}GDP";
      "(?i)nominal.{0,10}GDP";
      "(?i)inflation.{0,10}plus";
      "(?i)(2|3|4)%\s*terminal";
      "(?i)cannot.{0,20}perpetuity" ] in
  let has_gdp_anchor := any_search gdp_patterns ai_output Re.no_flags in
  let '(score, feedback_parts) :=
    if has_gdp_anchor
    then ((score + 20)%float,
          feedback_parts ++ ["Terminal growth anchored appropriately"])
    else (score, feedback_parts ++ ["Terminal growth may lack grounding"]) in
  let consistency_patterns :=
    [ "(?i)consistent";
      "(?i)reinvestment.{0,20}(rate|ratio)";
      "(?i)ROIC.{0,20}WACC";
      "(?i)implied.{0,15}(margin|return|growth)" ] in
  let has_consistency := any_search consistency_patterns ai_output Re.no_flags in
  let '(score, feedback_parts) :=
    if has_consistency
    then ((score + 15)%float, feedback_parts ++ ["Internal consistency checked"])
    else (score, feedback_parts) in
  let score := clamp score in
  (score, feedback_of feedback_parts "Standard terminal value analysis").

Definition _score_cyclical_structural (ai_output : string) (scenario : Scenario)
    (dimension : Dimension) : float * string :=
  let score := 50%float in
  let feedback_parts : list string := [] in
  let cyclical_patterns :=
    [ "(?i)cyclical.{0,20}(vs|versus|or).{0,20}structural";
      "(?i)temporary.{0,20}(vs|versus|or).{0,20}permanent";
      "(?i)normalize";
      "(?i)mean.{0,10}revert";
      "(?i)mid.cycle";
      "(?i)through.cycle" ] in
  let cyclical_count := count_search cyclical_patterns ai_output in
  let '(score, feedback_parts) :=
    if Nat.leb 2 cyclical_count
    then ((score + 25)%float,
          feedback_parts ++ ["Strong cyclical/structural analysis"])
    else if Nat.leb 1 cyclical_count
    then ((score + 10)%float, feedback_parts ++ ["Some cyclical awareness"])
    else (score, feedback_parts) in
  let normalized_patterns :=
    [ "(?i)normalized.{0,15}(earnings|margin|revenue)";
      "(?i)sustainable.{0,15}(level|margin|growth)";
      "(?i)peak.{0,15}(vs|versus|or).{0,15}trough" ] in
  let has_normalized := any_search normalized_patterns ai_output Re.no_flags in
  let '(score, feedback_parts) :=
    if has_normalized
    then ((score + 20)%float, feedback_parts ++ ["Uses normalized metrics"])
    else (score, feedback_parts) in
  let score := clamp score in
  (score, feedback_of feedback_parts "Standard cyclical analysis").

Definition _score_risk_classification (ai_output : string) (scenario : Scenario)
    (dimension : Dimension) : float * string :=
  let score := 50%float in
  let feedback_parts : list string := [] in
  let env_idio_patterns :=
    [ "(?i)environmental.{0,20}(vs|versus|from).{0,20}idiosyncratic";
      "(?i)systematic.{0,20}(vs|versus|from).{0,20}specific";
      "(?i)factor.{0,20}(vs|versus|from).{0,20}stock";
      "(?i)market.{0,20}(vs|versus|from).{0,20}company";
      "(?i)beta.{0,20}(vs|versus|from).{0,20}alpha" ] in
  let env_idio_count := count_search env_idio_patterns ai_output in
  let '(score, feedback_parts) :=
    if Nat.leb 2 env_idio_count
    then ((score + 25)%float, feedback_parts ++ ["Strong env/idio classification"])
    else if Nat.leb 1 env_idio_count
    then ((score + 15)%float, feedback_parts ++ ["Some risk classification"])
    else (score, feedback_parts) in
  let risk_types :=
    [ "(?i)beta"; "(?i)sector"; "(?i)factor"; "(?i)volatility";
      "(?i)duration"; "(?i)liquidity"; "(?i)correlation" ] in
  let risk_type_count := count_search risk_types ai_output in
  let '(score, feedback_parts) :=
    if Nat.leb 4 risk_type_count
    then ((score + 20)%float, feedback_parts ++ ["Comprehensive risk taxonomy"])
    else if Nat.leb 2 risk_type_count
    then ((score + 10)%float, feedback_parts ++ ["Multiple risks identified"])
    else (score, feedback_parts) in
  let score := clamp score in
  (score, feedback_of feedback_parts "Standard risk classification").

Definition _score_hedging_logic (ai_output : string) (scenario : Scenario)
    (dimension : Dimension) : float * string :=
  let score := 50%float in
  let feedback_parts : list string := [] in
  let hedge_logic_patterns :=
    [ "(?i)hedge.{0,30}environmental";
      "(?i)hedge.{0,30}(factor|systematic|beta)";
      "(?i)keep.{0,20}(idiosyncratic|specific|alpha)";
      "(?i)(don't|do not).{0,15}hedge.{0,15}(alpha|thesis)";
      "(?i)what.{0,10}(to|not to).{0,10}hedge" ] in
  let hedge_logic_count := count_search hedge_logic_patterns ai_output in
  let '(score, feedback_parts) :=
    if Nat.leb 2 hedge_logic_count
    then ((score + 25)%float, feedback_parts ++ ["Strong hedging logic"])
    else if Nat.leb 1 hedge_logic_count
    then ((score + 15)%float, feedback_parts ++ ["Some hedging rationale"])
    else (score, feedback_parts) in
  let instrument_patterns :=
    [ "(?i)(SPY|XLV|XBI|XLK|QQQ)";
      "(?i)(ETF|index).{0,15}hedge";
      "(?i)(put|call|option)";
      "(?i)futures";
      "(?i)overlay" ] in
  let has_instruments := any_search instrument_patterns ai_output Re.no_flags in
  let '(score, feedback_parts) :=
    if has_instruments
    then ((score + 15)%float, feedback_parts ++ ["Specific hedge instruments"])
    else (score, feedback_parts) in
  let residual_patterns :=
    [ "(?i)residual.{0,15}exposure";
      "(?i)unhedged.{0,15}(risk|exposure)";
      "(?i)remain.{0,15}exposed";
      "(?i)accept.{0,15}(as|exposure)" ] in
  let has_residual := any_search residual_patterns ai_output Re.no_flags in
  let '(score, feedback_parts) :=
    if has_residual
    then ((score + 10)%float,
          feedback_parts ++ ["Acknowledges residual exposure"])
    else (score, feedback_parts) in
  let score := clamp score in
  (score, feedback_of feedback_parts "Standard hedging analysis").

Definition _score_sizing_methodology (ai_output : string) (scenario : Scenario)
    (dimension : Dimension) : float * string :=
  let score := 50%float in
  let feedback_parts : list string := [] in
  let risk_sizing_patterns :=
    [ "(?i)volatility.{0,20}(adjusted|based|weighted)";
      "(?i)risk.{0,20}(contribution|parity|weighted)";
      "(?i)dollar.{0,20}(vs|versus|≠).{0,20}risk";
      "(?i)notional.{0,20}(vs|versus|≠).{0,20}risk";
      "(?i)equal.{0,15}(vol|risk|volatility)";
      "(?i)size.{0,20}(on|for|by).{0,20}risk" ] in
  let risk_sizing_count := count_search risk_sizing_patterns ai_output in
  let '(score, feedback_parts) :=
    if Nat.leb 2 risk_sizing_count
    then ((score + 25)%float, feedback_parts ++ ["Strong risk-based sizing"])
    else if Nat.leb 1 risk_sizing_count
    then ((score + 15)%float, feedback_parts ++ ["Some risk-based sizing"])
    else (score, feedback_parts ++ ["May use notional sizing only"]) in
  let vol_patterns :=
    [ "\d+%\s*(vol|volatility|σ)";
      "(?i)(vol|volatility).{0,10}\d+%";
      "(?i)\$[\d.]+M?.{0,10}(at|×).{0,10}\d+%" ] in
  let has_vol_calc := any_search vol_patterns ai_output Re.no_flags in
  let '(score, feedback_parts) :=
    if has_vol_calc
    then ((score + 15)%float,
          feedback_parts ++ ["Includes volatility calculations"])
    else (score, feedback_parts) in
  let binary_patterns :=
    [ "(?i)binary.{0,20}(risk|event|sizing)";
      "(?i)max.{0,10}loss";
      "(?i)event.{0,20}sizing";
      "(?i)defined.{0,10}risk" ] in
  let has_binary := any_search binary_patterns ai_output Re.no_flags in
  let '(score, feedback_parts) :=
    if has_binary
    then ((score + 10)%float,
          feedback_parts ++ ["Addresses binary event sizing"])
    else (score, feedback_parts) in
  let score := clamp score in
  (score, feedback_of feedback_parts "Standard sizing methodology").

Definition _score_risk_placement (ai_output : string) (scenario : Scenario)
    (dimension : Dimension) : float * string :=
  let score := 50%float in
  let feedback_parts : list string := [] in
  let exposure_patterns :=
    [ "(?i)gross.{0,10}exposure";
      "(?i)net.{0,10}exposure";
      "(?i)portfolio.{0,10}(weight|allocation)";
      "(?i)risk.{0,10}budget" ] in
  let exposure_count := count_search exposure_patterns ai_output in
  let '(score, feedback_parts) :=
    if Nat.leb 2 exposure_count
    then ((score + 20)%float, feedback_parts ++ ["Discusses exposure management"])
    else if Nat.leb 1 exposure_count
    then ((score + 10)%float, feedback_parts ++ ["Some exposure discussion"])
    else (score, feedback_parts) in
  let risk_budget_patterns :=
    [ "(?i)risk.{0,15}contribution";
      "(?i)risk.{0,15}budget";
      "(?i)\d+%\s*(of|portfolio).{0,15}(risk|vol)" ] in
  let has_risk_budget := any_search risk_budget_patterns ai_output Re.no_flags in
  let '(score, feedback_parts) :=
    if has_risk_budget
    then ((score + 15)%float, feedback_parts ++ ["Risk budgeting present"])
    else (score, feedback_parts) in
  let score := clamp score in
  (score, feedback_of feedback_parts "Standard risk placement").

Definition _score_uncertainty_judgment (ai_output : string) (scenario : Scenario)
    (dimension : Dimension) : float * string :=
  let score := 50%float in
  let feedback_parts : list string := [] in
  let uncertainty_patterns :=
    [ "(?i)uncertain";
      "(?i)unknown";
      "(?i)range.{0,15}outcome";
      "(?i)confidence";
      "(?i)probability" ] in
  let uncertainty_count := count_search uncertainty_patterns ai_output in
  let '(score, feedback_parts) :=
    if Nat.leb 3 uncertainty_count
    then ((score + 20)%float,
          feedback_parts ++ ["Strong uncertainty acknowledgment"])
    else if Nat.leb 1 uncertainty_count
    then ((score + 10)%float, feedback_parts ++ ["Some uncertainty discussion"])
    else (score, feedback_parts) in
  let what_if_patterns :=
    [ "(?i)what.{0,10}if";
      "(?i)what.{0,15}change.{0,15}view";
      "(?i)revisit.{0,15}if";
      "(?i)monitor.{0,15}for" ] in
  let has_what_if := any_search what_if_patterns ai_output Re.no_flags in
  let '(score, feedback_parts) :=
    if has_what_if
    then ((score + 15)%float, feedback_parts ++ ["Includes contingency planning"])
    else (score, feedback_parts) in
  let score := clamp score in
  (score, feedback_of feedback_parts "Standard uncertainty handling").

Definition _score_attribution_discipline (ai_output : string)
    (scenario : Scenario) (dimension : Dimension) : float * string :=
  let score := 50%float in
  let feedback_parts : list string := [] in
  let factor_patterns :=
    [ "(?i)factor.{0,20}(decomposition|attribution|contribution)";
      "(?i)factor.{0,20}drag";
      "(?i)(biotech|small.cap|growth|value|momentum).{0,20}(factor|tilt|exposure)";
      "(?i)overweight.{0,20}×.{0,20}return";
      "(?i)\d+%\s*(overweight|underweight).{0,20}-?\d+%" ] in
  let factor_count := count_search factor_patterns ai_output in
  let '(score, feedback_parts) :=
    if Nat.leb 3 factor_count
    then ((score + 25)%float, feedback_parts ++ ["Strong factor decomposition"])
    else if Nat.leb 1 factor_count
    then ((score + 15)%float, feedback_parts ++ ["Some factor analysis"])
    else (score, feedback_parts ++ ["Limited factor decomposition"]) in
  let residual_patterns :=
    [ "(?i)residual.{0,15}alpha";
      "(?i)after.{0,20}(factor|adjustment)";
      "(?i)stock.selection.{0,20}(after|net|excluding)";
      "(?i)(explained|unexplained).{0,15}by.{0,15}factor" ] in
  let has_residual := any_search residual_patterns ai_output Re.no_flags in
  let '(score, feedback_parts) :=
    if has_residual
    then ((score + 20)%float, feedback_parts ++ ["Calculates residual alpha"])
    else (score, feedback_parts) in
  let '(score, feedback_parts) :=
    if Re.found "\d+%.{0,15}×.{0,15}-?\d+%" ai_output Re.no_flags
    then ((score + 10)%float,
          feedback_parts ++ ["Shows calculation methodology"])
    else (score, feedback_parts) in
  let score := clamp score in
  (score, feedback_of feedback_parts "Standard attribution analysis").

Definition _score_hypothesis_testing (ai_output : string) (scenario : Scenario)
    (dimension : Dimension) : float * string :=
  let score := 50%float in
  let feedback_parts : list string := [] in
  let hypothesis_patterns :=
    [ "(?i)hypothesis";
      "(?i)if.{0,20}(true|correct).{0,20}expect";
      "(?i)falsif";
      "(?i)(test|testing).{0,20}(belief|assumption|claim)";
      "(?i)evidence.{0,20}(would|should).{0,20}(show|support)" ] in
  let hypothesis_count := count_search hypothesis_patterns ai_output in
  let '(score, feedback_parts) :=
    if Nat.leb 2 hypothesis_count
    then ((score + 25)%float, feedback_parts ++ ["Strong hypothesis testing"])
    else if Nat.leb 1 hypothesis_count
    then ((score + 15)%float, feedback_parts ++ ["Some hypothesis testing"])
    else (score, feedback_parts ++ ["Limited hypothesis testing"]) in
  let skepticism_patterns :=
    [ "(?i)(not|doesn't|does not).{0,15}support";
      "(?i)inconsistent.{0,15}with";
      "(?i)alternative.{0,15}explanation";
      "(?i)(question|questioning).{0,15}(PM|narrative|belief)" ] in
  let has_skepticism := any_search skepticism_patterns ai_output Re.no_flags in
  let '(score, feedback_parts) :=
    if has_skepticism
    then ((score + 15)%float, feedback_parts ++ ["Shows appropriate skepticism"])
    else (score, feedback_parts) in
  let evidence_patterns :=
    [ "(?i)evidence.{0,20}(suggests|shows|indicates)";
      "(?i)data.{0,15}(suggests|shows|indicates)";
      "(?i)analysis.{0,15}(suggests|shows|reveals)" ] in
  let has_evidence := any_search evidence_patterns ai_output Re.no_flags in
  let '(score, feedback_parts) :=
    if has_evidence
    then ((score + 10)%float, feedback_parts ++ ["Evidence-based conclusions"])
    else (score, feedback_parts) in
  let score := clamp score in
  (score, feedback_of feedback_parts "Standard hypothesis testing").

Definition _score_contextual_evaluation (ai_output : string)
    (scenario : Scenario) (dimension : Dimension) : float * string :=
  let score := 50%float in
  let feedback_parts : list string := [] in
  let conditional_patterns :=
    [ "(?i)conditional.{0,15}on.{0,15}environment";
      "(?i)control.{0,20}for.{0,20}(factor|environment)";
      "(?i)after.{0,20}(adjusting|controlling).{0,20}for";
      "(?i)environment.{0,20}neutral";
      "(?i)skill.{0,20}(given|conditional|after)" ] in
  let conditional_count := count_search conditional_patterns ai_output in
  let '(score, feedback_parts) :=
    if Nat.leb 2 conditional_count
    then ((score + 20)%float, feedback_parts ++ ["Evaluates skill conditionally"])
    else if Nat.leb 1 conditional_count
    then ((score + 10)%float, feedback_parts ++ ["Some conditional evaluation"])
    else (score, feedback_parts) in
  let intentionality_patterns :=
    [ "(?i)intentional.{0,20}(vs|versus|or).{0,20}(unintentional|accidental)";
      "(?i)was.{0,20}(intentional|deliberate|chosen)";
      "(?i)(chosen|deliberate).{0,20}(bet|exposure|tilt)";
      "(?i)accidental.{0,20}(accumulation|exposure)" ] in
  let has_intentionality :=
    any_search intentionality_patterns ai_output Re.no_flags in
  let '(score, feedback_parts) :=
    if has_intentionality
    then ((score + 20)%float,
          feedback_parts ++ ["Addresses intentionality question"])
    else (score, feedback_parts) in
  let neutral_skepticism_patterns :=
    [ "(?i)(not|wasn't|was not).{0,15}neutral.{0,15}environment";
      "(?i)silent.{0,15}(rotation|factor|regime)";
      "(?i)environment.{0,20}(wasn't|was not|not).{0,15}neutral" ] in
  let has_neutral_skepticism :=
    any_search neutral_skepticism_patterns ai_output Re.no_flags in
  let '(score, feedback_parts) :=
    if has_neutral_skepticism
    then ((score + 10)%float,
          feedback_parts ++ ["Questions neutral environment assumption"])
    else (score, feedback_parts) in
  let score := clamp score in
  (score, feedback_of feedback_parts "Standard contextual evaluation").

Definition _score_with_llm (ai_output : string) (scenario : Scenario)
    (dimension : Dimension) : float * string :=
  (75%float, "LLM scoring not yet implemented").

(** The [if]/[elif] chain on [dimension["id"]]. *)
Definition _score_dimension (ai_output : string) (scenario : Scenario)
    (dimension : Dimension) (use_llm : bool) : float * string :=
  let id := dim_id dimension in
  if use_llm then _score_with_llm ai_output scenario dimension
  else if String.eqb id "factual_accuracy"
  then _score_factual_accuracy ai_output scenario dimension
  else if String.eqb id "analytical_rigor"
  then _score_analytical_rigor ai_output scenario dimension
  else if String.eqb id "risk_assessment"
  then _score_risk_assessment ai_output scenario dimension
  else if String.eqb id "evidence_quality"
  then _score_evidence_quality ai_output scenario dimension
  else if String.eqb id "completeness"
  then _score_completeness ai_output scenario dimension
  else if String.eqb id "alpha_environment"
  then _score_alpha_environment ai_output scenario dimension
  else if String.eqb id "risk_treatment"
  then _score_risk_treatment ai_output scenario dimension
  else if String.eqb id "terminal_value"
  then _score_terminal_value ai_output scenario dimension
  else if String.eqb id "risk_classification"
  then _score_risk_classification ai_output scenario dimension
  else if String.eqb id "hedging_logic"
  then _score_hedging_logic ai_output scenario dimension
  else if String.eqb id "sizing_methodology"
  then _score_sizing_methodology ai_output scenario dimension
  else if String.eqb id "attribution_discipline"
  then _score_attribution_discipline ai_output scenario dimension
  else if String.eqb id "hypothesis_testing"
  then _score_hypothesis_testing ai_output scenario dimension
  else if String.eqb id "contextual_evaluation"
  then _score_contextual_evaluation ai_output scenario dimension
  else if String.eqb id "cyclical_structural"
  then _score_cyclical_structural ai_output scenario dimension
  else if String.eqb id "risk_placement"
  then _score_risk_placement ai_output scenario dimension
  else if String.eqb id "uncertainty_judgment"
  then _score_uncertainty_judgment ai_output scenario dimension
  else (70%float, "Default score applied").

(** [grade]: the critical failures, then one score and one feedback per
    rubric dimension, a later dimension of the same id overwriting. *)
Definition grade (self : Engine) (ai_output : string) (scenario : Scenario)
    (use_llm : bool)
  : gmap string float * list string * gmap string string :=
  let failures := _check_critical_failures ai_output scenario in
  let '(dimension_scores, detailed_feedback) :=
    List.fold_left
      (fun (acc : gmap string float * gmap string string) dimension =>
         let '(score, feedback) :=
           _score_dimension ai_output scenario dimension use_llm in
         (<[dim_id dimension := score]> (fst acc),
          <[dim_id dimension := feedback]> (snd acc)))
      (dimensions self) (∅, ∅) in
  (dimension_scores, failures, detailed_feedback).

End Scoring.

(** *** Aggregator *)

(** One iteration of the loop of [calculate_overall_score] on the pair
    [(total, total_weight)]. *)
Definition accumulate (dimension_scores : gmap string float)
    (acc : float * float) (dimension : Dimension) : float * float :=
  let weight := default 1%float (dim_weight dimension) in
  match dimension_scores !! dim_id dimension with
  | Some score => ((fst acc + score * weight)%float, (snd acc + weight)%float)
  | None => acc
  end.

Definition calculate_overall_score (self : Engine)
    (dimension_scores : gmap string float) : option float :=
  let '(total, total_weight) :=
    List.fold_left (accumulate dimension_scores) (dimensions self)
      (0%float, 0%float) in
  if (total_weight =? 0)%float then Some 0%float
  else Num.truediv total total_weight.

Definition determine_pass_fail (self : Engine) (overall_score : float)
    (failures : list string) : bool :=
  match failures with
  | _ :: _ => false
  | [] => Num.ge overall_score (pass_threshold self)
  end.

End GradingEngine.

(** ** The overall-score branch of [EvalRunner.run_evaluation]
    ([tools/eval_runner.py]) *)

Module EvalRunner.

Import GradingEngine.

Definition weight_of (dim : Dimension) : float :=
  default 1%float (dim_weight dim).

(** [scores.get(dim["id"], 0)] *)
Definition score_of (scores : gmap string float) (dim : Dimension) : float :=
  default 0%float (scores !! dim_id dim).

(** Weights that sum to more than 10 are read as percentages. *)
Definition overall_score (rubric : Rubric) (scores : gmap string float)
  : float :=
  let dims := default [] (rubric_dimensions rubric) in
  let total_weight := Num.sum (List.map weight_of dims) in
  if Num.gt total_weight 10%float
  then Num.sum
         (List.map (fun dim => (score_of scores dim * weight_of dim / 100)%float)
            dims)
  else Num.sum
         (List.map (fun dim => (score_of scores dim * weight_of dim)%float) dims).

Definition passed (rubric : Rubric) (overall : float) (failures : list string)
  : bool :=
  let threshold := default 70%float (rubric_pass_threshold rubric) in
  Num.ge overall threshold && Nat.eqb (List.length failures) 0.

Definition _default_rubric : Rubric :=
  {| rubric_dimensions :=
       Some
         [ {| dim_id := "factual_accuracy"; dim_name := Some "Factual Accuracy";
              dim_weight := Some 0.30%float |};
           {| dim_id := "analytical_rigor"; dim_name := Some "Analytical Rigor";
              dim_weight := Some 0.25%float |};
           {| dim_id := "risk_assessment"; dim_name := Some "Risk Assessment";
              dim_weight := Some 0.20%float |};
           {| dim_id := "evidence_quality"; dim_name := Some "Evidence Quality";
              dim_weight := Some 0.15%float |};
           {| dim_id := "completeness"; dim_name := Some "Completeness";
              dim_weight := Some 0.10%float |} ];
     rubric_critical_failures := Some [];
     rubric_pass_threshold := Some 70%float |}.

(** The grading part of [run_evaluation], after the scenario, the rubric
    and the output have been loaded: scores, overall score, verdict,
    critical failures, feedback. *)
Definition run_evaluation (set_order : list string -> list string)
    (rubric : Rubric) (scenario : Scenario) (ai_output : string)
  : gmap string float * float * bool * list string * gmap string string :=
  let grader := init rubric in
  let '(scores, failures, detailed_feedback) :=
    grade set_order grader ai_output scenario false in
  let overall := overall_score rubric scores in
  (scores, overall, passed rubric overall failures, failures, detailed_feedback).

End EvalRunner.

(** ** [studio/rewards.py] *)

Module Rewards.

Record RewardSignal := {
  accuracy : float;
  logic : float;
  format_quality : float;
  length : float;
  explanations : gmap string string
}.

(** [composite] with its four weights given. *)
Definition composite_with (alpha_acc alpha_logic alpha_format alpha_length : float)
    (self : RewardSignal) : float :=
  (alpha_acc * accuracy self
   + alpha_logic * logic self
   + alpha_format * format_quality self
   + alpha_length * (length self * accuracy self))%float.

(** [composite()] with the default weights. *)
Definition composite (self : RewardSignal) : float :=
  composite_with 0.40%float 0.30%float 0.15%float 0.15%float self.

(** The values a preference pair or a report can hold. *)
Inductive value :=
| VNone
| VStr (s : string)
| VFloat (x : float)
| VList (items : list value)
| VDict (entries : list (string * value)).

Definition to_dict (self : RewardSignal) : value :=
  VDict
    [ ("accuracy", VFloat (Num.round4 (accuracy self)));
      ("logic", VFloat (Num.round4 (logic self)));
      ("format_quality", VFloat (Num.round4 (format_quality self)));
      ("length", VFloat (Num.round4 (length self)));
      ("composite", VFloat (Num.round4 (composite self)));
      ("explanations",
       VDict (List.map (fun e => (fst e, VStr (snd e)))
                (map_to_list (explanations self)))) ].

Definition _LOGIC_KEYWORDS : gset string :=
  list_to_set
    [ "therefore"; "because"; "thus"; "assuming"; "given"; "since";
      "implies"; "consequently"; "however"; "although"; "whereas";
      "if"; "then"; "leads to"; "results in"; "due to" ].

Definition _STRUCTURE_MARKERS : string :=
  "(?:^|\n)(?:#{1,4}\s|[-*]\s|\d+\.\s|>\s|\|)".

Definition compute_accuracy (text : string) (reference : option string)
  : float :=
  match reference with
  | None | Some EmptyString => 0.5%float
  | Some ref =>
      let text_tokens : gset string := list_to_set (Py.split (Py.lower text)) in
      let ref_tokens : gset string := list_to_set (Py.split (Py.lower ref)) in
      if Nat.eqb (size ref_tokens) 0 then 0.5%float
      else
        let overlap :=
          (Num.of_nat (size (text_tokens ∩ ref_tokens))
           / Num.of_nat (size ref_tokens))%float in
        Num.min (overlap * 1.2)%float 1%float
  end.

Definition compute_logic (text : string) : float :=
  let words := Py.split (Py.lower text) in
  match words with
  | [] => 0%float
  | _ =>
      let keyword_hits :=
        List.length
          (List.filter (fun w => bool_decide (w ∈ _LOGIC_KEYWORDS)) words) in
      let sentences := Nat.max (List.length (Re.split "[.!?]+" text)) 1 in
      let density := (Num.of_nat keyword_hits / Num.of_nat sentences)%float in
      let score := Num.min (density / 1)%float 1%float in
      let numbered_steps :=
        List.length (Re.findall "(?:^|\n)\s*\d+[.)]\s" text Re.no_flags) in
      if Nat.leb 2 numbered_steps
      then Num.min (score + 0.15)%float 1%float
      else score
  end.

Definition compute_length (text : string) : float :=
  let ideal_min := 150 in
  let ideal_max := 600 in
  let word_count := List.length (Py.split text) in
  if Nat.ltb word_count ideal_min
  then Num.max (Num.of_nat word_count / Num.of_nat ideal_min)%float 0.1%float
  else if Nat.ltb ideal_max word_count
  then Num.max (Num.of_nat ideal_max / Num.of_nat word_count)%float 0.2%float
  else 1%float.

Section Heuristics.

(** [x ** y] on floats, which CPython computes with the [pow] of the
    platform's C library. *)
Variable float_pow : float -> float -> float.

Definition compute_format (text : string) : float :=
  match Py.strip text with
  | EmptyString => 0%float
  | _ =>
      let structure_hits :=
        List.length (Re.findall _STRUCTURE_MARKERS text Re.MULTILINE) in
      let paragraphs :=
        List.filter (fun p => negb (String.eqb p ""))
          (List.map Py.strip (Py.split_sep text (String "010" (String "010" "")))) in
      let n_paras := Nat.max (List.length paragraphs) 1 in
      let structure_score :=
        Num.min
          (Num.of_nat structure_hits / Num.of_nat (Nat.max n_paras 3))%float
          1%float in
      let consistency :=
        if Nat.leb 2 n_paras then
          let lengths := List.map Py.len paragraphs in
          let avg_len :=
            (Num.of_nat (List.fold_left Nat.add lengths 0%nat)
             / Num.of_nat n_paras)%float in
          let variance :=
            (Num.sum
               (List.map
                  (fun l => float_pow (Num.of_nat l - avg_len)%float 2%float)
                  lengths)
             / Num.of_nat n_paras)%float in
          let cv :=
            (float_pow variance 0.5%float / Num.max avg_len 1%float)%float in
          Num.max (1 - cv)%float 0%float
        else 0.5%float in
      (0.6 * structure_score + 0.4 * consistency)%float
  end.

Definition compute_reward (output_text : string) (prompt : value)
    (reference : option string) (rubric_scores : option (gmap string float))
  : RewardSignal :=
  let rubric_given :=
    match rubric_scores with
    | Some scores => negb (Nat.eqb (size scores) 0)
    | None => false
    end in
  if rubric_given then
    let scores := default ∅ rubric_scores in
    {| accuracy := (default 50%float (scores !! "accuracy") / 100)%float;
       logic := (default 50%float (scores !! "logic") / 100)%float;
       format_quality :=
         (default 50%float (scores !! "format_quality") / 100)%float;
       length := (default 50%float (scores !! "length") / 100)%float;
       explanations := {[ "source" := "rubric_scores" ]} |}
  else
    {| accuracy := compute_accuracy output_text reference;
       logic := compute_logic output_text;
       format_quality := compute_format output_text;
       length := compute_length output_text;
       explanations := {[ "source" := "heuristic" ]} |}.

(** [annotate_pair_with_rewards]: [None] when [pair["chosen"]] or
    [pair["rejected"]] is missing or is not a string. *)
Definition annotate_pair_with_rewards (pair : gmap string value)
    (reference : option string) : option (gmap string value) :=
  match pair !! "chosen", pair !! "rejected" with
  | Some (VStr chosen), Some (VStr rejected) =>
      let prompt := default (VStr "") (pair !! "prompt") in
      let chosen_reward := compute_reward chosen prompt reference None in
      let rejected_reward := compute_reward rejected prompt reference None in
      let pair :=
        <["chosen_score" := VFloat (Num.round4 (composite chosen_reward))]> pair in
      let pair :=
        <["rejected_score" := VFloat (Num.round4 (composite rejected_reward))]>
          pair in
      let pair :=
        <["reward_details" :=
            VDict [ ("chosen", to_dict chosen_reward);
                    ("rejected", to_dict rejected_reward);
                    ("reward_type", VStr "grpo_multifaceted") ]]> pair in
      Some pair
  | _, _ => None
  end.

End Heuristics.

End Rewards.

(** ** [studio/configs.py] and the pair extraction of [studio/ranker.py] *)

Module Ranker.

Definition PROVIDERS : list string := ["anthropic"; "gemini"; "openai"].

Definition AVAILABLE_MODELS : list (string * list string) :=
  [ ("anthropic",
     [ "claude-sonnet-4-20250514"; "claude-haiku-4-20250414";
       "claude-3-5-sonnet-20241022" ]);
    ("gemini",
     [ "gemini-2.0-flash"; "gemini-2.0-flash-lite"; "gemini-1.5-flash";
       "gemini-1.5-pro" ]);
    ("openai", [ "gpt-4o-mini"; "gpt-4o"; "gpt-4-turbo" ]) ].

(** [ALL_MODELS]: the models of every provider, in table order. *)
Definition ALL_MODELS : list string := List.flat_map snd AVAILABLE_MODELS.

Definition provider_for_model (model : string) : string :=
  if Py.startswith "claude" model then "anthropic"
  else if Py.startswith "gemini" model then "gemini"
  else "openai".

Record GenerationConfig := {
  label : string;
  model : string;
  temperature : float;
  system_prompt : string;
  max_tokens : option Z
}.

(** The [provider] property. *)
Definition provider (self : GenerationConfig) : string :=
  provider_for_model (model self).

(** The values of a config dictionary. *)
Inductive config_value :=
| CStr (s : string)
| CFloat (x : float)
| CInt (n : Z).

(** [to_dict]: the key [max_tokens] is present only when the field is set. *)
Definition to_dict (self : GenerationConfig) : list (string * config_value) :=
  let d :=
    [ ("label", CStr (label self));
      ("model", CStr (model self));
      ("provider", CStr (provider self));
      ("temperature", CFloat (temperature self));
      ("system_prompt", CStr (system_prompt self)) ] in
  match max_tokens self with
  | Some n => d ++ [("max_tokens", CInt n)]
  | None => d
  end.

(** [count_pairs(k)] on Python ints: [//] is floor division. *)
Definition count_pairs (k : Z) : Z := (k * (k - 1) / 2)%Z.

(** [itertools.combinations(items, 2)]: every item with every later item, in
    lexicographic order of positions. *)
Fixpoint combinations2 {A : Type} (items : list A) : list (A * A) :=
  match items with
  | [] => []
  | x :: rest => List.map (fun y => (x, y)) rest ++ combinations2 rest
  end.

Record RankingMetadata := {
  session_id : string;
  total_k : nat;
  chosen_rank : nat;
  rejected_rank : nat;
  rank_margin : nat;
  chosen_config : list (string * config_value);
  rejected_config : list (string * config_value);
  full_ranking : list string
}.

(** A preference pair as [extract_pairwise_preferences] builds it. *)
Record PreferencePair := {
  timestamp : string;
  prompt : string;
  chosen : string;
  rejected : string;
  tags : list string;
  source : string;
  mode : string;
  ranking_metadata : RankingMetadata
}.

Section Extraction.

(** [str(uuid.uuid4())], drawn when no session id is given. *)
Variable fresh_uuid : string.

(** [datetime.now().isoformat()] at the time the n-th pair is built. *)
Variable now : nat -> string.

(** The body of the loop for the n-th pair of positions [(i, j)]: [None]
    stands for the [KeyError] of a label without output or without config. *)
Definition make_pair (ranked_labels : list string)
    (outputs : gmap string string)
    (configs_by_label : gmap string GenerationConfig)
    (prompt_text source_text : string) (tag_list : list string)
    (session : string) (n : nat) (ij : nat * nat) : option PreferencePair :=
  let '(i, j) := ij in
  chosen_label ← ranked_labels !! i;
  rejected_label ← ranked_labels !! j;
  chosen_output ← outputs !! chosen_label;
  rejected_output ← outputs !! rejected_label;
  chosen_cfg ← configs_by_label !! chosen_label;
  rejected_cfg ← configs_by_label !! rejected_label;
  Some
    {| timestamp := now n;
       prompt := prompt_text;
       chosen := chosen_output;
       rejected := rejected_output;
       tags := tag_list;
       source := source_text;
       mode := "ranking";
       ranking_metadata :=
         {| session_id := session;
            total_k := List.length ranked_labels;
            chosen_rank := i + 1;
            rejected_rank := j + 1;
            rank_margin := j - i;
            chosen_config := to_dict chosen_cfg;
            rejected_config := to_dict rejected_cfg;
            full_ranking := ranked_labels |} |}.

(** The loop over the pairs of positions, numbered from [n]. *)
Fixpoint make_pairs (ranked_labels : list string)
    (outputs : gmap string string)
    (configs_by_label : gmap string GenerationConfig)
    (prompt_text source_text : string) (tag_list : list string)
    (session : string) (n : nat) (positions : list (nat * nat))
  : option (list PreferencePair) :=
  match positions with
  | [] => Some []
  | ij :: rest =>
      pair ← make_pair ranked_labels outputs configs_by_label prompt_text
                source_text tag_list session n ij;
      pairs ← make_pairs ranked_labels outputs configs_by_label prompt_text
                 source_text tag_list session (S n) rest;
      Some (pair :: pairs)
  end.

(** [extract_pairwise_preferences]; an absent or empty [session_id] is
    replaced by a fresh uuid. *)
Definition extract_pairwise_preferences (ranked_labels : list string)
    (outputs : gmap string string)
    (configs_by_label : gmap string GenerationConfig)
    (prompt_text source_text : string) (tag_list : list string)
    (session : option string) : option (list PreferencePair) :=
  let session :=
    match session with
    | Some (String c s) => String c s
    | _ => fresh_uuid
    end in
  let k := List.length ranked_labels in
  make_pairs ranked_labels outputs configs_by_label prompt_text source_text
    tag_list session 0 (combinations2 (List.seq 0 k)).

End Extraction.

End Ranker.

(** * Specification-side definitions *)

Import GradingEngine.

(** The rubric dimensions that have a score, in rubric order. *)
Definition scored_dimensions (dims : list Dimension)
    (scores : gmap string float) : list Dimension :=
  List.filter (fun d => bool_decide (is_Some (scores !! dim_id d))) dims.

(** The specification's weighted average: [Σ score_i × weight_i] over
    [Σ weight_i], both over the scored dimensions, and 0 on a zero total
    weight. The sums run left to right from 0.0. *)
Definition weighted_average_spec (dims : list Dimension)
    (scores : gmap string float) : float :=
  let present := scored_dimensions dims scores in
  let weighted_sum :=
    Num.sum
      (List.map
         (fun d => (default 0%float (scores !! dim_id d)
                    * default 1%float (dim_weight d))%float) present) in
  let total_weight :=
    Num.sum (List.map (fun d => default 1%float (dim_weight d)) present) in
  if (total_weight =? 0)%float then 0%float
  else (weighted_sum / total_weight)%float.

(** The two rubrics of the weight-convention property. *)
Definition rubric_fractional : Rubric :=
  {| rubric_dimensions :=
       Some [ {| dim_id := "a"; dim_name := None; dim_weight := Some 0.5%float |};
              {| dim_id := "b"; dim_name := None; dim_weight := Some 0.5%float |} ];
     rubric_critical_failures := None;
     rubric_pass_threshold := None |}.

Definition rubric_percentage : Rubric :=
  {| rubric_dimensions :=
       Some [ {| dim_id := "a"; dim_name := None; dim_weight := Some 50%float |};
              {| dim_id := "b"; dim_name := None; dim_weight := Some 50%float |} ];
     rubric_critical_failures := None;
     rubric_pass_threshold := None |}.

(** A whole number of points between 0 and 100. *)
Definition whole_score (v : float) : Prop :=
  exists n : nat, n <= 100 /\ v = Num.of_nat n.

(** What a scores map can hold at one key when its values are whole scores. *)
Definition whole_entries : list (option float) :=
  None :: List.map (fun n => Some (Num.of_nat n)) (List.seq 0 101).

(** The scores map with the given entries at ["a"] and ["b"] only. *)
Definition scores_ab (oa ob : option float) : gmap string float :=
  let with_b := match ob with Some v => <["b" := v]> ∅ | None => ∅ end in
  match oa with Some v => <["a" := v]> with_b | None => with_b end.

Definition same_result (x y : option float) : bool :=
  match x, y with
  | Some u, Some v => PrimFloat.Leibniz.eqb u v
  | None, None => true
  | _, _ => false
  end.

(** Both conventions agree, through both code paths, on [scores_ab oa ob]. *)
Definition conventions_agree (oa ob : option float) : bool :=
  same_result
    (calculate_overall_score (init rubric_fractional) (scores_ab oa ob))
    (calculate_overall_score (init rubric_percentage) (scores_ab oa ob))
  && PrimFloat.Leibniz.eqb
       (EvalRunner.overall_score rubric_fractional (scores_ab oa ob))
       (EvalRunner.overall_score rubric_percentage (scores_ab oa ob)).

(** A score between 0 and 100, bounds included. *)
Definition in_range (s : float) : Prop :=
  (0 <=? s)%float = true /\ (s <=? 100)%float = true.

(** The ids that the dispatch of [_score_dimension] recognises. *)
Definition recognized_ids : list string :=
  [ "factual_accuracy"; "analytical_rigor"; "risk_assessment";
    "evidence_quality"; "completeness"; "alpha_environment"; "risk_treatment";
    "terminal_value"; "risk_classification"; "hedging_logic";
    "sizing_methodology"; "attribution_discipline"; "hypothesis_testing";
    "contextual_evaluation"; "cyclical_structural"; "risk_placement";
    "uncertainty_judgment" ].

(** Fifty characters of body text. *)
Definition fifty_characters : string :=
  "xxxxxxxxxxxxxxxxxxxxxxxxxxxxxxxxxxxxxxxxxxxxxxxxxx".

Definition empty_scenario : Scenario :=
  {| key_facts := None; evaluation_criteria := None |}.

(** The risk-section check as the code performs it on one pattern: the first
    match of the pattern is followed, within 200 characters, by more than 50
    characters once surrounding whitespace is stripped. *)
Definition header_with_body (ai_output pattern : string) : bool :=
  match Re.search pattern ai_output Re.no_flags with
  | Some m =>
      Nat.ltb 50
        (Py.len (Py.strip (Py.slice ai_output (Re.m_end m) (Re.m_end m + 200))))
  | None => false
  end.

(** The calculation-context signal of the hallucination check. *)
Definition has_calculation_context (ai_output : string) : bool :=
  existsb (fun p => Re.found p ai_output Re.no_flags)
    calculation_context_patterns.

(** The dollar figures of a submission. *)
Definition dollar_figures (ai_output : string) : list string :=
  Re.findall "\$[\d,.]+[BMK]?" ai_output Re.no_flags.

(** The numbers extracted from the scenario's key facts. *)
Definition scenario_numbers (scenario : Scenario) : list string :=
  List.flat_map
    (fun f =>
       Re.findall "\$[\d,.]+[BMK]?|\d+\.?\d*%|\d{4}" (default "" (fact f))
         Re.no_flags)
    (default [] (key_facts scenario)).

(** A figure that is a substring of none of the numbers. *)
Definition unmatched (numbers : list string) (fig : string) : bool :=
  forallb (fun number => negb (Py.contains fig number)) numbers.

(** How many of the first ten dollar figures match no scenario number. *)
Definition unmatched_among_first_ten (ai_output : string) (scenario : Scenario)
  : nat :=
  List.length
    (List.filter (unmatched (scenario_numbers scenario))
       (List.firstn 10 (dollar_figures ai_output))).

(** The signal of the length-accuracy gating property. *)
Definition gating_signal : Rewards.RewardSignal :=
  {| Rewards.accuracy := 0%float;
     Rewards.logic := 0.5%float;
     Rewards.format_quality := 0.5%float;
     Rewards.length := 1.0%float;
     Rewards.explanations := ∅ |}.

(** The composite as it would be with a plain additive length term. *)
Definition additive_composite (self : Rewards.RewardSignal) : float :=
  (0.40 * Rewards.accuracy self
   + 0.30 * Rewards.logic self
   + 0.15 * Rewards.format_quality self
   + 0.15 * Rewards.length self)%float.

(** The keys that [annotate_pair_with_rewards] writes. *)
Definition annotated_keys : list string :=
  ["chosen_score"; "rejected_score"; "reward_details"].

(** A [pow] that squares exactly and takes correctly rounded square roots,
    to run the heuristics on examples. *)
Definition exact_pow (x y : float) : float :=
  if (y =? 2)%float then (x * x)%float else PrimFloat.sqrt x.

(** The signal that the rubric branch of [compute_reward] builds. *)
Definition rubric_signal (scores : gmap string float) : Rewards.RewardSignal :=
  {| Rewards.accuracy := (default 50%float (scores !! "accuracy") / 100)%float;
     Rewards.logic := (default 50%float (scores !! "logic") / 100)%float;
     Rewards.format_quality :=
       (default 50%float (scores !! "format_quality") / 100)%float;
     Rewards.length := (default 50%float (scores !! "length") / 100)%float;
     Rewards.explanations := {[ "source" := "rubric_scores" ]} |}.

(** The preference pair of the repository's test of preserved fields. *)
Definition test_pair : gmap string Rewards.value :=
  <["prompt" := Rewards.VStr "Test"]>
    (<["chosen" := Rewards.VStr "Good answer with some detail and reasoning."]>
       (<["rejected" := Rewards.VStr "Bad."]>
          (<["tags" := Rewards.VList [Rewards.VStr "test"]]>
             (<["source" := Rewards.VStr "studio_ranking"]> ∅)))).

(** ** Definitions for the further properties *)

(** The scores a dimension scorer can return: the multiples of 5 from 40 to
    100. *)
Definition score_grid : list float :=
  List.map (fun n => Num.of_nat (5 * n)) (List.seq 8 13).

Definition on_grid (s : float) : bool :=
  existsb (PrimFloat.Leibniz.eqb s) score_grid.

Definition grid_score (s : float) : Prop :=
  exists n : nat, 40 <= n <= 100 /\ Nat.modulo n 5 = 0 /\ s = Num.of_nat n.

(** The last dimension of the list that has the given id. *)
Fixpoint last_with_id (dims : list Dimension) (k : string) : option Dimension :=
  match dims with
  | [] => None
  | d :: rest =>
      match last_with_id rest k with
      | Some later => Some later
      | None => if String.eqb (dim_id d) k then Some d else None
      end
  end.

(** The scenario's own critical-failure descriptions. *)
Definition scenario_rules (scenario : Scenario) : list string :=
  match evaluation_criteria scenario with
  | Some ec => default [] (criteria_critical_failures ec)
  | None => []
  end.

(** A description that [_check_scenario_critical_failure] knows how to
    check. *)
Definition recognised_rule (critical_failure : string) : bool :=
  Py.contains "no probability estimate" (Py.lower critical_failure)
  || Py.contains "ignores binary" (Py.lower critical_failure)
  || Py.contains "binary nature" (Py.lower critical_failure).

(** The critical failures as a list comprehension: the fixed checks that
    fire, in their order, then one entry per scenario rule that fires, in the
    order of the rules. *)
Definition critical_failures_spec (ai_output : string) (scenario : Scenario)
  : list string :=
  (if _detect_hallucination ai_output scenario
   then ["Potential hallucinated data detected"] else [])
  ++ (if _has_risk_section ai_output
      then [] else ["Missing or inadequate risk assessment section"])
  ++ (if _has_guarantee_language ai_output
      then ["Contains forward-looking guarantees"] else [])
  ++ List.map (fun critical => "Scenario critical failure: " +:+ critical)
       (List.filter (_check_scenario_critical_failure ai_output)
          (scenario_rules scenario)).

(** A text of whitespace only (the empty text included). *)
Fixpoint blank (s : string) : bool :=
  match s with
  | EmptyString => true
  | String c s' => Py.isspace c && blank s'
  end.

(** [len(text.split())] *)
Definition word_count (text : string) : nat := List.length (Py.split text).

(** The length reward below the ideal window, as a function of the word
    count. *)
Definition short_length_reward (n : nat) : float :=
  Num.max (Num.of_nat n / Num.of_nat 150)%float 0.1%float.

(** The three entries that [annotate_pair_with_rewards] writes for the given
    texts. *)
Definition annotations (float_pow : float -> float -> float)
    (chosen rejected : string) (prompt : Rewards.value)
    (reference : option string) (pair : gmap string Rewards.value)
  : gmap string Rewards.value :=
  let chosen_reward :=
    Rewards.compute_reward float_pow chosen prompt reference None in
  let rejected_reward :=
    Rewards.compute_reward float_pow rejected prompt reference None in
  <["reward_details" :=
      Rewards.VDict [ ("chosen", Rewards.to_dict chosen_reward);
                      ("rejected", Rewards.to_dict rejected_reward);
                      ("reward_type", Rewards.VStr "grpo_multifaceted") ]]>
    (<["rejected_score" :=
         Rewards.VFloat (Num.round4 (Rewards.composite rejected_reward))]>
       (<["chosen_score" :=
            Rewards.VFloat (Num.round4 (Rewards.composite chosen_reward))]>
          pair)).

(** The ranks (1 = best) of the two sides of a preference pair. *)
Definition pair_ranks (p : Ranker.PreferencePair) : nat * nat :=
  (Ranker.chosen_rank (Ranker.ranking_metadata p),
   Ranker.rejected_rank (Ranker.ranking_metadata p)).

(** The session id that [extract_pairwise_preferences] uses. *)
Definition session_of (fresh_uuid : string) (session : option string) : string :=
  match session with
  | Some (String c s) => String c s
  | _ => fresh_uuid
  end.

(** Every label of the ranking has an output and a config. *)
Definition labels_known (ranked_labels : list string)
    (outputs : gmap string string)
    (configs_by_label : gmap string Ranker.GenerationConfig) : Prop :=
  forall l, In l ranked_labels ->
            is_Some (outputs !! l) /\ is_Some (configs_by_label !! l).

(** A ranking of three outputs, best first, with their outputs and configs. *)
Definition test_ranking : list string := ["A"; "C"; "B"].

Definition test_outputs : gmap string string :=
  <["A" := "long thesis"]> (<["B" := "short thesis"]> (<["C" := "hold"]> ∅)).

Definition test_config (label_text model_name : string) : Ranker.GenerationConfig :=
  {| Ranker.label := label_text;
     Ranker.model := model_name;
     Ranker.temperature := 0.7%float;
     Ranker.system_prompt := "You are a junior financial analyst.";
     Ranker.max_tokens := None |}.

Definition test_configs : gmap string Ranker.GenerationConfig :=
  <["A" := test_config "A" "claude-sonnet-4-20250514"]>
    (<["B" := test_config "B" "gemini-2.0-flash"]>
       (<["C" := test_config "C" "gpt-4o-mini"]> ∅)).

(** The clock of the test run: the n-th pair is stamped with n. *)
Definition test_now (n : nat) : string := Py.str_nat n.

Definition test_pairs : option (list Ranker.PreferencePair) :=
  Ranker.extract_pairwise_preferences "uuid" test_now test_ranking
    test_outputs test_configs "prompt" "source" ["tag"] None.

(** The phrases that [_has_guarantee_language] looks for literally. *)
Definition guarantee_phrases : list string :=
  [ "guaranteed"; "will definitely"; "certain to"; "cannot fail";
    "100% chance" ].

(** An item of a phrase pattern: a character matched whatever its case, or
    the dot. *)
Inductive phrase_item :=
| Letter (a : ascii)
| AnyButNewline.

Fixpoint letters (s : string) : list phrase_item :=
  match s with
  | EmptyString => []
  | String a s' => Letter a :: letters s'
  end.

(** The six guarantee patterns, item by item. *)
Definition guarantee_items : list (list phrase_item) :=
  List.map letters guarantee_phrases
  ++ [letters "risk" ++ AnyButNewline :: letters "free"].

(** The test the regex makes on a character of the subject. *)
Definition item_test (it : phrase_item) : ascii -> bool :=
  match it with
  | Letter a => Re.lit true (Py.code a)
  | AnyButNewline => fun c => false || negb (N.eqb (Py.code c) 10)
  end.

(** The regex of a sequence of one-character tests. *)
Fixpoint chain (tests : list (ascii -> bool)) : Re.regex :=
  match tests with
  | [] => Re.Eps
  | [f] => Re.Chr f
  | f :: tests' => Re.Cat (Re.Chr f) (chain tests')
  end.

(** The tests hold, one by one, at the start of the characters. *)
Fixpoint starts (tests : list (ascii -> bool)) (cs : list ascii) : bool :=
  match tests, cs with
  | [], _ => true
  | f :: tests', c :: cs' => f c && starts tests' cs'
  | _ :: _, [] => false
  end.

(** The tests hold somewhere in the characters. *)
Fixpoint occurs (tests : list (ascii -> bool)) (cs : list ascii) : bool :=
  starts tests cs
  || match cs with
     | [] => false
     | _ :: cs' => occurs tests cs'
     end.

(** An item against a character of the lowered text. *)
Definition item_ok (it : phrase_item) (x : ascii) : bool :=
  match it with
  | Letter a => Ascii.eqb a x
  | AnyButNewline => negb (N.eqb (Py.code x) 10)
  end.

Fixpoint wild_startswith (items : list phrase_item) (s : string) : bool :=
  match items, s with
  | [], _ => true
  | it :: items', String x s' => item_ok it x && wild_startswith items' s'
  | _ :: _, EmptyString => false
  end.

Fixpoint wild_contains (items : list phrase_item) (s : string) : bool :=
  wild_startswith items s
  || match s with
     | EmptyString => false
     | String _ s' => wild_contains items s'
     end.

(** The letters of an item list are their own lower case. *)
Definition lower_items (items : list phrase_item) : bool :=
  forallb
    (fun it =>
       match it with
       | Letter a => N.eqb (Py.lower_code (Py.code a)) (Py.code a)
       | AnyButNewline => true
       end)
    items.

(** Words that, alone, count as a probability estimate. *)
Definition probability_words : list string :=
  ["probability"; "likelihood"; "chance"].

(** Words that, alone, count as a discussion of scenarios. *)
Definition scenario_words : list string :=
  ["asymmetric"; "binary"; "catalyst"].

(** * Properties *)

(** ** Facts on floats *)

Lemma float_ltb_leb (a b : float) : (a <? b)%float = true -> (a <=? b)%float = true.
Proof.
  rewrite ltb_spec, leb_spec. unfold SFltb, SFleb.
  destruct (SFcompare (Prim2SF a) (Prim2SF b)) as [[ | | ] | ]; congruence.
Qed.

(** The clamp lands in [0, 100] whatever it is given, a NaN included. *)
Lemma clamp_range (x : float) :
  (0 <=? clamp x)%float = true /\ (clamp x <=? 100)%float = true.
Proof.
  unfold clamp, Num.min, Num.max.
  destruct (0 <? x)%float eqn:Hpos.
  - destruct (x <? 100)%float eqn:Hlt.
    + split; apply float_ltb_leb; assumption.
    + split; reflexivity.
  - split; reflexivity.
Qed.

Lemma float_neq (a b : float) : PrimFloat.Leibniz.eqb a b = false -> a <> b.
Proof.
  intros Hne Heq. apply FloatAxioms.Leibniz.eqb_spec in Heq. congruence.
Qed.

(** ** Verdict *)

(** C1. A non-empty list of critical failures makes [determine_pass_fail]
    return [false] whatever the score, 100 included; with no critical failure
    the verdict is [true] exactly when [overall_score >= pass_threshold],
    the threshold being the rubric's [pass_threshold], or 70 when the rubric
    has none. *)
Theorem determine_pass_fail_veto_and_threshold :
  (forall (self : Engine) (overall_score : float) (f : string) (fs : list string),
      determine_pass_fail self overall_score (f :: fs) = false)
  /\ (forall (r : Rubric) (f : string) (fs : list string),
      determine_pass_fail (init r) 100%float (f :: fs) = false)
  /\ (forall (self : Engine) (overall_score : float),
      determine_pass_fail self overall_score [] = true
      <-> (pass_threshold self <=? overall_score)%float = true)
  /\ (forall dims cfs (t : float),
      pass_threshold (init (Build_Rubric dims cfs (Some t))) = t)
  /\ (forall dims cfs,
      pass_threshold (init (Build_Rubric dims cfs None)) = 70%float).
Proof.
  repeat split; try reflexivity; unfold determine_pass_fail, Num.ge; auto.
Qed.

(** ** Aggregation *)

Lemma accumulate_fold (scores : gmap string float) (dims : list Dimension)
    (total total_weight : float) :
  List.fold_left (accumulate scores) dims (total, total_weight)
  = (List.fold_left (fun acc x => (acc + x)%float)
       (List.map
          (fun d => (default 0%float (scores !! dim_id d)
                     * default 1%float (dim_weight d))%float)
          (scored_dimensions dims scores)) total,
     List.fold_left (fun acc x => (acc + x)%float)
       (List.map (fun d => default 1%float (dim_weight d))
          (scored_dimensions dims scores)) total_weight).
Proof.
  revert total total_weight.
  induction dims as [ | d dims IH]; intros total total_weight; [reflexivity | ].
  cbn [List.fold_left scored_dimensions List.filter].
  unfold accumulate at 2.
  destruct (scores !! dim_id d) as [score | ] eqn:Hd.
  - rewrite bool_decide_eq_true_2 by eauto.
    cbn [List.map List.fold_left fst snd]. rewrite Hd. apply IH.
  - rewrite bool_decide_eq_false_2 by (intros [? ?]; congruence).
    apply IH.
Qed.

(** C2. [calculate_overall_score] returns (and never fails to return) the
    weighted average over the dimensions that are both in the rubric and in
    the scores map; a rubric dimension without a score is left out of both
    sums. On a zero total weight, so for a rubric with no or an empty
    dimensions list, the result is exactly 0.0. *)
Theorem calculate_overall_score_weighted_average :
  (forall (self : Engine) (scores : gmap string float),
      calculate_overall_score self scores
      = Some (weighted_average_spec (dimensions self) scores))
  /\ (forall (self : Engine) (scores : gmap string float),
      (Num.sum (List.map (fun d => default 1%float (dim_weight d))
                  (scored_dimensions (dimensions self) scores)) =? 0)%float = true ->
      calculate_overall_score self scores = Some 0%float)
  /\ (forall cfs t (scores : gmap string float),
      calculate_overall_score (init (Build_Rubric None cfs t)) scores = Some 0%float)
  /\ (forall cfs t (scores : gmap string float),
      calculate_overall_score (init (Build_Rubric (Some []) cfs t)) scores
      = Some 0%float).
Proof.
  assert (Hmain : forall (self : Engine) (scores : gmap string float),
             calculate_overall_score self scores
             = Some (weighted_average_spec (dimensions self) scores)).
  { intros self scores. unfold calculate_overall_score, weighted_average_spec.
    rewrite accumulate_fold. unfold Num.sum, Num.truediv.
    destruct (_ =? 0)%float; reflexivity. }
  split; [exact Hmain | ].
  split; [ | split; intros; reflexivity].
  intros self scores Hzero. rewrite Hmain. unfold weighted_average_spec.
  cbv zeta. rewrite Hzero. reflexivity.
Qed.

(** The total weight is zero for a rubric without dimensions. *)
Lemma calculate_overall_score_weighted_average_witness :
  (Num.sum (List.map (fun d => default 1%float (dim_weight d))
              (scored_dimensions
                 (dimensions (init (Build_Rubric None None None)))
                 (<["a" := 80%float]> ∅))) =? 0)%float = true
  /\ calculate_overall_score (init (Build_Rubric None None None))
       (<["a" := 80%float]> ∅) = Some 0%float.
Proof.
  split; [reflexivity | ].
  apply (proj1 (proj2 calculate_overall_score_weighted_average)).
  reflexivity.
Defined.

(** The overall score reads the scores map at the rubric's ids only. *)
Lemma calculate_overall_score_ext (self : Engine) (s1 s2 : gmap string float) :
  (forall d, In d (dimensions self) -> s1 !! dim_id d = s2 !! dim_id d) ->
  calculate_overall_score self s1 = calculate_overall_score self s2.
Proof.
  intros Hsame. unfold calculate_overall_score.
  assert (Hfold : forall dims acc,
             (forall d, In d dims -> s1 !! dim_id d = s2 !! dim_id d) ->
             List.fold_left (accumulate s1) dims acc
             = List.fold_left (accumulate s2) dims acc).
  { induction dims as [ | d dims IH]; intros acc Hd; [reflexivity | ].
    cbn [List.fold_left]. unfold accumulate at 2 4.
    rewrite (Hd d (or_introl eq_refl)).
    apply IH. intros d' Hin. apply Hd. right. exact Hin. }
  rewrite (Hfold _ _ Hsame). reflexivity.
Qed.

Lemma overall_score_ext (r : Rubric) (s1 s2 : gmap string float) :
  (forall d, In d (default [] (rubric_dimensions r)) ->
             s1 !! dim_id d = s2 !! dim_id d) ->
  EvalRunner.overall_score r s1 = EvalRunner.overall_score r s2.
Proof.
  intros Hsame. unfold EvalRunner.overall_score. cbv zeta.
  assert (Hmap : forall f : float -> float -> float,
             List.map (fun dim => f (EvalRunner.score_of s1 dim)
                                    (EvalRunner.weight_of dim))
               (default [] (rubric_dimensions r))
             = List.map (fun dim => f (EvalRunner.score_of s2 dim)
                                      (EvalRunner.weight_of dim))
                 (default [] (rubric_dimensions r))).
  { intros f. apply List.map_ext_in. intros d Hin.
    unfold EvalRunner.score_of. rewrite (Hsame d Hin). reflexivity. }
  rewrite (Hmap (fun x w => (x * w / 100)%float)).
  rewrite (Hmap (fun x w => (x * w)%float)). reflexivity.
Qed.

Lemma scores_ab_lookup (scores : gmap string float) (k : string) :
  k = "a" \/ k = "b" ->
  scores !! k = scores_ab (scores !! "a") (scores !! "b") !! k.
Proof.
  intros [-> | ->]; unfold scores_ab;
    destruct (scores !! "a"), (scores !! "b"); simplify_map_eq; reflexivity.
Qed.

Lemma whole_entry (o : option float) :
  (forall v, o = Some v -> whole_score v) -> In o whole_entries.
Proof.
  intros Hwhole. destruct o as [v | ]; [ | left; reflexivity].
  destruct (Hwhole v eq_refl) as [n [Hn ->]].
  right. apply List.in_map_iff. exists n. split; [reflexivity | ].
  apply List.in_seq. lia.
Qed.

Lemma conventions_agree_on_whole_entries :
  forallb (fun oa => forallb (conventions_agree oa) whole_entries) whole_entries
  = true.
Proof. vm_compute. reflexivity. Qed.

Lemma same_result_eq (x y : option float) : same_result x y = true -> x = y.
Proof.
  destruct x as [u | ], y as [v | ]; cbn; try congruence.
  intros Heq. apply FloatAxioms.Leibniz.eqb_spec in Heq. congruence.
Qed.

(** C3, as stated, fails on binary64 scores: with scores 0.1 and 0.2 the
    engine's weighted average is 0.15000000000000002 under the weights
    0.5/0.5 and 0.15 under 50/50; with the single score 0.007 the caller's
    branch gives 0.0035 and 0.0035000000000000005. *)
Lemma weight_convention_counterexample :
  calculate_overall_score (init rubric_fractional)
    (<["a" := 0.1%float]> (<["b" := 0.2%float]> ∅))
  <> calculate_overall_score (init rubric_percentage)
       (<["a" := 0.1%float]> (<["b" := 0.2%float]> ∅))
  /\ EvalRunner.overall_score rubric_fractional (<["a" := 0.007%float]> ∅)
     <> EvalRunner.overall_score rubric_percentage (<["a" := 0.007%float]> ∅).
Proof.
  split.
  - intros Heq.
    apply (f_equal (fun o => same_result o (Some 0.15%float))) in Heq.
    vm_compute in Heq. discriminate Heq.
  - apply float_neq. vm_compute. reflexivity.
Qed.

(** C3, amended. When the scores are whole numbers of points between 0 and
    100 (as every score of a dimension scorer is), the rubric weighted
    [{a: 0.5, b: 0.5}] and the rubric weighted [{a: 50, b: 50}] give exactly
    the same overall score, through [calculate_overall_score] and through the
    caller's branch on [Σ weight_i > 10]. *)
Theorem weight_convention_equivalence (scores : gmap string float) :
  (forall k v, scores !! k = Some v -> whole_score v) ->
  calculate_overall_score (init rubric_fractional) scores
  = calculate_overall_score (init rubric_percentage) scores
  /\ EvalRunner.overall_score rubric_fractional scores
     = EvalRunner.overall_score rubric_percentage scores.
Proof.
  intros Hwhole.
  pose (oa := scores !! "a"). pose (ob := scores !! "b").
  assert (Hagree : conventions_agree oa ob = true).
  { pose proof conventions_agree_on_whole_entries as Hall.
    rewrite List.forallb_forall in Hall.
    specialize (Hall oa (whole_entry oa (Hwhole "a"))).
    rewrite List.forallb_forall in Hall.
    exact (Hall ob (whole_entry ob (Hwhole "b"))). }
  apply andb_prop in Hagree. destruct Hagree as [Hcalc Hcaller].
  apply same_result_eq in Hcalc.
  apply FloatAxioms.Leibniz.eqb_spec in Hcaller.
  assert (Hab : forall d,
             d.(dim_id) = "a" \/ d.(dim_id) = "b" ->
             scores !! dim_id d = scores_ab oa ob !! dim_id d).
  { intros d Hd. apply scores_ab_lookup. exact Hd. }
  split.
  - rewrite (calculate_overall_score_ext (init rubric_fractional) scores
               (scores_ab oa ob)).
    + rewrite (calculate_overall_score_ext (init rubric_percentage) scores
                 (scores_ab oa ob)); [exact Hcalc | ].
      intros d [<- | [<- | []]]; apply Hab; cbn; auto.
    + intros d [<- | [<- | []]]; apply Hab; cbn; auto.
  - rewrite (overall_score_ext rubric_fractional scores (scores_ab oa ob)).
    + rewrite (overall_score_ext rubric_percentage scores (scores_ab oa ob));
        [exact Hcaller | ].
      intros d [<- | [<- | []]]; apply Hab; cbn; auto.
    + intros d [<- | [<- | []]]; apply Hab; cbn; auto.
Qed.

(** Scores 80 and 60 are whole; both conventions give 70. *)
Lemma weight_convention_equivalence_witness :
  calculate_overall_score (init rubric_fractional)
    (<["a" := 80%float]> (<["b" := 60%float]> ∅))
  = calculate_overall_score (init rubric_percentage)
      (<["a" := 80%float]> (<["b" := 60%float]> ∅))
  /\ EvalRunner.overall_score rubric_fractional
       (<["a" := 80%float]> (<["b" := 60%float]> ∅))
     = EvalRunner.overall_score rubric_percentage
         (<["a" := 80%float]> (<["b" := 60%float]> ∅)).
Proof.
  apply (weight_convention_equivalence (<["a" := 80%float]> (<["b" := 60%float]> ∅))).
  intros k v Hk.
  destruct (decide (k = "a")) as [-> | Hna].
  - rewrite lookup_insert_eq in Hk. injection Hk as <-.
    exists 80. split; [lia | reflexivity].
  - rewrite lookup_insert_ne in Hk by congruence.
    destruct (decide (k = "b")) as [-> | Hnb].
    + rewrite lookup_insert_eq in Hk. injection Hk as <-.
      exists 60. split; [lia | reflexivity].
    + rewrite lookup_insert_ne in Hk by congruence.
      rewrite lookup_empty in Hk. discriminate Hk.
Defined.

(** ** Dimension scorers *)

(** Every scorer ends with the clamp: follow each branch down to it. *)
Ltac to_clamp :=
  cbv zeta;
  repeat match goal with
    | |- context [if ?b then _ else _] => destruct b; cbv beta iota
    | |- context [match ?o with Some _ => _ | None => _ end] =>
        destruct o; cbv beta iota
    end;
  cbn [fst]; apply clamp_range.

Lemma _score_factual_accuracy_range ai_output scenario dimension :
  in_range (fst (_score_factual_accuracy ai_output scenario dimension)).
Proof. unfold in_range, _score_factual_accuracy. to_clamp. Qed.

Lemma _score_analytical_rigor_range ai_output scenario dimension :
  in_range (fst (_score_analytical_rigor ai_output scenario dimension)).
Proof. unfold in_range, _score_analytical_rigor. to_clamp. Qed.

Lemma _score_risk_assessment_range ai_output scenario dimension :
  in_range (fst (_score_risk_assessment ai_output scenario dimension)).
Proof. unfold in_range, _score_risk_assessment. to_clamp. Qed.

Lemma _score_evidence_quality_range ai_output scenario dimension :
  in_range (fst (_score_evidence_quality ai_output scenario dimension)).
Proof. unfold in_range, _score_evidence_quality. to_clamp. Qed.

Lemma _score_completeness_range set_order ai_output scenario dimension :
  in_range (fst (_score_completeness set_order ai_output scenario dimension)).
Proof. unfold in_range, _score_completeness. to_clamp. Qed.

Lemma _score_alpha_environment_range ai_output scenario dimension :
  in_range (fst (_score_alpha_environment ai_output scenario dimension)).
Proof. unfold in_range, _score_alpha_environment. to_clamp. Qed.

Lemma _score_risk_treatment_range ai_output scenario dimension :
  in_range (fst (_score_risk_treatment ai_output scenario dimension)).
Proof. unfold in_range, _score_risk_treatment. to_clamp. Qed.

Lemma _score_terminal_value_range ai_output scenario dimension :
  in_range (fst (_score_terminal_value ai_output scenario dimension)).
Proof. unfold in_range, _score_terminal_value. to_clamp. Qed.

Lemma _score_cyclical_structural_range ai_output scenario dimension :
  in_range (fst (_score_cyclical_structural ai_output scenario dimension)).
Proof. unfold in_range, _score_cyclical_structural. to_clamp. Qed.

Lemma _score_risk_classification_range ai_output scenario dimension :
  in_range (fst (_score_risk_classification ai_output scenario dimension)).
Proof. unfold in_range, _score_risk_classification. to_clamp. Qed.

Lemma _score_hedging_logic_range ai_output scenario dimension :
  in_range (fst (_score_hedging_logic ai_output scenario dimension)).
Proof. unfold in_range, _score_hedging_logic. to_clamp. Qed.

Lemma _score_sizing_methodology_range ai_output scenario dimension :
  in_range (fst (_score_sizing_methodology ai_output scenario dimension)).
Proof. unfold in_range, _score_sizing_methodology. to_clamp. Qed.

Lemma _score_risk_placement_range ai_output scenario dimension :
  in_range (fst (_score_risk_placement ai_output scenario dimension)).
Proof. unfold in_range, _score_risk_placement. to_clamp. Qed.

Lemma _score_uncertainty_judgment_range ai_output scenario dimension :
  in_range (fst (_score_uncertainty_judgment ai_output scenario dimension)).
Proof. unfold in_range, _score_uncertainty_judgment. to_clamp. Qed.

Lemma _score_attribution_discipline_range ai_output scenario dimension :
  in_range (fst (_score_attribution_discipline ai_output scenario dimension)).
Proof. unfold in_range, _score_attribution_discipline. to_clamp. Qed.

Lemma _score_hypothesis_testing_range ai_output scenario dimension :
  in_range (fst (_score_hypothesis_testing ai_output scenario dimension)).
Proof. unfold in_range, _score_hypothesis_testing. to_clamp. Qed.

Lemma _score_contextual_evaluation_range ai_output scenario dimension :
  in_range (fst (_score_contextual_evaluation ai_output scenario dimension)).
Proof. unfold in_range, _score_contextual_evaluation. to_clamp. Qed.

(** One step of the dispatch: the branch of the id tested first is settled
    by the given fact, the other ids remain. *)
Ltac by_id fact :=
  lazymatch goal with
  | |- in_range (fst (if String.eqb ?a ?b then _ else _)) =>
      destruct (String.eqb a b); [exact fact | ]
  end.

(** C4. With [use_llm] false, the score that [_score_dimension] returns is
    between 0 and 100 for every submission, scenario and dimension: each of
    the seventeen heuristic scorers clamps its result, and the default for an
    unknown id is 70. *)
Theorem _score_dimension_in_range (set_order : list string -> list string)
    (ai_output : string) (scenario : Scenario) (dimension : Dimension) :
  in_range (fst (_score_dimension set_order ai_output scenario dimension false)).
Proof.
  unfold _score_dimension. cbv zeta.
  by_id (_score_factual_accuracy_range ai_output scenario dimension).
  by_id (_score_analytical_rigor_range ai_output scenario dimension).
  by_id (_score_risk_assessment_range ai_output scenario dimension).
  by_id (_score_evidence_quality_range ai_output scenario dimension).
  by_id (_score_completeness_range set_order ai_output scenario dimension).
  by_id (_score_alpha_environment_range ai_output scenario dimension).
  by_id (_score_risk_treatment_range ai_output scenario dimension).
  by_id (_score_terminal_value_range ai_output scenario dimension).
  by_id (_score_risk_classification_range ai_output scenario dimension).
  by_id (_score_hedging_logic_range ai_output scenario dimension).
  by_id (_score_sizing_methodology_range ai_output scenario dimension).
  by_id (_score_attribution_discipline_range ai_output scenario dimension).
  by_id (_score_hypothesis_testing_range ai_output scenario dimension).
  by_id (_score_contextual_evaluation_range ai_output scenario dimension).
  by_id (_score_cyclical_structural_range ai_output scenario dimension).
  by_id (_score_risk_placement_range ai_output scenario dimension).
  by_id (_score_uncertainty_judgment_range ai_output scenario dimension).
  split; reflexivity.
Qed.

(** C5. With [use_llm] false, a dimension whose id is none of those the
    dispatch recognises gets exactly [(70.0, "Default score applied")],
    whatever the submission and the scenario; the function is total, so no
    error is possible. *)
Theorem _score_dimension_unknown_id (set_order : list string -> list string)
    (ai_output : string) (scenario : Scenario) (dimension : Dimension) :
  ~ In (dim_id dimension) recognized_ids ->
  _score_dimension set_order ai_output scenario dimension false
  = (70%float, "Default score applied").
Proof.
  intros Hunknown. unfold _score_dimension. cbv zeta.
  repeat match goal with
    | |- context [if String.eqb ?a ?b then _ else _] =>
        destruct (String.eqb_spec a b) as [Heq | _];
        [ exfalso; apply Hunknown; rewrite Heq; unfold recognized_ids;
          cbn [In]; tauto | ]
    end.
  reflexivity.
Qed.

(** An id that no scorer knows. *)
Lemma _score_dimension_unknown_id_witness :
  _score_dimension (fun elements => elements) "## Risks"
    {| key_facts := None; evaluation_criteria := None |}
    {| dim_id := "originality"; dim_name := None; dim_weight := Some 1%float |}
    false
  = (70%float, "Default score applied").
Proof.
  apply _score_dimension_unknown_id.
  cbn [dim_id recognized_ids In]. intros Hin.
  repeat destruct Hin as [Hin | Hin]; try discriminate Hin. exact Hin.
Defined.

(** ** Critical failures *)

Lemma risk_loop_existsb (patterns : list string) (ai_output : string) :
  risk_loop patterns ai_output = existsb (header_with_body ai_output) patterns.
Proof.
  induction patterns as [ | pattern rest IH]; [reflexivity | ].
  cbn [risk_loop existsb]. unfold header_with_body at 1.
  destruct (Re.search pattern ai_output Re.no_flags) as [m | ].
  - destruct (Nat.ltb 50 _); [reflexivity | exact IH].
  - exact IH.
Qed.

(** What the code checks: some risk pattern whose first match is followed by
    strictly more than 50 characters of stripped text. *)
Lemma _has_risk_section_existsb (ai_output : string) :
  _has_risk_section ai_output
  = existsb (header_with_body ai_output) risk_patterns.
Proof. apply risk_loop_existsb. Qed.

Lemma scenario_failures_keep (ai_output : string) (criticals failures : list string)
    (f : string) :
  In f failures ->
  In f (List.fold_left
          (fun failures critical =>
             if _check_scenario_critical_failure ai_output critical
             then failures ++ ["Scenario critical failure: " +:+ critical]
             else failures)
          criticals failures).
Proof.
  revert failures. induction criticals as [ | c criticals IH]; intros failures Hin.
  - exact Hin.
  - cbn [List.fold_left]. apply IH.
    destruct (_check_scenario_critical_failure ai_output c); [ | exact Hin].
    apply List.in_or_app. left. exact Hin.
Qed.

(** A submission that fails the risk-section check gets the failure string. *)
Lemma missing_risk_section_reported (ai_output : string) (scenario : Scenario) :
  _has_risk_section ai_output = false ->
  In "Missing or inadequate risk assessment section"
    (_check_critical_failures ai_output scenario).
Proof.
  intros Hmissing. unfold _check_critical_failures. cbv zeta.
  apply scenario_failures_keep. rewrite Hmissing. cbn [negb].
  destruct (_has_guarantee_language ai_output).
  - apply List.in_or_app. left. apply List.in_or_app. right. left. reflexivity.
  - apply List.in_or_app. right. left. reflexivity.
Qed.

(** C6. The code departs from the claim at a header followed by exactly 50
    characters: [_has_risk_section] wants strictly more than 50, so the
    header ["## Risks"] followed by 50 characters of text fails the check and
    the submission is reported as lacking a risk section; 51 characters
    pass, and the bare header fails. *)
Theorem _has_risk_section_fifty_characters :
  Py.len fifty_characters = 50
  /\ _has_risk_section ("## Risks" +:+ fifty_characters) = false
  /\ In "Missing or inadequate risk assessment section"
       (_check_critical_failures ("## Risks" +:+ fifty_characters) empty_scenario)
  /\ _has_risk_section ("## Risks" +:+ fifty_characters +:+ "x") = true
  /\ _has_risk_section "## Risks" = false.
Proof.
  assert (Hfifty : _has_risk_section ("## Risks" +:+ fifty_characters) = false)
    by (vm_compute; reflexivity).
  split; [reflexivity | ].
  split; [exact Hfifty | ].
  split; [apply missing_risk_section_reported; exact Hfifty | ].
  split; vm_compute; reflexivity.
Qed.

Lemma count_unmatched_filter (figures numbers : list string) :
  count_unmatched figures numbers
  = List.length (List.filter (unmatched numbers) (List.firstn 10 figures)).
Proof.
  unfold count_unmatched.
  assert (Hloop : forall figs n,
             List.fold_left
               (fun unmatched_count fig =>
                  if negb (existsb (fun fv => Py.contains fig fv) numbers)
                  then unmatched_count + 1 else unmatched_count) figs n
             = n + List.length (List.filter (unmatched numbers) figs)).
  { induction figs as [ | fig figs IH]; intros n.
    - cbn. lia.
    - cbn [List.fold_left List.filter]. rewrite IH.
      assert (Hsame : negb (existsb (fun fv => Py.contains fig fv) numbers)
                      = unmatched numbers fig).
      { unfold unmatched. clear. induction numbers as [ | x xs IHx].
        - reflexivity.
        - cbn [existsb forallb]. rewrite negb_orb, IHx. reflexivity. }
      rewrite Hsame. destruct (unmatched numbers fig); cbn [List.length]; lia. }
  rewrite Hloop. reflexivity.
Qed.

Lemma fact_values_flat_map (g : KeyFact -> list string) (facts : list KeyFact)
    (values : list string) :
  List.fold_left (fun values f => values ++ g f) facts values
  = values ++ List.flat_map g facts.
Proof.
  revert values. induction facts as [ | f facts IH]; intros values.
  - cbn. rewrite List.app_nil_r. reflexivity.
  - cbn [List.fold_left List.flat_map]. rewrite IH, <- List.app_assoc.
    reflexivity.
Qed.

(** C7. A submission that matches a calculation-context pattern is never
    flagged, whatever the scenario; any other submission is flagged exactly
    when strictly more than 5 of its first 10 dollar figures are a substring
    of none of the numbers extracted from the scenario's key facts. *)
Theorem _detect_hallucination_spec :
  (forall (ai_output : string) (scenario : Scenario),
      has_calculation_context ai_output = true ->
      _detect_hallucination ai_output scenario = false)
  /\ (forall (ai_output : string) (scenario : Scenario),
      has_calculation_context ai_output = false ->
      (_detect_hallucination ai_output scenario = true
       <-> 5 < unmatched_among_first_ten ai_output scenario)).
Proof.
  assert (Heq : forall ai_output scenario,
             _detect_hallucination ai_output scenario
             = if has_calculation_context ai_output then false
               else Nat.ltb 5 (unmatched_among_first_ten ai_output scenario)).
  { intros ai_output scenario. unfold _detect_hallucination. cbv zeta.
    fold (has_calculation_context ai_output). unfold any_search.
    fold (has_calculation_context ai_output).
    destruct (has_calculation_context ai_output); [reflexivity | ].
    rewrite count_unmatched_filter, fact_values_flat_map. reflexivity. }
  split; intros ai_output scenario Hcontext; rewrite Heq, Hcontext.
  - reflexivity.
  - apply Nat.ltb_lt.
Qed.

(** Seven dollar figures and no key fact: flagged, unless the text speaks of
    position sizing. *)
Lemma _detect_hallucination_spec_witness :
  _detect_hallucination "Position sizing: $1 $2 $3 $4 $5 $6 $7" empty_scenario
  = false
  /\ (_detect_hallucination "Revenue: $1 $2 $3 $4 $5 $6 $7" empty_scenario = true
      <-> 5 < unmatched_among_first_ten "Revenue: $1 $2 $3 $4 $5 $6 $7"
                empty_scenario).
Proof.
  split.
  - apply (proj1 _detect_hallucination_spec). vm_compute. reflexivity.
  - apply (proj2 _detect_hallucination_spec). vm_compute. reflexivity.
Defined.

(** ** Composite reward *)

(** C8, as stated, fails: in binary64 the composite of the signal
    [(0, 0.5, 0.5, 1.0)] does not compare equal to 0.225. *)
Lemma composite_gating_counterexample :
  (Rewards.composite gating_signal =? 0.225)%float = false.
Proof. vm_compute. reflexivity. Qed.

(** C8, amended. With the default weights the composite of
    [RewardSignal(accuracy=0, logic=0.5, format_quality=0.5, length=1.0)] is
    0.22499999999999998, the binary64 number just below 0.225: the length
    term is [0.15 * (length * accuracy) = 0], where an additive length term
    would bring the total to 0.375. *)
Theorem composite_gating :
  Rewards.composite gating_signal = 0.22499999999999998%float
  /\ PrimFloat.next_up (Rewards.composite gating_signal) = 0.225%float
  /\ (0.15 * (Rewards.length gating_signal * Rewards.accuracy gating_signal))%float
     = 0%float
  /\ additive_composite gating_signal = 0.375%float.
Proof. repeat split; vm_compute; reflexivity. Qed.

Lemma annotated_keys_fresh (k : string) :
  ~ In k annotated_keys ->
  "chosen_score" <> k /\ "rejected_score" <> k /\ "reward_details" <> k.
Proof.
  unfold annotated_keys. cbn [In]. intros Hnot.
  repeat split; intros Heq; apply Hnot; auto.
Qed.



(** C10. An empty [rubric_scores] mapping is falsy: [compute_reward] then
    returns the very signal it returns without [rubric_scores], computed by
    the heuristics (on the empty text that is 0.5, 0, 0, 0.1, not four times
    0.5); only a non-empty mapping takes the rubric branch, where a missing
    key counts as 50. *)
Theorem compute_reward_empty_rubric_scores :
  (forall float_pow output_text prompt reference,
      Rewards.compute_reward float_pow output_text prompt reference (Some ∅)
      = Rewards.compute_reward float_pow output_text prompt reference None)
  /\ (forall float_pow output_text prompt reference k v
             (scores : gmap string float),
      Rewards.compute_reward float_pow output_text prompt reference
        (Some (<[k := v]> scores))
      = rubric_signal (<[k := v]> scores))
  /\ (forall float_pow prompt reference,
      let signal :=
        Rewards.compute_reward float_pow "" prompt reference
          (Some {[ "other" := 1%float ]}) in
      (Rewards.accuracy signal, Rewards.logic signal,
       Rewards.format_quality signal, Rewards.length signal)
      = (0.5, 0.5, 0.5, 0.5)%float)
  /\ (forall float_pow prompt,
      let signal := Rewards.compute_reward float_pow "" prompt None (Some ∅) in
      (Rewards.accuracy signal, Rewards.logic signal,
       Rewards.format_quality signal, Rewards.length signal)
      = (0.5, 0, 0, 0.1)%float
      /\ Rewards.explanations signal = {[ "source" := "heuristic" ]}).
Proof.
  split; [ | split; [ | split]].
  - intros. unfold Rewards.compute_reward. rewrite map_size_empty. reflexivity.
  - intros. unfold Rewards.compute_reward, rubric_signal.
    destruct (Nat.eqb_spec (size (<[k := v]> scores)) 0) as [Hzero | _].
    + apply map_size_empty_iff in Hzero.
      exfalso. exact (insert_non_empty _ _ _ Hzero).
    + reflexivity.
  - intros. vm_compute. reflexivity.
  - intros. split; vm_compute; reflexivity.
Qed.

(** ** The end-to-end scenarios of the specification, run on the model *)

Example completeness_five_sections :
  _score_completeness (fun elements => elements)
    "Thesis: buy. Valuation is fair. Risk is low. Catalyst: earnings. Position: 2%."
    empty_scenario
    {| dim_id := "completeness"; dim_name := None; dim_weight := Some 100%float |}
  = (85%float, "All major sections covered").
Proof. vm_compute. reflexivity. Qed.

Example guaranteed_returns_fail :
  _check_critical_failures "Buy this stock, guaranteed returns." empty_scenario
  = [ "Missing or inadequate risk assessment section";
      "Contains forward-looking guarantees" ]
  /\ determine_pass_fail (init (Build_Rubric None None (Some 70%float))) 100%float
       (_check_critical_failures "Buy this stock, guaranteed returns."
          empty_scenario)
     = false.
Proof. split; vm_compute; reflexivity. Qed.

Example seven_unknown_figures_flagged :
  _detect_hallucination "Revenue: $1 $2 $3 $4 $5 $6 $7" empty_scenario = true
  /\ _detect_hallucination "Revenue: $1 $2 $3 $4 $5" empty_scenario = false.
Proof. split; vm_compute; reflexivity. Qed.

(** * Further properties *)

(** ** The scores of the dimension scorers *)

Ltac to_grid :=
  cbv zeta;
  repeat match goal with
    | |- context [if ?b then _ else _] => destruct b; cbv beta iota
    | |- context [match ?o with Some _ => _ | None => _ end] =>
        destruct o; cbv beta iota
    end;
  cbn [fst]; vm_compute; reflexivity.

Lemma on_grid_sound (s : float) : on_grid s = true -> grid_score s.
Proof.
  unfold on_grid, score_grid. intros Hgrid.
  apply List.existsb_exists in Hgrid. destruct Hgrid as [v [Hin Heq]].
  apply FloatAxioms.Leibniz.eqb_spec in Heq. subst v.
  apply List.in_map_iff in Hin. destruct Hin as [n [<- Hn]].
  apply List.in_seq in Hn. exists (5 * n). split; [lia | ].
  split; [ | reflexivity].
  rewrite Nat.mul_comm. apply Nat.Div0.mod_mul.
Qed.

Lemma on_grid_in_range (s : float) : on_grid s = true -> in_range s.
Proof.
  unfold on_grid. intros Hgrid.
  apply List.existsb_exists in Hgrid. destruct Hgrid as [v [Hin Heq]].
  apply FloatAxioms.Leibniz.eqb_spec in Heq. subst v.
  assert (Hall : forallb (fun v => (0 <=? v)%float && (v <=? 100)%float)
                   score_grid = true) by (vm_compute; reflexivity).
  rewrite List.forallb_forall in Hall. specialize (Hall s Hin).
  apply andb_prop in Hall. exact Hall.
Qed.

Lemma _score_factual_accuracy_grid ai_output scenario dimension :
  on_grid (fst (_score_factual_accuracy ai_output scenario dimension)) = true.
Proof. unfold _score_factual_accuracy. to_grid. Qed.

Lemma _score_analytical_rigor_grid ai_output scenario dimension :
  on_grid (fst (_score_analytical_rigor ai_output scenario dimension)) = true.
Proof. unfold _score_analytical_rigor. to_grid. Qed.

Lemma _score_risk_assessment_grid ai_output scenario dimension :
  on_grid (fst (_score_risk_assessment ai_output scenario dimension)) = true.
Proof. unfold _score_risk_assessment. to_grid. Qed.

Lemma _score_evidence_quality_grid ai_output scenario dimension :
  on_grid (fst (_score_evidence_quality ai_output scenario dimension)) = true.
Proof. unfold _score_evidence_quality. to_grid. Qed.

Lemma _score_completeness_grid set_order ai_output scenario dimension :
  on_grid (fst (_score_completeness set_order ai_output scenario dimension))
  = true.
Proof. unfold _score_completeness. to_grid. Qed.

Lemma _score_alpha_environment_grid ai_output scenario dimension :
  on_grid (fst (_score_alpha_environment ai_output scenario dimension)) = true.
Proof. unfold _score_alpha_environment. to_grid. Qed.

Lemma _score_risk_treatment_grid ai_output scenario dimension :
  on_grid (fst (_score_risk_treatment ai_output scenario dimension)) = true.
Proof. unfold _score_risk_treatment. to_grid. Qed.

Lemma _score_terminal_value_grid ai_output scenario dimension :
  on_grid (fst (_score_terminal_value ai_output scenario dimension)) = true.
Proof. unfold _score_terminal_value. to_grid. Qed.

Lemma _score_cyclical_structural_grid ai_output scenario dimension :
  on_grid (fst (_score_cyclical_structural ai_output scenario dimension)) = true.
Proof. unfold _score_cyclical_structural. to_grid. Qed.

Lemma _score_risk_classification_grid ai_output scenario dimension :
  on_grid (fst (_score_risk_classification ai_output scenario dimension)) = true.
Proof. unfold _score_risk_classification. to_grid. Qed.

Lemma _score_hedging_logic_grid ai_output scenario dimension :
  on_grid (fst (_score_hedging_logic ai_output scenario dimension)) = true.
Proof. unfold _score_hedging_logic. to_grid. Qed.

Lemma _score_sizing_methodology_grid ai_output scenario dimension :
  on_grid (fst (_score_sizing_methodology ai_output scenario dimension)) = true.
Proof. unfold _score_sizing_methodology. to_grid. Qed.

Lemma _score_risk_placement_grid ai_output scenario dimension :
  on_grid (fst (_score_risk_placement ai_output scenario dimension)) = true.
Proof. unfold _score_risk_placement. to_grid. Qed.

Lemma _score_uncertainty_judgment_grid ai_output scenario dimension :
  on_grid (fst (_score_uncertainty_judgment ai_output scenario dimension)) = true.
Proof. unfold _score_uncertainty_judgment. to_grid. Qed.

Lemma _score_attribution_discipline_grid ai_output scenario dimension :
  on_grid (fst (_score_attribution_discipline ai_output scenario dimension))
  = true.
Proof. unfold _score_attribution_discipline. to_grid. Qed.

Lemma _score_hypothesis_testing_grid ai_output scenario dimension :
  on_grid (fst (_score_hypothesis_testing ai_output scenario dimension)) = true.
Proof. unfold _score_hypothesis_testing. to_grid. Qed.

Lemma _score_contextual_evaluation_grid ai_output scenario dimension :
  on_grid (fst (_score_contextual_evaluation ai_output scenario dimension))
  = true.
Proof. unfold _score_contextual_evaluation. to_grid. Qed.

Ltac grid_by_id fact :=
  lazymatch goal with
  | |- on_grid (fst (if String.eqb ?a ?b then _ else _)) = true =>
      destruct (String.eqb a b); [exact fact | ]
  end.

Lemma score_dimension_on_grid (set_order : list string -> list string)
    (ai_output : string) (scenario : Scenario) (dimension : Dimension)
    (use_llm : bool) :
  on_grid (fst (_score_dimension set_order ai_output scenario dimension use_llm))
  = true.
Proof.
  unfold _score_dimension. cbv zeta.
  destruct use_llm; [vm_compute; reflexivity | ].
  grid_by_id (_score_factual_accuracy_grid ai_output scenario dimension).
  grid_by_id (_score_analytical_rigor_grid ai_output scenario dimension).
  grid_by_id (_score_risk_assessment_grid ai_output scenario dimension).
  grid_by_id (_score_evidence_quality_grid ai_output scenario dimension).
  grid_by_id (_score_completeness_grid set_order ai_output scenario dimension).
  grid_by_id (_score_alpha_environment_grid ai_output scenario dimension).
  grid_by_id (_score_risk_treatment_grid ai_output scenario dimension).
  grid_by_id (_score_terminal_value_grid ai_output scenario dimension).
  grid_by_id (_score_risk_classification_grid ai_output scenario dimension).
  grid_by_id (_score_hedging_logic_grid ai_output scenario dimension).
  grid_by_id (_score_sizing_methodology_grid ai_output scenario dimension).
  grid_by_id (_score_attribution_discipline_grid ai_output scenario dimension).
  grid_by_id (_score_hypothesis_testing_grid ai_output scenario dimension).
  grid_by_id (_score_contextual_evaluation_grid ai_output scenario dimension).
  grid_by_id (_score_cyclical_structural_grid ai_output scenario dimension).
  grid_by_id (_score_risk_placement_grid ai_output scenario dimension).
  grid_by_id (_score_uncertainty_judgment_grid ai_output scenario dimension).
  vm_compute. reflexivity.
Qed.

(** X1. Whatever the submission, the scenario, the dimension and [use_llm],
    the score of [_score_dimension] is a whole multiple of 5 between 40 and
    100: the clamp's lower bound 0 is never reached. *)
Theorem _score_dimension_multiple_of_five (set_order : list string -> list string)
    (ai_output : string) (scenario : Scenario) (dimension : Dimension)
    (use_llm : bool) :
  grid_score
    (fst (_score_dimension set_order ai_output scenario dimension use_llm)).
Proof. apply on_grid_sound, score_dimension_on_grid. Qed.

(** ** [grade] *)

(** The loop of [grade] over the rubric's dimensions. *)
Lemma grade_loop_lookup (set_order : list string -> list string)
    (ai_output : string) (scenario : Scenario) (use_llm : bool)
    (dims : list Dimension) (acc : gmap string float * gmap string string)
    (k : string) :
  let result :=
    List.fold_left
      (fun (acc : gmap string float * gmap string string) dimension =>
         let '(score, feedback) :=
           _score_dimension set_order ai_output scenario dimension use_llm in
         (<[dim_id dimension := score]> (fst acc),
          <[dim_id dimension := feedback]> (snd acc)))
      dims acc in
  fst result !! k
  = match last_with_id dims k with
    | Some d =>
        Some (fst (_score_dimension set_order ai_output scenario d use_llm))
    | None => fst acc !! k
    end
  /\ snd result !! k
     = match last_with_id dims k with
       | Some d =>
           Some (snd (_score_dimension set_order ai_output scenario d use_llm))
       | None => snd acc !! k
       end.
Proof.
  cbv zeta. revert acc.
  induction dims as [ | d dims IH]; intros acc; [split; reflexivity | ].
  cbn [List.fold_left last_with_id].
  destruct (_score_dimension set_order ai_output scenario d use_llm)
    as [score feedback] eqn:Hd.
  specialize (IH (<[dim_id d := score]> (fst acc),
                  <[dim_id d := feedback]> (snd acc))).
  destruct IH as [IHs IHf]. rewrite IHs, IHf.
  destruct (last_with_id dims k) as [later | ]; [split; reflexivity | ].
  cbn [fst snd].
  destruct (String.eqb_spec (dim_id d) k) as [-> | Hne].
  - rewrite !lookup_insert_eq, Hd. split; reflexivity.
  - rewrite !lookup_insert_ne by exact Hne. split; reflexivity.
Qed.

Lemma grade_projections (set_order : list string -> list string)
    (self : Engine) (ai_output : string) (scenario : Scenario) (use_llm : bool) :
  grade set_order self ai_output scenario use_llm
  = (fst
       (List.fold_left
          (fun (acc : gmap string float * gmap string string) dimension =>
             let '(score, feedback) :=
               _score_dimension set_order ai_output scenario dimension use_llm in
             (<[dim_id dimension := score]> (fst acc),
              <[dim_id dimension := feedback]> (snd acc)))
          (dimensions self) (∅, ∅)),
     _check_critical_failures ai_output scenario,
     snd
       (List.fold_left
          (fun (acc : gmap string float * gmap string string) dimension =>
             let '(score, feedback) :=
               _score_dimension set_order ai_output scenario dimension use_llm in
             (<[dim_id dimension := score]> (fst acc),
              <[dim_id dimension := feedback]> (snd acc)))
          (dimensions self) (∅, ∅))).
Proof.
  unfold grade. cbv zeta.
  destruct (List.fold_left _ (dimensions self) (∅, ∅)) as [scores feedback].
  reflexivity.
Qed.

Lemma grade_lookup (set_order : list string -> list string)
    (self : Engine) (ai_output : string) (scenario : Scenario) (use_llm : bool)
    (k : string) :
  fst (fst (grade set_order self ai_output scenario use_llm)) !! k
  = match last_with_id (dimensions self) k with
    | Some d =>
        Some (fst (_score_dimension set_order ai_output scenario d use_llm))
    | None => None
    end
  /\ snd (grade set_order self ai_output scenario use_llm) !! k
     = match last_with_id (dimensions self) k with
       | Some d =>
           Some (snd (_score_dimension set_order ai_output scenario d use_llm))
       | None => None
       end.
Proof.
  rewrite grade_projections. cbn [fst snd].
  pose proof (grade_loop_lookup set_order ai_output scenario use_llm
                (dimensions self) (∅, ∅) k) as Hloop.
  cbv zeta in Hloop. cbn [fst snd] in Hloop.
  rewrite !lookup_empty in Hloop. exact Hloop.
Qed.

Lemma last_with_id_some (dims : list Dimension) (k : string) (d : Dimension) :
  last_with_id dims k = Some d -> In d dims /\ dim_id d = k.
Proof.
  induction dims as [ | d0 dims IH]; cbn [last_with_id]; [discriminate | ].
  destruct (last_with_id dims k) as [later | ].
  - intros Heq. injection Heq as <-. destruct (IH eq_refl) as [Hin Hid].
    split; [right; exact Hin | exact Hid].
  - destruct (String.eqb_spec (dim_id d0) k) as [Hid | _]; [ | discriminate].
    intros Heq. injection Heq as <-. split; [left; reflexivity | exact Hid].
Qed.

Lemma last_with_id_none (dims : list Dimension) (k : string) :
  last_with_id dims k = None <-> ~ In k (List.map dim_id dims).
Proof.
  induction dims as [ | d0 dims IH]; cbn [last_with_id List.map In]; [tauto | ].
  destruct (last_with_id dims k) as [later | ].
  - split; [discriminate | ]. intros Hnot. exfalso.
    destruct IH as [_ IH].
    assert (Hk : ~ In k (List.map dim_id dims)) by tauto.
    specialize (IH Hk). discriminate IH.
  - destruct (String.eqb_spec (dim_id d0) k) as [Hid | Hne].
    + split; [discriminate | ]. intros Hnot. exfalso. apply Hnot. left. exact Hid.
    + split; [ | reflexivity]. intros _ [Hid | Hin]; [exact (Hne Hid) | ].
      destruct IH as [IH _]. exact (IH eq_refl Hin).
Qed.

(** X2. [grade] scores exactly the ids of the rubric's dimensions, and gives
    feedback for the same ids; under an id that several dimensions share,
    the score and the feedback are those of the last such dimension. The
    critical failures it returns are those of the submission and scenario,
    whatever the rubric. *)
Theorem grade_scores_rubric_ids (set_order : list string -> list string)
    (self : Engine) (ai_output : string) (scenario : Scenario) (use_llm : bool) :
  let '(dimension_scores, failures, detailed_feedback) :=
    grade set_order self ai_output scenario use_llm in
  (forall k : string,
      is_Some (dimension_scores !! k) <-> In k (List.map dim_id (dimensions self)))
  /\ (forall k : string,
      is_Some (detailed_feedback !! k) <-> In k (List.map dim_id (dimensions self)))
  /\ (forall k : string,
      dimension_scores !! k
      = (fun d => fst (_score_dimension set_order ai_output scenario d use_llm))
          <$> last_with_id (dimensions self) k)
  /\ (forall k : string,
      detailed_feedback !! k
      = (fun d => snd (_score_dimension set_order ai_output scenario d use_llm))
          <$> last_with_id (dimensions self) k)
  /\ failures = _check_critical_failures ai_output scenario.
Proof.
  pose proof (grade_lookup set_order self ai_output scenario use_llm) as Hlookup.
  pose proof (grade_projections set_order self ai_output scenario use_llm) as Hproj.
  destruct (grade set_order self ai_output scenario use_llm)
    as [[dimension_scores failures] detailed_feedback].
  cbn [fst snd] in Hlookup.
  assert (Hsome : forall (A : Type) (f : Dimension -> A) k,
             is_Some (match last_with_id (dimensions self) k with
                      | Some d => Some (f d)
                      | None => None
                      end)
             <-> In k (List.map dim_id (dimensions self))).
  { intros A f k. pose proof (last_with_id_none (dimensions self) k) as Hnone.
    pose proof (last_with_id_some (dimensions self) k) as Hsome.
    destruct (last_with_id (dimensions self) k) as [d | ].
    - split; [ | eauto]. intros _.
      destruct (Hsome d eq_refl) as [Hin <-]. apply List.in_map. exact Hin.
    - split; [intros [x Hx]; discriminate Hx | ].
      intros Hin. destruct Hnone as [Hnone _]. destruct (Hnone eq_refl Hin). }
  split; [ | split; [ | split; [ | split]]].
  - intros k. rewrite (proj1 (Hlookup k)). apply Hsome.
  - intros k. rewrite (proj2 (Hlookup k)). apply Hsome.
  - intros k. rewrite (proj1 (Hlookup k)).
    destruct (last_with_id (dimensions self) k); reflexivity.
  - intros k. rewrite (proj2 (Hlookup k)).
    destruct (last_with_id (dimensions self) k); reflexivity.
  - injection Hproj as _ Hfailures _. exact Hfailures.
Qed.

(** X3. Every score in the map that [grade] returns is a whole multiple of 5
    between 40 and 100, so within [0, 100], for every rubric, submission,
    scenario and value of [use_llm]. *)
Theorem grade_scores_in_range (set_order : list string -> list string)
    (self : Engine) (ai_output : string) (scenario : Scenario) (use_llm : bool)
    (k : string) (score : float) :
  fst (fst (grade set_order self ai_output scenario use_llm)) !! k = Some score ->
  grid_score score /\ in_range score.
Proof.
  rewrite (proj1 (grade_lookup set_order self ai_output scenario use_llm k)).
  destruct (last_with_id (dimensions self) k) as [d | ]; [ | discriminate].
  intros Heq. injection Heq as <-.
  split; [apply on_grid_sound | apply on_grid_in_range];
    apply score_dimension_on_grid.
Qed.

(** The runner's default rubric on a short text: completeness scores 45. *)
Lemma grade_scores_in_range_witness :
  grid_score 45%float /\ in_range 45%float.
Proof.
  apply (grade_scores_in_range (fun elements => elements)
           (init EvalRunner._default_rubric) "Buy." empty_scenario false
           "completeness" 45%float).
  vm_compute. reflexivity.
Defined.

(** ** Critical failures and the verdict *)

Lemma scenario_failures_fold (ai_output : string) (rules failures : list string) :
  List.fold_left
    (fun failures critical =>
       if _check_scenario_critical_failure ai_output critical
       then failures ++ ["Scenario critical failure: " +:+ critical]
       else failures)
    rules failures
  = failures
    ++ List.map (fun critical => "Scenario critical failure: " +:+ critical)
         (List.filter (_check_scenario_critical_failure ai_output) rules).
Proof.
  revert failures. induction rules as [ | c rules IH]; intros failures.
  - cbn. rewrite List.app_nil_r. reflexivity.
  - cbn [List.fold_left List.filter]. rewrite IH.
    destruct (_check_scenario_critical_failure ai_output c); [ | reflexivity].
    cbn [List.map]. rewrite <- List.app_assoc. reflexivity.
Qed.

Lemma check_critical_failures_eq (ai_output : string) (scenario : Scenario) :
  _check_critical_failures ai_output scenario
  = critical_failures_spec ai_output scenario.
Proof.
  unfold _check_critical_failures, critical_failures_spec. cbv zeta.
  fold (scenario_rules scenario). rewrite scenario_failures_fold.
  destruct (_detect_hallucination ai_output scenario),
    (_has_risk_section ai_output), (_has_guarantee_language ai_output);
    reflexivity.
Qed.

(** X4. The checks of [_check_critical_failures] are independent and
    ordered: the result lists the hallucination, risk-section and guarantee
    failures that fire, in that order, followed by one
    ["Scenario critical failure: ..."] entry for each scenario rule that
    fires, in the order of the scenario's list. *)
Theorem _check_critical_failures_independent (ai_output : string)
    (scenario : Scenario) :
  _check_critical_failures ai_output scenario
  = (if _detect_hallucination ai_output scenario
     then ["Potential hallucinated data detected"] else [])
    ++ (if _has_risk_section ai_output
        then [] else ["Missing or inadequate risk assessment section"])
    ++ (if _has_guarantee_language ai_output
        then ["Contains forward-looking guarantees"] else [])
    ++ List.map (fun critical => "Scenario critical failure: " +:+ critical)
         (List.filter (_check_scenario_critical_failure ai_output)
            (scenario_rules scenario)).
Proof. apply check_critical_failures_eq. Qed.

Lemma unrecognised_rule_not_flagged (ai_output critical_failure : string) :
  recognised_rule critical_failure = false ->
  _check_scenario_critical_failure ai_output critical_failure = false.
Proof.
  unfold recognised_rule, _check_scenario_critical_failure. cbv zeta.
  intros Hrule.
  apply orb_false_elim in Hrule. destruct Hrule as [Hrule Hnature].
  apply orb_false_elim in Hrule. destruct Hrule as [Hprob Hbinary].
  rewrite Hprob, Hbinary, Hnature. reflexivity.
Qed.

Lemma append_prefix_injective (p a b : string) : p +:+ a = p +:+ b -> a = b.
Proof.
  induction p as [ | c p IH]; cbn; [auto | ].
  intros Heq. injection Heq as Heq. exact (IH Heq).
Qed.

(** X5. A scenario rule that names none of the two known conditions (no
    probability estimate; binary nature ignored) is never reported: an entry
    ["Scenario critical failure: c"] in the result means that [c] is a rule
    of the scenario, that [c] names a known condition, and that the check
    for it fired. *)
Theorem scenario_rule_reported (ai_output : string) (scenario : Scenario)
    (c : string) :
  In ("Scenario critical failure: " +:+ c)
    (_check_critical_failures ai_output scenario)
  <-> In c (scenario_rules scenario)
      /\ recognised_rule c = true
      /\ _check_scenario_critical_failure ai_output c = true.
Proof.
  rewrite check_critical_failures_eq. unfold critical_failures_spec.
  rewrite !List.in_app_iff, List.in_map_iff.
  split.
  - intros [Hh | [Hr | [Hg | [c' [Heq Hin]]]]].
    + destruct (_detect_hallucination ai_output scenario);
        [destruct Hh as [Hh | []]; discriminate Hh | destruct Hh].
    + destruct (_has_risk_section ai_output);
        [destruct Hr | destruct Hr as [Hr | []]; discriminate Hr].
    + destruct (_has_guarantee_language ai_output);
        [destruct Hg as [Hg | []]; discriminate Hg | destruct Hg].
    + apply append_prefix_injective in Heq. subst c'.
      apply List.filter_In in Hin. destruct Hin as [Hin Hfired].
      split; [exact Hin | ]. split; [ | exact Hfired].
      destruct (recognised_rule c) eqn:Hrule; [reflexivity | ].
      rewrite (unrecognised_rule_not_flagged ai_output c Hrule) in Hfired.
      discriminate Hfired.
  - intros [Hin [_ Hfired]]. right. right. right.
    exists c. split; [reflexivity | ].
    apply List.filter_In. split; assumption.
Qed.

(** X6. The verdict of the engine is [true] exactly when the three fixed
    checks are clean, no scenario rule fires and the score reaches the
    threshold. *)
Theorem determine_pass_fail_after_checks (self : Engine) (overall_score : float)
    (ai_output : string) (scenario : Scenario) :
  determine_pass_fail self overall_score
    (_check_critical_failures ai_output scenario) = true
  <-> _detect_hallucination ai_output scenario = false
      /\ _has_risk_section ai_output = true
      /\ _has_guarantee_language ai_output = false
      /\ (forall c, In c (scenario_rules scenario) ->
                    _check_scenario_critical_failure ai_output c = false)
      /\ (pass_threshold self <=? overall_score)%float = true.
Proof.
  rewrite check_critical_failures_eq. unfold critical_failures_spec.
  assert (Hrules :
            List.filter (_check_scenario_critical_failure ai_output)
              (scenario_rules scenario) = []
            <-> forall c, In c (scenario_rules scenario) ->
                          _check_scenario_critical_failure ai_output c = false).
  { induction (scenario_rules scenario) as [ | c rules IH]; cbn [List.filter In].
    - split; [intros _ c [] | reflexivity].
    - destruct (_check_scenario_critical_failure ai_output c) eqn:Hc.
      + split; [discriminate | ]. intros Hall.
        rewrite (Hall c (or_introl eq_refl)) in Hc. discriminate Hc.
      + rewrite IH. split.
        * intros Hall c' [<- | Hin]; [exact Hc | exact (Hall c' Hin)].
        * intros Hall c' Hin. apply Hall. right. exact Hin. }
  rewrite <- Hrules.
  destruct (_detect_hallucination ai_output scenario),
    (_has_risk_section ai_output), (_has_guarantee_language ai_output);
    cbn [app determine_pass_fail];
    try (split; [discriminate | intros [H1 [H2 [H3 _]]]; discriminate]).
  destruct (List.filter _ (scenario_rules scenario)) as [ | c rest];
    cbn [List.map determine_pass_fail]; unfold Num.ge.
  - tauto.
  - split; [discriminate | ]. intros [_ [_ [_ [Hnil _]]]]. discriminate Hnil.
Qed.

(** X7. The runner's verdict ([overall_score >= pass_threshold and
    len(critical_failures) == 0]) and the engine's [determine_pass_fail]
    agree on every rubric, score and list of failures. *)
Theorem passed_agrees_with_determine_pass_fail (r : Rubric)
    (overall_score : float) (failures : list string) :
  EvalRunner.passed r overall_score failures
  = determine_pass_fail (init r) overall_score failures.
Proof.
  unfold EvalRunner.passed, determine_pass_fail, init. cbn [pass_threshold].
  destruct failures as [ | f fs]; cbn [List.length Nat.eqb].
  - apply andb_true_r.
  - apply andb_false_r.
Qed.

Lemma len_take_le (n : nat) (s : string) : Py.len (Py.take n s) <= Py.len s.
Proof.
  revert s. induction n as [ | n IH]; intros [ | c s]; cbn; try lia.
  specialize (IH s). unfold Py.len in IH. lia.
Qed.

Lemma len_drop_le (n : nat) (s : string) : Py.len (Py.drop n s) <= Py.len s.
Proof.
  revert s. induction n as [ | n IH]; intros [ | c s]; cbn; try lia.
  specialize (IH s). unfold Py.len in IH. lia.
Qed.

Lemma len_lstrip_le (s : string) : Py.len (Py.lstrip s) <= Py.len s.
Proof.
  induction s as [ | c s IH]; cbn; [lia | ].
  destruct (Py.isspace c); cbn; unfold Py.len in IH; lia.
Qed.

Lemma len_rstrip_le (s : string) : Py.len (Py.rstrip s) <= Py.len s.
Proof.
  induction s as [ | c s IH]; cbn; [lia | ].
  unfold Py.len in IH.
  destruct (Py.rstrip s) as [ | c' t]; [destruct (Py.isspace c) | ]; cbn in *; lia.
Qed.

Lemma len_strip_slice_le (s : string) (i j : nat) :
  Py.len (Py.strip (Py.slice s i j)) <= Py.len s.
Proof.
  unfold Py.strip, Py.slice.
  pose proof (len_rstrip_le (Py.lstrip (Py.take (j - i) (Py.drop i s)))).
  pose proof (len_lstrip_le (Py.take (j - i) (Py.drop i s))).
  pose proof (len_take_le (j - i) (Py.drop i s)).
  pose proof (len_drop_le i s). lia.
Qed.

(** X8. A submission of at most 50 characters never has a risk section, so
    it is always reported as lacking one and fails for every rubric, score
    and scenario, through the engine's verdict and through the runner's. *)
Theorem short_submission_fails (ai_output : string) :
  Py.len ai_output <= 50 ->
  _has_risk_section ai_output = false
  /\ (forall scenario,
         In "Missing or inadequate risk assessment section"
           (_check_critical_failures ai_output scenario))
  /\ (forall self overall_score scenario,
         determine_pass_fail self overall_score
           (_check_critical_failures ai_output scenario) = false)
  /\ (forall r overall_score scenario,
         EvalRunner.passed r overall_score
           (_check_critical_failures ai_output scenario) = false).
Proof.
  intros Hshort.
  assert (Hrisk : _has_risk_section ai_output = false).
  { rewrite _has_risk_section_existsb.
    induction risk_patterns as [ | p ps IH]; [reflexivity | ].
    cbn [existsb]. rewrite IH, orb_false_r. unfold header_with_body.
    destruct (Re.search p ai_output Re.no_flags) as [m | ]; [ | reflexivity].
    apply Nat.ltb_ge.
    pose proof (len_strip_slice_le ai_output (Re.m_end m) (Re.m_end m + 200)).
    lia. }
  assert (Hreported : forall scenario,
             In "Missing or inadequate risk assessment section"
               (_check_critical_failures ai_output scenario)).
  { intros scenario. rewrite check_critical_failures_eq.
    unfold critical_failures_spec. rewrite Hrisk.
    apply List.in_or_app. right. left. reflexivity. }
  split; [exact Hrisk | ]. split; [exact Hreported | ].
  split.
  - intros self overall_score scenario. specialize (Hreported scenario).
    destruct (_check_critical_failures ai_output scenario); [destruct Hreported | ].
    reflexivity.
  - intros r overall_score scenario. specialize (Hreported scenario).
    unfold EvalRunner.passed.
    destruct (_check_critical_failures ai_output scenario); [destruct Hreported | ].
    apply andb_false_r.
Qed.

(** A four-character submission. *)
Lemma short_submission_fails_witness :
  _has_risk_section "Buy." = false
  /\ (forall scenario,
         In "Missing or inadequate risk assessment section"
           (_check_critical_failures "Buy." scenario))
  /\ (forall self overall_score scenario,
         determine_pass_fail self overall_score
           (_check_critical_failures "Buy." scenario) = false)
  /\ (forall r overall_score scenario,
         EvalRunner.passed r overall_score
           (_check_critical_failures "Buy." scenario) = false).
Proof. apply (short_submission_fails "Buy."). cbn. lia. Defined.

(** ** More on the overall score *)

(** X9. Scores filed under ids that the rubric does not have are ignored:
    adding, changing or removing such an entry changes neither the engine's
    overall score nor the runner's. *)
Theorem overall_score_ignores_foreign_ids (r : Rubric)
    (scores : gmap string float) (k : string) (v : float) :
  ~ In k (List.map dim_id (default [] (rubric_dimensions r))) ->
  calculate_overall_score (init r) (<[k := v]> scores)
  = calculate_overall_score (init r) scores
  /\ calculate_overall_score (init r) (delete k scores)
     = calculate_overall_score (init r) scores
  /\ EvalRunner.overall_score r (<[k := v]> scores)
     = EvalRunner.overall_score r scores
  /\ EvalRunner.overall_score r (delete k scores)
     = EvalRunner.overall_score r scores.
Proof.
  intros Hforeign.
  assert (Hne : forall d, In d (default [] (rubric_dimensions r)) -> k <> dim_id d).
  { intros d Hin Heq. apply Hforeign. subst k. apply List.in_map. exact Hin. }
  split; [ | split; [ | split]].
  - apply calculate_overall_score_ext. intros d Hin.
    apply lookup_insert_ne. exact (Hne d Hin).
  - apply calculate_overall_score_ext. intros d Hin.
    apply lookup_delete_ne. exact (Hne d Hin).
  - apply overall_score_ext. intros d Hin.
    apply lookup_insert_ne. exact (Hne d Hin).
  - apply overall_score_ext. intros d Hin.
    apply lookup_delete_ne. exact (Hne d Hin).
Qed.

(** A score for ["c"] under the rubric with dimensions ["a"] and ["b"]. *)
Lemma overall_score_ignores_foreign_ids_witness :
  calculate_overall_score (init rubric_percentage)
    (<["c" := 10%float]> (<["a" := 80%float]> ∅))
  = calculate_overall_score (init rubric_percentage) (<["a" := 80%float]> ∅).
Proof.
  apply (overall_score_ignores_foreign_ids rubric_percentage
           (<["a" := 80%float]> ∅) "c" 10%float).
  cbn. intros [H | [H | []]]; discriminate H.
Defined.

Lemma accumulate_unscored (scores : gmap string float) (dims : list Dimension)
    (acc : float * float) :
  (forall d, In d dims -> scores !! dim_id d = None) ->
  List.fold_left (accumulate scores) dims acc = acc.
Proof.
  revert acc. induction dims as [ | d dims IH]; intros acc Hnone; [reflexivity | ].
  cbn [List.fold_left]. unfold accumulate at 2.
  rewrite (Hnone d (or_introl eq_refl)).
  apply IH. intros d' Hin. apply Hnone. right. exact Hin.
Qed.

(** X10. When no dimension of the rubric has a score in the map (an empty
    map in particular), [calculate_overall_score] returns 0.0 and divides
    nothing, whatever the weights. *)
Theorem calculate_overall_score_unscored (self : Engine)
    (scores : gmap string float) :
  (forall d, In d (dimensions self) -> scores !! dim_id d = None) ->
  calculate_overall_score self scores = Some 0%float.
Proof.
  intros Hnone. unfold calculate_overall_score.
  rewrite (accumulate_unscored scores (dimensions self) _ Hnone). reflexivity.
Qed.

(** The default rubric and an empty scores map. *)
Lemma calculate_overall_score_unscored_witness :
  calculate_overall_score (init EvalRunner._default_rubric) ∅ = Some 0%float.
Proof.
  apply (calculate_overall_score_unscored (init EvalRunner._default_rubric) ∅).
  intros d _. apply lookup_empty.
Defined.

(** ** More on the hallucination check *)

Lemma detect_hallucination_eq (ai_output : string) (scenario : Scenario) :
  _detect_hallucination ai_output scenario
  = if has_calculation_context ai_output then false
    else Nat.ltb 5 (unmatched_among_first_ten ai_output scenario).
Proof.
  unfold _detect_hallucination. cbv zeta. unfold any_search.
  fold (has_calculation_context ai_output).
  destruct (has_calculation_context ai_output); [reflexivity | ].
  rewrite count_unmatched_filter, fact_values_flat_map. reflexivity.
Qed.

(** X11. A submission with at most five dollar figures is never flagged as
    hallucinated, whatever the scenario says. *)
Theorem few_figures_never_flagged (ai_output : string) (scenario : Scenario) :
  List.length (dollar_figures ai_output) <= 5 ->
  _detect_hallucination ai_output scenario = false.
Proof.
  intros Hfew. rewrite detect_hallucination_eq.
  destruct (has_calculation_context ai_output); [reflexivity | ].
  apply Nat.ltb_ge. unfold unmatched_among_first_ten.
  pose proof (List.filter_length_le (unmatched (scenario_numbers scenario))
                (List.firstn 10 (dollar_figures ai_output))) as Hfilter.
  pose proof (List.firstn_le_length 10 (dollar_figures ai_output)) as Hfirst.
  rewrite List.length_firstn in Hfilter. lia.
Qed.

(** Five figures, none of them in the (empty) scenario. *)
Lemma few_figures_never_flagged_witness :
  _detect_hallucination "Revenue: $1 $2 $3 $4 $5" empty_scenario = false.
Proof.
  apply few_figures_never_flagged. vm_compute. lia.
Defined.

(** X12. When the scenario's key facts contain no number (no key facts at
    all, for instance), a submission is flagged exactly when it has no
    calculation context and at least six dollar figures. *)
Theorem no_scenario_numbers_flagged (ai_output : string) (scenario : Scenario) :
  scenario_numbers scenario = [] ->
  (_detect_hallucination ai_output scenario = true
   <-> has_calculation_context ai_output = false
       /\ 6 <= List.length (dollar_figures ai_output)).
Proof.
  intros Hnone. rewrite detect_hallucination_eq.
  unfold unmatched_among_first_ten. rewrite Hnone.
  assert (Hall : forall figs : list string,
             List.filter (unmatched []) figs = figs).
  { induction figs as [ | f figs IH]; [reflexivity | ].
    cbn [List.filter unmatched forallb]. rewrite IH. reflexivity. }
  rewrite Hall, List.length_firstn.
  destruct (has_calculation_context ai_output).
  - split; [discriminate | intros [H _]; discriminate H].
  - rewrite Nat.ltb_lt. split; [intros H; split; [reflexivity | lia] | ].
    intros [_ H]. lia.
Qed.

(** The empty scenario has no numbers. *)
Lemma no_scenario_numbers_flagged_witness :
  _detect_hallucination "Revenue: $1 $2 $3 $4 $5 $6" empty_scenario = true
  <-> has_calculation_context "Revenue: $1 $2 $3 $4 $5 $6" = false
      /\ 6 <= List.length (dollar_figures "Revenue: $1 $2 $3 $4 $5 $6").
Proof.
  apply (no_scenario_numbers_flagged "Revenue: $1 $2 $3 $4 $5 $6" empty_scenario).
  reflexivity.
Defined.

(** ** More on the reward heuristics *)

Lemma split_acc_blank (s : string) : blank s = true -> Py.split_acc s "" = [].
Proof.
  induction s as [ | c s IH]; cbn [blank Py.split_acc]; [reflexivity | ].
  intros Hblank. apply andb_prop in Hblank. destruct Hblank as [Hc Hs].
  rewrite Hc. exact (IH Hs).
Qed.

Lemma lower_char_isspace (c : ascii) :
  Py.isspace (Py.lower_char c) = Py.isspace c.
Proof.
  destruct c as [b0 b1 b2 b3 b4 b5 b6 b7].
  destruct b0, b1, b2, b3, b4, b5, b6, b7; reflexivity.
Qed.

Lemma blank_lower (s : string) : blank (Py.lower s) = blank s.
Proof.
  induction s as [ | c s IH]; cbn [blank Py.lower]; [reflexivity | ].
  rewrite lower_char_isspace, IH. reflexivity.
Qed.

Lemma strip_blank (s : string) : blank s = true -> Py.strip s = "".
Proof.
  unfold Py.strip. intros Hblank.
  assert (Hl : Py.lstrip s = "").
  { induction s as [ | c s IH]; [reflexivity | ].
    cbn [blank] in Hblank. apply andb_prop in Hblank.
    destruct Hblank as [Hc Hs]. cbn [Py.lstrip]. rewrite Hc. exact (IH Hs). }
  rewrite Hl. reflexivity.
Qed.

Lemma compute_accuracy_blank_reference (text ref : string) :
  blank ref = true -> Rewards.compute_accuracy text (Some ref) = 0.5%float.
Proof.
  intros Hblank. unfold Rewards.compute_accuracy.
  destruct ref as [ | c ref]; [reflexivity | ].
  cbv zeta. unfold Py.split.
  rewrite (split_acc_blank (Py.lower (String c ref)))
    by (rewrite blank_lower; exact Hblank).
  reflexivity.
Qed.

(** X13. A text of whitespace only scores logic 0, format 0 and length 0.1,
    whatever the platform's [pow]; and the accuracy is the neutral 0.5
    whenever the reference is absent, empty or itself whitespace only. *)
Theorem compute_reward_blank_text :
  (forall float_pow text prompt reference,
      blank text = true ->
      Rewards.compute_reward float_pow text prompt reference None
      = {| Rewards.accuracy := Rewards.compute_accuracy text reference;
           Rewards.logic := 0%float;
           Rewards.format_quality := 0%float;
           Rewards.length := 0.1%float;
           Rewards.explanations := {[ "source" := "heuristic" ]} |})
  /\ (forall text, Rewards.compute_accuracy text None = 0.5%float)
  /\ (forall text ref,
      blank ref = true -> Rewards.compute_accuracy text (Some ref) = 0.5%float).
Proof.
  split; [ | split; [reflexivity | exact compute_accuracy_blank_reference]].
  intros float_pow text prompt reference Hblank.
  unfold Rewards.compute_reward. cbn [negb]. f_equal.
  - unfold Rewards.compute_logic. cbv zeta. unfold Py.split.
    rewrite (split_acc_blank (Py.lower text))
      by (rewrite blank_lower; exact Hblank).
    reflexivity.
  - unfold Rewards.compute_format. rewrite (strip_blank text Hblank).
    reflexivity.
  - unfold Rewards.compute_length. cbv zeta. unfold Py.split.
    rewrite (split_acc_blank text Hblank). vm_compute. reflexivity.
Qed.

(** Two spaces and a newline. *)
Lemma compute_reward_blank_text_witness :
  Rewards.compute_reward exact_pow "  " Rewards.VNone (Some " ") None
  = {| Rewards.accuracy := 0.5%float;
       Rewards.logic := 0%float;
       Rewards.format_quality := 0%float;
       Rewards.length := 0.1%float;
       Rewards.explanations := {[ "source" := "heuristic" ]} |}.
Proof.
  rewrite (proj1 compute_reward_blank_text exact_pow "  " Rewards.VNone
             (Some " ") eq_refl).
  rewrite (proj2 (proj2 compute_reward_blank_text) "  " " " eq_refl).
  reflexivity.
Defined.

Lemma compute_length_short (text : string) :
  word_count text < 150 ->
  Rewards.compute_length text = short_length_reward (word_count text).
Proof.
  intros Hshort. unfold Rewards.compute_length. cbv zeta.
  fold (word_count text).
  destruct (Nat.ltb_spec (word_count text) 150) as [_ | Hge]; [reflexivity | lia].
Qed.

Lemma short_length_rewards_checked :
  forallb
    (fun n =>
       (0.1 <=? short_length_reward n)%float
       && (short_length_reward n <? 1)%float
       && forallb
            (fun m => (short_length_reward m <=? short_length_reward n)%float)
            (List.seq 0 (S n)))
    (List.seq 0 150) = true.
Proof. vm_compute. reflexivity. Qed.

(** X14. For a text of fewer than 150 words the length reward is at least
    0.1 and strictly below 1, and it never decreases when the word count
    grows within that range; from 150 to 600 words it is exactly 1. *)
Theorem compute_length_below_window :
  (forall text,
      word_count text < 150 ->
      (0.1 <=? Rewards.compute_length text)%float = true
      /\ (Rewards.compute_length text <? 1)%float = true)
  /\ (forall shorter longer,
      word_count shorter <= word_count longer ->
      word_count longer < 150 ->
      (Rewards.compute_length shorter <=? Rewards.compute_length longer)%float
      = true)
  /\ (forall text,
      150 <= word_count text <= 600 -> Rewards.compute_length text = 1%float).
Proof.
  pose proof short_length_rewards_checked as Hall.
  rewrite List.forallb_forall in Hall.
  split; [ | split].
  - intros text Hshort. rewrite (compute_length_short text Hshort).
    assert (Hin : In (word_count text) (List.seq 0 150))
      by (apply List.in_seq; lia).
    specialize (Hall _ Hin). apply andb_prop in Hall. destruct Hall as [Hall _].
    apply andb_prop in Hall. exact Hall.
  - intros shorter longer Hle Hshort.
    rewrite (compute_length_short longer Hshort).
    rewrite (compute_length_short shorter) by lia.
    assert (Hin : In (word_count longer) (List.seq 0 150))
      by (apply List.in_seq; lia).
    specialize (Hall _ Hin). apply andb_prop in Hall. destruct Hall as [_ Hall].
    rewrite List.forallb_forall in Hall. apply Hall. apply List.in_seq. lia.
  - intros text [Hlo Hhi]. unfold Rewards.compute_length. cbv zeta.
    fold (word_count text).
    destruct (Nat.ltb_spec (word_count text) 150) as [Hlt | _]; [lia | ].
    destruct (Nat.ltb_spec 600 (word_count text)) as [Hgt | _]; [lia | ].
    reflexivity.
Qed.

(** A three-word text and a four-word text. *)
Lemma compute_length_below_window_witness :
  ((0.1 <=? Rewards.compute_length "Revenue went up.")%float = true
   /\ (Rewards.compute_length "Revenue went up." <? 1)%float = true)
  /\ (Rewards.compute_length "Revenue went up."
      <=? Rewards.compute_length "Revenue went up again.")%float = true.
Proof.
  split.
  - apply (proj1 compute_length_below_window). vm_compute. lia.
  - apply (proj1 (proj2 compute_length_below_window)); vm_compute; lia.
Defined.

Lemma annotate_eq (float_pow : float -> float -> float)
    (pair : gmap string Rewards.value) (reference : option string)
    (chosen rejected : string) :
  pair !! "chosen" = Some (Rewards.VStr chosen) ->
  pair !! "rejected" = Some (Rewards.VStr rejected) ->
  Rewards.annotate_pair_with_rewards float_pow pair reference
  = Some (annotations float_pow chosen rejected
            (default (Rewards.VStr "") (pair !! "prompt")) reference pair).
Proof.
  intros Hchosen Hrejected. unfold Rewards.annotate_pair_with_rewards.
  rewrite Hchosen, Hrejected. reflexivity.
Qed.

Lemma annotate_some (float_pow : float -> float -> float)
    (pair annotated : gmap string Rewards.value) (reference : option string) :
  Rewards.annotate_pair_with_rewards float_pow pair reference = Some annotated ->
  exists chosen rejected,
    pair !! "chosen" = Some (Rewards.VStr chosen)
    /\ pair !! "rejected" = Some (Rewards.VStr rejected).
Proof.
  unfold Rewards.annotate_pair_with_rewards.
  destruct (pair !! "chosen") as [[ | chosen | | | ] | ]; try discriminate;
    destruct (pair !! "rejected") as [[ | rejected | | | ] | ]; try discriminate.
  intros _. exists chosen, rejected. split; reflexivity.
Qed.

Lemma annotations_overwrite (float_pow : float -> float -> float)
    (chosen rejected : string) (prompt : Rewards.value)
    (reference : option string) (p q : gmap string Rewards.value) :
  (forall k, ~ In k annotated_keys -> p !! k = q !! k) ->
  annotations float_pow chosen rejected prompt reference p
  = annotations float_pow chosen rejected prompt reference q.
Proof.
  intros Hsame. unfold annotations. cbv zeta. apply map_eq. intros k.
  destruct (decide ("reward_details" = k)) as [<- | Hd];
    [rewrite !lookup_insert_eq; reflexivity | ].
  rewrite !(lookup_insert_ne _ "reward_details") by exact Hd.
  destruct (decide ("rejected_score" = k)) as [<- | Hr];
    [rewrite !lookup_insert_eq; reflexivity | ].
  rewrite !(lookup_insert_ne _ "rejected_score") by exact Hr.
  destruct (decide ("chosen_score" = k)) as [<- | Hc];
    [rewrite !lookup_insert_eq; reflexivity | ].
  rewrite !(lookup_insert_ne _ "chosen_score") by exact Hc.
  apply Hsame. unfold annotated_keys. cbn [In]. tauto.
Qed.

Lemma annotations_frame (float_pow : float -> float -> float)
    (chosen rejected : string) (prompt : Rewards.value)
    (reference : option string) (p : gmap string Rewards.value) (k : string) :
  ~ In k annotated_keys ->
  annotations float_pow chosen rejected prompt reference p !! k = p !! k.
Proof.
  intros Hk. destruct (annotated_keys_fresh k Hk) as [H1 [H2 H3]].
  unfold annotations. cbv zeta. rewrite !lookup_insert_ne by assumption.
  reflexivity.
Qed.

(** X15. Annotating is idempotent and overwrites stale annotations:
    annotating an annotated pair returns it unchanged, and whatever a pair
    holds under [chosen_score], [rejected_score] and [reward_details]
    beforehand has no influence on the result. *)
Theorem annotate_pair_with_rewards_idempotent
    (float_pow : float -> float -> float) (reference : option string)
    (pair annotated : gmap string Rewards.value) :
  Rewards.annotate_pair_with_rewards float_pow pair reference = Some annotated ->
  Rewards.annotate_pair_with_rewards float_pow annotated reference
  = Some annotated
  /\ (forall stale : gmap string Rewards.value,
         (forall k, ~ In k annotated_keys -> stale !! k = pair !! k) ->
         Rewards.annotate_pair_with_rewards float_pow stale reference
         = Some annotated).
Proof.
  intros Hrun.
  destruct (annotate_some float_pow pair annotated reference Hrun)
    as [chosen [rejected [Hchosen Hrejected]]].
  rewrite (annotate_eq float_pow pair reference chosen rejected Hchosen Hrejected)
    in Hrun.
  injection Hrun as <-.
  assert (Hfresh : forall k, In k ["chosen"; "rejected"; "prompt"] ->
                             ~ In k annotated_keys).
  { unfold annotated_keys. cbn [In].
    intros k [<- | [<- | [<- | []]]] [H | [H | [H | []]]]; discriminate H. }
  assert (Hstale : forall stale : gmap string Rewards.value,
             (forall k, ~ In k annotated_keys -> stale !! k = pair !! k) ->
             Rewards.annotate_pair_with_rewards float_pow stale reference
             = Some (annotations float_pow chosen rejected
                       (default (Rewards.VStr "") (pair !! "prompt"))
                       reference pair)).
  { intros stale Hsame.
    rewrite (annotate_eq float_pow stale reference chosen rejected).
    - rewrite (Hsame "prompt") by (apply Hfresh; cbn [In]; tauto).
      f_equal. apply annotations_overwrite. exact Hsame.
    - rewrite (Hsame "chosen") by (apply Hfresh; cbn [In]; tauto).
      exact Hchosen.
    - rewrite (Hsame "rejected") by (apply Hfresh; cbn [In]; tauto).
      exact Hrejected. }
  split; [ | exact Hstale].
  apply Hstale. intros k Hk. apply annotations_frame. exact Hk.
Qed.

(** The test pair, annotated twice. *)
Lemma annotate_pair_with_rewards_idempotent_witness :
  exists annotated : gmap string Rewards.value,
    Rewards.annotate_pair_with_rewards exact_pow test_pair None = Some annotated
    /\ Rewards.annotate_pair_with_rewards exact_pow annotated None
       = Some annotated.
Proof.
  assert (Hchosen : test_pair !! "chosen"
                    = Some (Rewards.VStr "Good answer with some detail and reasoning."))
    by (vm_compute; reflexivity).
  assert (Hrejected : test_pair !! "rejected" = Some (Rewards.VStr "Bad."))
    by (vm_compute; reflexivity).
  pose proof (annotate_eq exact_pow test_pair None
                "Good answer with some detail and reasoning." "Bad."
                Hchosen Hrejected) as Hrun.
  exists (annotations exact_pow "Good answer with some detail and reasoning."
            "Bad." (default (Rewards.VStr "") (test_pair !! "prompt")) None
            test_pair).
  split; [exact Hrun | ].
  exact (proj1 (annotate_pair_with_rewards_idempotent exact_pow None test_pair
                  _ Hrun)).
Defined.

(** X16. The accuracy reward ignores letter case: two candidate texts that
    differ only in case, scored against two references that differ only in
    case, get the same accuracy. *)
Theorem compute_accuracy_ignores_case (text1 text2 ref1 ref2 : string) :
  Py.lower text1 = Py.lower text2 ->
  Py.lower ref1 = Py.lower ref2 ->
  Rewards.compute_accuracy text1 (Some ref1)
  = Rewards.compute_accuracy text2 (Some ref2).
Proof.
  intros Htext Href. unfold Rewards.compute_accuracy.
  destruct ref1 as [ | c1 r1], ref2 as [ | c2 r2]; try discriminate Href;
    [reflexivity | ].
  cbv zeta. rewrite Htext, Href. reflexivity.
Qed.

(** An upper-case candidate against a lower-case reference. *)
Lemma compute_accuracy_ignores_case_witness :
  Rewards.compute_accuracy "THE WACC IS TOO LOW" (Some "the wacc is too low")
  = Rewards.compute_accuracy "the wacc is too low" (Some "The WACC is too low").
Proof.
  apply compute_accuracy_ignores_case; vm_compute; reflexivity.
Defined.

(** ** Pairwise preferences from a ranking *)

Lemma combinations2_length {A : Type} (items : list A) :
  2 * List.length (Ranker.combinations2 items)
  = List.length items * (List.length items - 1).
Proof.
  induction items as [ | x rest IH]; [reflexivity | ].
  cbn [Ranker.combinations2 List.length].
  rewrite List.length_app, List.length_map.
  destruct rest as [ | y rest']; [reflexivity | ].
  cbn [List.length] in *. nia.
Qed.

Lemma combinations2_seq (a n i j : nat) :
  In (i, j) (Ranker.combinations2 (List.seq a n)) <-> a <= i < j /\ j < a + n.
Proof.
  revert a. induction n as [ | n IH]; intros a.
  - cbn. lia.
  - cbn [List.seq Ranker.combinations2]. rewrite List.in_app_iff, List.in_map_iff.
    rewrite IH. split.
    + intros [[y [Heq Hin]] | H]; [ | lia].
      injection Heq as <- <-. apply List.in_seq in Hin. lia.
    + intros [[Hai Hij] Hj]. destruct (Nat.eq_dec a i) as [<- | Hne].
      * left. exists j. split; [reflexivity | ]. apply List.in_seq. lia.
      * right. lia.
Qed.

Lemma combinations2_in {A : Type} (items : list A) (x y : A) :
  In (x, y) (Ranker.combinations2 items) -> In x items /\ In y items.
Proof.
  induction items as [ | z rest IH]; [intros [] | ].
  cbn [Ranker.combinations2]. rewrite List.in_app_iff, List.in_map_iff.
  intros [[w [Heq Hin]] | Hin].
  - injection Heq as <- <-. split; [left; reflexivity | right; exact Hin].
  - destruct (IH Hin) as [Hx Hy]. split; right; assumption.
Qed.

Lemma combinations2_nodup {A : Type} (items : list A) :
  List.NoDup items -> List.NoDup (Ranker.combinations2 items).
Proof.
  induction items as [ | x rest IH]; intros Hnodup; [constructor | ].
  apply List.NoDup_cons_iff in Hnodup. destruct Hnodup as [Hx Hrest].
  cbn [Ranker.combinations2]. apply List.NoDup_app.
  - apply List.NoDup_map_inv with (f := snd).
    rewrite List.map_map. cbn [snd]. rewrite List.map_id. exact Hrest.
  - exact (IH Hrest).
  - intros [u v] Hin Hin'. apply List.in_map_iff in Hin.
    destruct Hin as [w [Heq _]]. injection Heq as <- <-.
    apply combinations2_in in Hin'. destruct Hin' as [Hin' _]. exact (Hx Hin').
Qed.

Lemma make_pair_some (now : nat -> string) (ranked_labels : list string)
    (outputs : gmap string string)
    (configs_by_label : gmap string Ranker.GenerationConfig)
    (prompt_text source_text : string) (tag_list : list string)
    (session : string) (n i j : nat) (p : Ranker.PreferencePair) :
  Ranker.make_pair now ranked_labels outputs configs_by_label prompt_text
    source_text tag_list session n (i, j) = Some p
  <-> exists chosen_label rejected_label chosen_cfg rejected_cfg,
        ranked_labels !! i = Some chosen_label
        /\ ranked_labels !! j = Some rejected_label
        /\ outputs !! chosen_label = Some (Ranker.chosen p)
        /\ outputs !! rejected_label = Some (Ranker.rejected p)
        /\ configs_by_label !! chosen_label = Some chosen_cfg
        /\ configs_by_label !! rejected_label = Some rejected_cfg
        /\ p = {| Ranker.timestamp := now n;
                  Ranker.prompt := prompt_text;
                  Ranker.chosen := Ranker.chosen p;
                  Ranker.rejected := Ranker.rejected p;
                  Ranker.tags := tag_list;
                  Ranker.source := source_text;
                  Ranker.mode := "ranking";
                  Ranker.ranking_metadata :=
                    {| Ranker.session_id := session;
                       Ranker.total_k := List.length ranked_labels;
                       Ranker.chosen_rank := i + 1;
                       Ranker.rejected_rank := j + 1;
                       Ranker.rank_margin := j - i;
                       Ranker.chosen_config := Ranker.to_dict chosen_cfg;
                       Ranker.rejected_config := Ranker.to_dict rejected_cfg;
                       Ranker.full_ranking := ranked_labels |} |}.
Proof.
  unfold Ranker.make_pair. split.
  - intros Hsome.
    destruct (ranked_labels !! i) as [cl | ] eqn:Hi; [ | discriminate Hsome].
    destruct (ranked_labels !! j) as [rl | ] eqn:Hj; [ | discriminate Hsome].
    cbn in Hsome.
    destruct (outputs !! cl) as [co | ] eqn:Hco; [ | discriminate Hsome].
    destruct (outputs !! rl) as [ro | ] eqn:Hro; [ | discriminate Hsome].
    cbn in Hsome.
    destruct (configs_by_label !! cl) as [cc | ] eqn:Hcc;
      [ | discriminate Hsome].
    destruct (configs_by_label !! rl) as [rc | ] eqn:Hrc;
      [ | discriminate Hsome].
    cbn in Hsome. injection Hsome as <-.
    exists cl, rl, cc, rc. cbn.
    repeat (split; [first [reflexivity | assumption] | ]). reflexivity.
  - intros [cl [rl [cc [rc [Hi [Hj [Hco [Hro [Hcc [Hrc Hp]]]]]]]]]].
    rewrite Hi, Hj. cbn. rewrite Hco, Hro. cbn. rewrite Hcc, Hrc. cbn.
    rewrite Hp. reflexivity.
Qed.

Lemma make_pairs_some (now : nat -> string) (ranked_labels : list string)
    (outputs : gmap string string)
    (configs_by_label : gmap string Ranker.GenerationConfig)
    (prompt_text source_text : string) (tag_list : list string)
    (session : string) (positions : list (nat * nat)) (n : nat)
    (pairs : list Ranker.PreferencePair) :
  Ranker.make_pairs now ranked_labels outputs configs_by_label prompt_text
    source_text tag_list session n positions = Some pairs ->
  List.Forall2
    (fun ij p =>
       exists m,
         Ranker.make_pair now ranked_labels outputs configs_by_label
           prompt_text source_text tag_list session m ij = Some p)
    positions pairs.
Proof.
  revert n pairs. induction positions as [ | ij rest IH]; intros n pairs.
  - cbn. intros Heq. injection Heq as <-. constructor.
  - cbn [Ranker.make_pairs].
    destruct (Ranker.make_pair now ranked_labels outputs configs_by_label
                prompt_text source_text tag_list session n ij)
      as [p | ] eqn:Hp; [ | discriminate].
    cbn.
    destruct (Ranker.make_pairs now ranked_labels outputs configs_by_label
                prompt_text source_text tag_list session (S n) rest)
      as [ps | ] eqn:Hps; [ | discriminate].
    cbn. intros Heq. injection Heq as <-.
    constructor; [exists n; exact Hp | exact (IH (S n) ps Hps)].
Qed.

Lemma make_pairs_all (now : nat -> string) (ranked_labels : list string)
    (outputs : gmap string string)
    (configs_by_label : gmap string Ranker.GenerationConfig)
    (prompt_text source_text : string) (tag_list : list string)
    (session : string) (positions : list (nat * nat)) (n : nat) :
  (forall ij m, In ij positions ->
                is_Some (Ranker.make_pair now ranked_labels outputs
                           configs_by_label prompt_text source_text tag_list
                           session m ij)) ->
  is_Some (Ranker.make_pairs now ranked_labels outputs configs_by_label
             prompt_text source_text tag_list session n positions).
Proof.
  revert n. induction positions as [ | ij rest IH]; intros n Hall.
  - cbn. eauto.
  - cbn [Ranker.make_pairs].
    destruct (Hall ij n (or_introl eq_refl)) as [p Hp]. rewrite Hp. cbn.
    destruct (IH (S n) (fun ij' m Hin => Hall ij' m (or_intror Hin)))
      as [ps Hps].
    rewrite Hps. cbn. eauto.
Qed.

(** X17. From a ranking of K labels, [extract_pairwise_preferences], when
    it returns, returns K(K-1)/2 pairs, which is [count_pairs(K)]. *)
Theorem extract_pairwise_preferences_count (fresh_uuid : string)
    (now : nat -> string) (ranked_labels : list string)
    (outputs : gmap string string)
    (configs_by_label : gmap string Ranker.GenerationConfig)
    (prompt_text source_text : string) (tag_list : list string)
    (session : option string) (pairs : list Ranker.PreferencePair) :
  Ranker.extract_pairwise_preferences fresh_uuid now ranked_labels outputs
    configs_by_label prompt_text source_text tag_list session = Some pairs ->
  2 * List.length pairs
  = List.length ranked_labels * (List.length ranked_labels - 1)
  /\ Z.of_nat (List.length pairs)
     = Ranker.count_pairs (Z.of_nat (List.length ranked_labels)).
Proof.
  unfold Ranker.extract_pairwise_preferences. cbv zeta. intros Hrun.
  apply make_pairs_some in Hrun. apply List.Forall2_length in Hrun.
  pose proof (combinations2_length (List.seq 0 (List.length ranked_labels)))
    as Hcount.
  rewrite List.length_seq in Hcount. rewrite Hrun in Hcount.
  split; [exact Hcount | ].
  unfold Ranker.count_pairs.
  assert (Hz : (Z.of_nat (List.length ranked_labels)
                * (Z.of_nat (List.length ranked_labels) - 1)
                = Z.of_nat (List.length pairs) * 2)%Z) by nia.
  rewrite Hz. symmetry. apply Z.div_mul. discriminate.
Qed.

Lemma extract_pairwise_preferences_count_witness :
  exists pairs,
    test_pairs = Some pairs
    /\ 2 * List.length pairs = 3 * (3 - 1)
    /\ Z.of_nat (List.length pairs) = Ranker.count_pairs 3.
Proof.
  assert (Hrun : is_Some test_pairs) by (vm_compute; eexists; reflexivity).
  destruct Hrun as [pairs Hrun]. exists pairs.
  split; [exact Hrun | ].
  exact (extract_pairwise_preferences_count "uuid" test_now test_ranking
           test_outputs test_configs "prompt" "source" ["tag"] None pairs
           Hrun).
Defined.

Lemma extract_positions (fresh_uuid : string) (now : nat -> string)
    (ranked_labels : list string) (outputs : gmap string string)
    (configs_by_label : gmap string Ranker.GenerationConfig)
    (prompt_text source_text : string) (tag_list : list string)
    (session : option string) (pairs : list Ranker.PreferencePair) :
  Ranker.extract_pairwise_preferences fresh_uuid now ranked_labels outputs
    configs_by_label prompt_text source_text tag_list session = Some pairs ->
  List.Forall2
    (fun ij p =>
       exists m,
         Ranker.make_pair now ranked_labels outputs configs_by_label
           prompt_text source_text tag_list (session_of fresh_uuid session)
           m ij = Some p)
    (Ranker.combinations2 (List.seq 0 (List.length ranked_labels))) pairs.
Proof.
  intros Hrun. apply make_pairs_some in Hrun. exact Hrun.
Qed.

Lemma Forall2_In_r {A B : Type} (P : A -> B -> Prop) (l : list A)
    (l' : list B) (y : B) :
  List.Forall2 P l l' -> In y l' -> exists x, In x l /\ P x y.
Proof.
  induction 1 as [ | x y' l l' Hxy _ IH]; intros Hin.
  - destruct Hin.
  - destruct Hin as [-> | Hin].
    + exists x. split; [left; reflexivity | exact Hxy].
    + destruct (IH Hin) as [x' [Hx' HP]]. exists x'.
      split; [right; exact Hx' | exact HP].
Qed.

Lemma Forall2_In_l {A B : Type} (P : A -> B -> Prop) (l : list A)
    (l' : list B) (x : A) :
  List.Forall2 P l l' -> In x l -> exists y, In y l' /\ P x y.
Proof.
  induction 1 as [ | x' y l l' Hxy _ IH]; intros Hin.
  - destruct Hin.
  - destruct Hin as [-> | Hin].
    + exists y. split; [left; reflexivity | exact Hxy].
    + destruct (IH Hin) as [y' [Hy' HP]]. exists y'.
      split; [right; exact Hy' | exact HP].
Qed.

Lemma Forall2_map_eq {A B C : Type} (P : A -> B -> Prop) (f : A -> C)
    (g : B -> C) (l : list A) (l' : list B) :
  (forall x y, P x y -> f x = g y) ->
  List.Forall2 P l l' -> List.map g l' = List.map f l.
Proof.
  intros Hfg. induction 1 as [ | x y l l' Hxy _ IH]; [reflexivity | ].
  cbn. rewrite (Hfg x y Hxy), IH. reflexivity.
Qed.

(** The pair built at positions [(i, j)] carries the ranks [(i+1, j+1)]. *)
Lemma make_pair_ranks (now : nat -> string) (ranked_labels : list string)
    (outputs : gmap string string)
    (configs_by_label : gmap string Ranker.GenerationConfig)
    (prompt_text source_text : string) (tag_list : list string)
    (session : string) (n : nat) (ij : nat * nat)
    (p : Ranker.PreferencePair) :
  Ranker.make_pair now ranked_labels outputs configs_by_label prompt_text
    source_text tag_list session n ij = Some p ->
  (fst ij + 1, snd ij + 1) = pair_ranks p.
Proof.
  destruct ij as [i j]. intros Hp. apply make_pair_some in Hp.
  destruct Hp as [cl [rl [cc [rc [_ [_ [_ [_ [_ [_ Hp]]]]]]]]]].
  rewrite Hp. reflexivity.
Qed.

Lemma extract_ranks (fresh_uuid : string) (now : nat -> string)
    (ranked_labels : list string) (outputs : gmap string string)
    (configs_by_label : gmap string Ranker.GenerationConfig)
    (prompt_text source_text : string) (tag_list : list string)
    (session : option string) (pairs : list Ranker.PreferencePair) :
  Ranker.extract_pairwise_preferences fresh_uuid now ranked_labels outputs
    configs_by_label prompt_text source_text tag_list session = Some pairs ->
  List.map pair_ranks pairs
  = List.map (fun ij => (fst ij + 1, snd ij + 1))
      (Ranker.combinations2 (List.seq 0 (List.length ranked_labels))).
Proof.
  intros Hrun. apply extract_positions in Hrun.
  apply (Forall2_map_eq _ _ _ _ _ (fun ij p (H : exists m, _) =>
           match H with
           | ex_intro _ m Hm =>
               make_pair_ranks now ranked_labels outputs configs_by_label
                 prompt_text source_text tag_list
                 (session_of fresh_uuid session) m ij p Hm
           end) Hrun).
Qed.

(** X18. Every pair returned by [extract_pairwise_preferences] prefers a
    better rank to a worse one: 1 <= chosen_rank < rejected_rank <= K, the
    margin is their difference, and the pair records K, the whole ranking,
    the session id (the one given, or the fresh uuid when none or an empty
    one is given), the prompt, source and tags, and the mode "ranking". *)
Theorem extract_pairwise_preferences_metadata (fresh_uuid : string)
    (now : nat -> string) (ranked_labels : list string)
    (outputs : gmap string string)
    (configs_by_label : gmap string Ranker.GenerationConfig)
    (prompt_text source_text : string) (tag_list : list string)
    (session : option string) (pairs : list Ranker.PreferencePair)
    (p : Ranker.PreferencePair) :
  Ranker.extract_pairwise_preferences fresh_uuid now ranked_labels outputs
    configs_by_label prompt_text source_text tag_list session = Some pairs ->
  In p pairs ->
  1 <= Ranker.chosen_rank (Ranker.ranking_metadata p)
  /\ Ranker.chosen_rank (Ranker.ranking_metadata p)
     < Ranker.rejected_rank (Ranker.ranking_metadata p)
  /\ Ranker.rejected_rank (Ranker.ranking_metadata p)
     <= List.length ranked_labels
  /\ Ranker.rank_margin (Ranker.ranking_metadata p)
     = Ranker.rejected_rank (Ranker.ranking_metadata p)
       - Ranker.chosen_rank (Ranker.ranking_metadata p)
  /\ Ranker.total_k (Ranker.ranking_metadata p) = List.length ranked_labels
  /\ Ranker.full_ranking (Ranker.ranking_metadata p) = ranked_labels
  /\ Ranker.session_id (Ranker.ranking_metadata p)
     = session_of fresh_uuid session
  /\ Ranker.prompt p = prompt_text
  /\ Ranker.source p = source_text
  /\ Ranker.tags p = tag_list
  /\ Ranker.mode p = "ranking".
Proof.
  intros Hrun Hin. apply extract_positions in Hrun.
  destruct (Forall2_In_r _ _ _ _ Hrun Hin) as [[i j] [Hpos [m Hp]]].
  apply combinations2_seq in Hpos.
  apply make_pair_some in Hp.
  destruct Hp as [cl [rl [cc [rc [_ [_ [_ [_ [_ [_ Hp]]]]]]]]]].
  rewrite Hp. cbn. repeat split; try reflexivity; lia.
Qed.

Lemma extract_pairwise_preferences_metadata_witness :
  exists pairs p,
    test_pairs = Some pairs /\ In p pairs
    /\ 1 <= Ranker.chosen_rank (Ranker.ranking_metadata p)
    /\ Ranker.chosen_rank (Ranker.ranking_metadata p)
       < Ranker.rejected_rank (Ranker.ranking_metadata p)
    /\ Ranker.rejected_rank (Ranker.ranking_metadata p) <= 3
    /\ Ranker.rank_margin (Ranker.ranking_metadata p)
       = Ranker.rejected_rank (Ranker.ranking_metadata p)
         - Ranker.chosen_rank (Ranker.ranking_metadata p)
    /\ Ranker.total_k (Ranker.ranking_metadata p) = 3
    /\ Ranker.full_ranking (Ranker.ranking_metadata p) = test_ranking
    /\ Ranker.session_id (Ranker.ranking_metadata p) = "uuid"
    /\ Ranker.prompt p = "prompt"
    /\ Ranker.source p = "source"
    /\ Ranker.tags p = ["tag"]
    /\ Ranker.mode p = "ranking".
Proof.
  assert (Hrun : exists p rest, test_pairs = Some (p :: rest))
    by (vm_compute; eexists; eexists; reflexivity).
  destruct Hrun as [p [rest Hrun]]. exists (p :: rest), p.
  split; [exact Hrun | ]. split; [left; reflexivity | ].
  exact (extract_pairwise_preferences_metadata "uuid" test_now test_ranking
           test_outputs test_configs "prompt" "source" ["tag"] None
           (p :: rest) p Hrun (or_introl eq_refl)).
Defined.

(** X19. In every pair returned by [extract_pairwise_preferences] the
    chosen text is the output of the label at the chosen rank of the ranking
    and the rejected text the output of the label at the rejected rank, and
    the two recorded configs are the [to_dict] of those labels' configs. *)
Theorem extract_pairwise_preferences_texts (fresh_uuid : string)
    (now : nat -> string) (ranked_labels : list string)
    (outputs : gmap string string)
    (configs_by_label : gmap string Ranker.GenerationConfig)
    (prompt_text source_text : string) (tag_list : list string)
    (session : option string) (pairs : list Ranker.PreferencePair)
    (p : Ranker.PreferencePair) :
  Ranker.extract_pairwise_preferences fresh_uuid now ranked_labels outputs
    configs_by_label prompt_text source_text tag_list session = Some pairs ->
  In p pairs ->
  exists chosen_label rejected_label chosen_cfg rejected_cfg,
    ranked_labels !! (Ranker.chosen_rank (Ranker.ranking_metadata p) - 1)
    = Some chosen_label
    /\ ranked_labels !! (Ranker.rejected_rank (Ranker.ranking_metadata p) - 1)
       = Some rejected_label
    /\ outputs !! chosen_label = Some (Ranker.chosen p)
    /\ outputs !! rejected_label = Some (Ranker.rejected p)
    /\ configs_by_label !! chosen_label = Some chosen_cfg
    /\ configs_by_label !! rejected_label = Some rejected_cfg
    /\ Ranker.chosen_config (Ranker.ranking_metadata p)
       = Ranker.to_dict chosen_cfg
    /\ Ranker.rejected_config (Ranker.ranking_metadata p)
       = Ranker.to_dict rejected_cfg.
Proof.
  intros Hrun Hin. apply extract_positions in Hrun.
  destruct (Forall2_In_r _ _ _ _ Hrun Hin) as [[i j] [_ [m Hp]]].
  apply make_pair_some in Hp.
  destruct Hp as [cl [rl [cc [rc [Hi [Hj [Hco [Hro [Hcc [Hrc Hp]]]]]]]]]].
  exists cl, rl, cc, rc. rewrite Hp. cbn.
  replace (i + 1 - 1) with i by lia. replace (j + 1 - 1) with j by lia.
  repeat (split; [first [reflexivity | assumption] | ]). reflexivity.
Qed.

Lemma extract_pairwise_preferences_texts_witness :
  exists pairs p,
    test_pairs = Some pairs /\ In p pairs
    /\ exists chosen_label rejected_label chosen_cfg rejected_cfg,
         test_ranking !! (Ranker.chosen_rank (Ranker.ranking_metadata p) - 1)
         = Some chosen_label
         /\ test_ranking
              !! (Ranker.rejected_rank (Ranker.ranking_metadata p) - 1)
            = Some rejected_label
         /\ test_outputs !! chosen_label = Some (Ranker.chosen p)
         /\ test_outputs !! rejected_label = Some (Ranker.rejected p)
         /\ test_configs !! chosen_label = Some chosen_cfg
         /\ test_configs !! rejected_label = Some rejected_cfg
         /\ Ranker.chosen_config (Ranker.ranking_metadata p)
            = Ranker.to_dict chosen_cfg
         /\ Ranker.rejected_config (Ranker.ranking_metadata p)
            = Ranker.to_dict rejected_cfg.
Proof.
  assert (Hrun : exists p rest, test_pairs = Some (p :: rest))
    by (vm_compute; eexists; eexists; reflexivity).
  destruct Hrun as [p [rest Hrun]]. exists (p :: rest), p.
  split; [exact Hrun | ]. split; [left; reflexivity | ].
  exact (extract_pairwise_preferences_texts "uuid" test_now test_ranking
           test_outputs test_configs "prompt" "source" ["tag"] None
           (p :: rest) p Hrun (or_introl eq_refl)).
Defined.

(** X20. [extract_pairwise_preferences] returns every comparison of the
    ranking exactly once: the rank pairs (chosen_rank, rejected_rank) of the
    returned list have no duplicate, and (a, b) is among them exactly when
    1 <= a < b <= K. *)
Theorem extract_pairwise_preferences_each_comparison_once
    (fresh_uuid : string) (now : nat -> string)
    (ranked_labels : list string) (outputs : gmap string string)
    (configs_by_label : gmap string Ranker.GenerationConfig)
    (prompt_text source_text : string) (tag_list : list string)
    (session : option string) (pairs : list Ranker.PreferencePair) :
  Ranker.extract_pairwise_preferences fresh_uuid now ranked_labels outputs
    configs_by_label prompt_text source_text tag_list session = Some pairs ->
  List.NoDup (List.map pair_ranks pairs)
  /\ forall a b,
       In (a, b) (List.map pair_ranks pairs)
       <-> 1 <= a < b /\ b <= List.length ranked_labels.
Proof.
  intros Hrun. rewrite (extract_ranks _ _ _ _ _ _ _ _ _ _ Hrun). split.
  - apply List.NoDup_map_inv with (f := fun ab : nat * nat =>
                                          (fst ab - 1, snd ab - 1)).
    rewrite List.map_map.
    rewrite (List.map_ext _ (fun ij => ij)).
    + rewrite List.map_id. apply combinations2_nodup. apply List.seq_NoDup.
    + intros [i j]. cbn. f_equal; lia.
  - intros a b. rewrite List.in_map_iff. split.
    + intros [[i j] [Heq Hpos]]. cbn in Heq. injection Heq as <- <-.
      apply combinations2_seq in Hpos. lia.
    + intros [Hab Hb]. exists (a - 1, b - 1). cbn. split.
      * f_equal; lia.
      * apply combinations2_seq. lia.
Qed.

Lemma extract_pairwise_preferences_each_comparison_once_witness :
  exists pairs,
    test_pairs = Some pairs
    /\ List.NoDup (List.map pair_ranks pairs)
    /\ forall a b,
         In (a, b) (List.map pair_ranks pairs) <-> 1 <= a < b /\ b <= 3.
Proof.
  assert (Hrun : is_Some test_pairs) by (vm_compute; eexists; reflexivity).
  destruct Hrun as [pairs Hrun]. exists pairs.
  split; [exact Hrun | ].
  exact (extract_pairwise_preferences_each_comparison_once "uuid" test_now
           test_ranking test_outputs test_configs "prompt" "source" ["tag"]
           None pairs Hrun).
Defined.

Lemma lookup_In (l : list string) (i : nat) (x : string) :
  l !! i = Some x -> In x l.
Proof.
  revert i. induction l as [ | y l IH]; intros [ | i] Hi;
    try discriminate Hi.
  - injection Hi as ->. left. reflexivity.
  - right. exact (IH i Hi).
Qed.

Lemma In_lookup (l : list string) (x : string) :
  In x l -> exists i, i < List.length l /\ l !! i = Some x.
Proof.
  induction l as [ | y l IH]; intros Hin; [destruct Hin | ].
  destruct Hin as [-> | Hin].
  - exists 0. cbn. split; [lia | reflexivity].
  - destruct (IH Hin) as [i [Hlt Hi]]. exists (S i). cbn.
    split; [lia | exact Hi].
Qed.

Lemma lookup_lt (l : list string) (i : nat) :
  i < List.length l -> exists x, l !! i = Some x.
Proof.
  revert i. induction l as [ | y l IH]; intros i Hlt; cbn in Hlt; [lia | ].
  destruct i as [ | i]; [exists y; reflexivity | ].
  apply (IH i). lia.
Qed.

(** X21. [extract_pairwise_preferences] returns a list (raises no
    KeyError) exactly when the ranking has at most one label or every
    label of the ranking has an output and a config: with K >= 2 every label
    takes part in a comparison, with K <= 1 no lookup is made at all. *)
Theorem extract_pairwise_preferences_succeeds (fresh_uuid : string)
    (now : nat -> string) (ranked_labels : list string)
    (outputs : gmap string string)
    (configs_by_label : gmap string Ranker.GenerationConfig)
    (prompt_text source_text : string) (tag_list : list string)
    (session : option string) :
  is_Some (Ranker.extract_pairwise_preferences fresh_uuid now ranked_labels
             outputs configs_by_label prompt_text source_text tag_list
             session)
  <-> List.length ranked_labels <= 1
      \/ labels_known ranked_labels outputs configs_by_label.
Proof.
  split.
  - intros [pairs Hrun].
    destruct (Nat.le_gt_cases (List.length ranked_labels) 1) as [Hk | Hk];
      [left; exact Hk | right].
    apply extract_positions in Hrun.
    intros l Hin. destruct (In_lookup _ _ Hin) as [t [Hlt Ht]].
    destruct t as [ | t].
    + assert (Hpos : In (0, 1)
                (Ranker.combinations2
                   (List.seq 0 (List.length ranked_labels))))
        by (apply combinations2_seq; lia).
      destruct (Forall2_In_l _ _ _ _ Hrun Hpos) as [p [_ [m Hp]]].
      apply make_pair_some in Hp.
      destruct Hp as [cl [rl [cc [rc [Hi [_ [Hco [_ [Hcc _]]]]]]]]].
      rewrite Ht in Hi. injection Hi as <-.
      split; eauto.
    + assert (Hpos : In (0, S t)
                (Ranker.combinations2
                   (List.seq 0 (List.length ranked_labels))))
        by (apply combinations2_seq; lia).
      destruct (Forall2_In_l _ _ _ _ Hrun Hpos) as [p [_ [m Hp]]].
      apply make_pair_some in Hp.
      destruct Hp as [cl [rl [cc [rc [_ [Hj [_ [Hro [_ [Hrc _]]]]]]]]]].
      rewrite Ht in Hj. injection Hj as <-.
      split; eauto.
  - intros [Hk | Hknown].
    + destruct ranked_labels as [ | x [ | y rest]];
        [cbn; eauto | cbn; eauto | cbn in Hk; lia].
    + unfold Ranker.extract_pairwise_preferences. cbv zeta.
      apply make_pairs_all. intros [i j] m Hpos.
      apply combinations2_seq in Hpos.
      destruct (lookup_lt ranked_labels i ltac:(lia)) as [cl Hi].
      destruct (lookup_lt ranked_labels j ltac:(lia)) as [rl Hj].
      destruct (Hknown cl (lookup_In _ _ _ Hi)) as [[co Hco] [cc Hcc]].
      destruct (Hknown rl (lookup_In _ _ _ Hj)) as [[ro Hro] [rc Hrc]].
      unfold Ranker.make_pair. rewrite Hi, Hj. cbn. rewrite Hco, Hro. cbn.
      rewrite Hcc, Hrc. cbn. eauto.
Qed.

(** X22. [count_pairs] on every Python int: it is never negative (also
    for k <= 0), [count_pairs(0) = count_pairs(1) = 0], one more output adds
    k comparisons, [count_pairs(k+1) = count_pairs(k) + k], and the floor
    division is exact: [2 * count_pairs(k) = k * (k - 1)]. *)
Theorem count_pairs_laws (k : Z) :
  (0 <= Ranker.count_pairs k
   /\ Ranker.count_pairs 0 = 0
   /\ Ranker.count_pairs 1 = 0
   /\ Ranker.count_pairs (k + 1) = Ranker.count_pairs k + k
   /\ 2 * Ranker.count_pairs k = k * (k - 1))%Z.
Proof.
  assert (Heven : exists h, (k * (k - 1) = h * 2)%Z).
  { destruct (Z.Even_or_Odd k) as [[h ->] | [h ->]].
    - exists (h * (2 * h - 1))%Z. lia.
    - exists ((2 * h + 1) * h)%Z. lia. }
  destruct Heven as [h Hh].
  assert (Hk : Ranker.count_pairs k = h).
  { unfold Ranker.count_pairs. rewrite Hh. apply Z.div_mul. discriminate. }
  assert (Hk1 : Ranker.count_pairs (k + 1) = (h + k)%Z).
  { unfold Ranker.count_pairs.
    replace ((k + 1) * (k + 1 - 1))%Z with ((h + k) * 2)%Z by lia.
    apply Z.div_mul. discriminate. }
  rewrite Hk, Hk1. repeat split; try reflexivity; nia.
Qed.

(** X23. [provider_for_model] always answers with one of [PROVIDERS],
    whatever the model name, and it agrees with the table
    [AVAILABLE_MODELS]: every model listed under a provider is mapped to
    that provider; the "provider" entry of a config's [to_dict] is
    therefore one of [PROVIDERS] too. *)
Theorem provider_for_model_consistent (name : string) :
  In (Ranker.provider_for_model name) Ranker.PROVIDERS
  /\ (forall provider_name models,
        In (provider_name, models) Ranker.AVAILABLE_MODELS ->
        In name models ->
        Ranker.provider_for_model name = provider_name)
  /\ (forall cfg value,
        In ("provider", value) (Ranker.to_dict cfg) ->
        exists provider_name,
          value = Ranker.CStr provider_name
          /\ In provider_name Ranker.PROVIDERS).
Proof.
  split; [ | split].
  - unfold Ranker.provider_for_model, Ranker.PROVIDERS.
    destruct (Py.startswith "claude" name); [cbn; tauto | ].
    destruct (Py.startswith "gemini" name); cbn; tauto.
  - intros provider_name models Htable Hname.
    cbn in Htable.
    destruct Htable as [Heq | [Heq | [Heq | []]]];
      injection Heq as <- <-; cbn in Hname;
      repeat (destruct Hname as [<- | Hname]; [reflexivity | ]);
      destruct Hname.
  - intros cfg value Hin.
    assert (Hcase : value = Ranker.CStr (Ranker.provider cfg)).
    { unfold Ranker.to_dict in Hin.
      destruct (Ranker.max_tokens cfg); cbn in Hin;
        repeat (destruct Hin as [Heq | Hin];
                [first [discriminate Heq
                       | injection Heq as <-; reflexivity] | ]);
        destruct Hin. }
    exists (Ranker.provider cfg). split; [exact Hcase | ].
    unfold Ranker.provider, Ranker.provider_for_model, Ranker.PROVIDERS.
    destruct (Py.startswith "claude" (Ranker.model cfg)); [cbn; tauto | ].
    destruct (Py.startswith "gemini" (Ranker.model cfg)); cbn; tauto.
Qed.

Lemma provider_for_model_consistent_witness :
  In (Ranker.provider_for_model "gemini-1.5-pro") Ranker.PROVIDERS
  /\ Ranker.provider_for_model "gemini-1.5-pro" = "gemini".
Proof.
  destruct (provider_for_model_consistent "gemini-1.5-pro")
    as [Hin [Htable _]].
  split; [exact Hin | ].
  apply (Htable "gemini"
           [ "gemini-2.0-flash"; "gemini-2.0-flash-lite"; "gemini-1.5-flash";
             "gemini-1.5-pro" ]).
  - right. left. reflexivity.
  - right. right. right. left. reflexivity.
Defined.

(** ** Guarantee language *)

Lemma run_chain_starts (tests : list (ascii -> bool)) (st : Re.mstate)
    (k : Re.mstate -> option Re.mstate) :
  starts tests (Re.m_rest st) = true ->
  exists st', Re.run (chain tests) st k = k st'.
Proof.
  revert st. induction tests as [ | f tests IH]; intros st Hstarts.
  - exists st. reflexivity.
  - destruct st as [pos prev rest groups]. cbn in Hstarts.
    destruct rest as [ | c cs]; [discriminate Hstarts | ].
    apply andb_true_iff in Hstarts. destruct Hstarts as [Hf Hrest].
    destruct tests as [ | f' tests'].
    + cbn. rewrite Hf. eauto.
    + cbn [chain Re.run Re.m_rest Re.m_pos Re.m_groups]. rewrite Hf.
      apply IH. exact Hrest.
Qed.

Lemma run_chain_fails (tests : list (ascii -> bool)) (st : Re.mstate)
    (k : Re.mstate -> option Re.mstate) :
  starts tests (Re.m_rest st) = false -> Re.run (chain tests) st k = None.
Proof.
  revert st. induction tests as [ | f tests IH]; intros st Hstarts.
  - discriminate Hstarts.
  - destruct st as [pos prev rest groups]. cbn in Hstarts.
    destruct tests as [ | f' tests'].
    + cbn. destruct rest as [ | c cs]; [reflexivity | ].
      destruct (f c); [ | reflexivity].
      cbn in Hstarts. discriminate Hstarts.
    + cbn [chain Re.run Re.m_rest Re.m_pos Re.m_groups].
      destruct rest as [ | c cs]; [reflexivity | ].
      destruct (f c); [ | reflexivity].
      apply IH. exact Hstarts.
Qed.

Lemma match_at_chain (tests : list (ascii -> bool)) (pos : nat)
    (prev : option ascii) (cs : list ascii) :
  bool_decide (is_Some (Re.match_at (chain tests) pos prev cs))
  = starts tests cs.
Proof.
  unfold Re.match_at. destruct (starts tests cs) eqn:Hstarts.
  - destruct (run_chain_starts tests (Re.MState pos prev cs []) Some Hstarts)
      as [st' Hrun].
    rewrite Hrun. apply bool_decide_eq_true. eauto.
  - rewrite (run_chain_fails tests (Re.MState pos prev cs []) Some Hstarts).
    apply bool_decide_eq_false. intros [m Hm]. discriminate Hm.
Qed.

Lemma scan_chain (tests : list (ascii -> bool)) (pos : nat)
    (prev : option ascii) (cs : list ascii) :
  bool_decide (is_Some (Re.scan (chain tests) pos prev cs))
  = occurs tests cs.
Proof.
  revert pos prev. induction cs as [ | c cs IH]; intros pos prev;
    cbn [Re.scan occurs];
    pose proof (match_at_chain tests pos prev) as Hhere.
  - specialize (Hhere []). rewrite orb_false_r.
    destruct (Re.match_at (chain tests) pos prev []) as [m | ];
      exact Hhere.
  - specialize (Hhere (c :: cs)).
    destruct (Re.match_at (chain tests) pos prev (c :: cs)) as [m | ].
    + rewrite <- Hhere.
      rewrite (bool_decide_eq_true_2 (is_Some (Some m)))
        by (exists m; reflexivity).
      reflexivity.
    + rewrite <- Hhere.
      rewrite (bool_decide_eq_false_2 (is_Some (@None Re.match_obj)))
        by (intros [m Hm]; discriminate Hm).
      apply IH.
Qed.

Lemma lower_code_bounded (c : ascii) :
  (Py.lower_code (Py.code c) < 256)%N.
Proof.
  pose proof (N_ascii_bounded c) as Hc. unfold Py.lower_code, Py.code.
  destruct ((65 <=? N_of_ascii c)%N && (N_of_ascii c <=? 90)%N) eqn:Hupper.
  - apply andb_true_iff in Hupper. destruct Hupper as [_ Hle].
    apply N.leb_le in Hle. lia.
  - destruct ((192 <=? N_of_ascii c)%N && (N_of_ascii c <=? 222)%N
              && negb (N_of_ascii c =? 215)%N) eqn:Hlatin; [ | exact Hc].
    apply andb_true_iff in Hlatin. destruct Hlatin as [Hlatin _].
    apply andb_true_iff in Hlatin. destruct Hlatin as [_ Hle].
    apply N.leb_le in Hle. lia.
Qed.

Lemma code_lower_char (c : ascii) :
  Py.code (Py.lower_char c) = Py.lower_code (Py.code c).
Proof.
  unfold Py.lower_char. unfold Py.code at 1.
  apply N_ascii_embedding. apply lower_code_bounded.
Qed.

Lemma lower_code_newline (n : N) :
  N.eqb (Py.lower_code n) 10 = N.eqb n 10.
Proof.
  unfold Py.lower_code.
  destruct ((65 <=? n)%N && (n <=? 90)%N) eqn:Hupper.
  - apply andb_true_iff in Hupper. destruct Hupper as [Hge _].
    apply N.leb_le in Hge.
    rewrite (proj2 (N.eqb_neq _ _)) by lia.
    rewrite (proj2 (N.eqb_neq _ _)) by lia. reflexivity.
  - destruct ((192 <=? n)%N && (n <=? 222)%N && negb (n =? 215)%N)
      eqn:Hlatin; [ | reflexivity].
    apply andb_true_iff in Hlatin. destruct Hlatin as [Hlatin _].
    apply andb_true_iff in Hlatin. destruct Hlatin as [Hge _].
    apply N.leb_le in Hge.
    rewrite (proj2 (N.eqb_neq _ _)) by lia.
    rewrite (proj2 (N.eqb_neq _ _)) by lia. reflexivity.
Qed.

(** A case-insensitive literal test on a character is the comparison with
    the lowered character. *)
Lemma item_test_lower (it : phrase_item) (c : ascii) :
  lower_items [it] = true -> item_test it c = item_ok it (Py.lower_char c).
Proof.
  destruct it as [a | ]; cbn.
  - rewrite andb_true_r. intros Hlow. apply N.eqb_eq in Hlow.
    unfold Re.lit. rewrite Hlow, <- code_lower_char.
    destruct (Ascii.eqb_spec a (Py.lower_char c)) as [-> | Hne].
    + apply N.eqb_refl.
    + apply N.eqb_neq. intros Heq. apply Hne.
      unfold Py.code in Heq.
      rewrite <- (ascii_N_embedding a), <- Heq. apply ascii_N_embedding.
  - intros _. rewrite code_lower_char, lower_code_newline. reflexivity.
Qed.

Lemma starts_lower (items : list phrase_item) (s : string) :
  lower_items items = true ->
  starts (List.map item_test items) (list_ascii_of_string s)
  = wild_startswith items (Py.lower s).
Proof.
  revert s. induction items as [ | it items IH]; intros s Hlow.
  - destruct s; reflexivity.
  - cbn in Hlow. apply andb_true_iff in Hlow. destruct Hlow as [Hit Hlow].
    destruct s as [ | c s]; [reflexivity | ].
    cbn [List.map list_ascii_of_string starts Py.lower wild_startswith].
    rewrite (IH s Hlow), item_test_lower; [reflexivity | ].
    cbn. rewrite andb_true_r. exact Hit.
Qed.

Lemma occurs_lower (items : list phrase_item) (s : string) :
  lower_items items = true ->
  occurs (List.map item_test items) (list_ascii_of_string s)
  = wild_contains items (Py.lower s).
Proof.
  intros Hlow. induction s as [ | c s IH].
  - pose proof (starts_lower items EmptyString Hlow) as Hhere.
    cbn [list_ascii_of_string occurs Py.lower wild_contains] in Hhere |- *.
    rewrite Hhere. reflexivity.
  - pose proof (starts_lower items (String c s) Hlow) as Hhere.
    cbn [list_ascii_of_string occurs Py.lower wild_contains] in Hhere |- *.
    rewrite IH, Hhere. reflexivity.
Qed.

Lemma wild_startswith_letters (phrase s : string) :
  wild_startswith (letters phrase) s = Py.startswith phrase s.
Proof.
  revert s. induction phrase as [ | a phrase IH]; intros s.
  - destruct s; reflexivity.
  - destruct s as [ | x s]; [reflexivity | ].
    cbn -[Ascii.eqb]. rewrite IH. destruct (Ascii.eqb a x); reflexivity.
Qed.

Lemma wild_contains_letters (phrase s : string) :
  wild_contains (letters phrase) s = Py.contains phrase s.
Proof.
  induction s as [ | x s IH]; cbn [wild_contains Py.contains].
  - rewrite wild_startswith_letters. reflexivity.
  - rewrite wild_startswith_letters, IH. reflexivity.
Qed.

Lemma wild_startswith_dot (before after s : string) :
  wild_startswith (letters before ++ AnyButNewline :: letters after) s = true
  <-> exists x, Py.code x <> 10%N
                /\ Py.startswith (before +:+ String x after) s = true.
Proof.
  revert s. induction before as [ | a before IH]; intros s.
  - cbn [letters app wild_startswith].
    destruct s as [ | x s].
    + split; [discriminate | ]. intros [x [_ Hx]]. discriminate Hx.
    + cbn [item_ok]. rewrite wild_startswith_letters. split.
      * intros Hok. apply andb_true_iff in Hok. destruct Hok as [Hx Hs].
        exists x. split.
        -- apply N.eqb_neq. apply negb_true_iff. exact Hx.
        -- change (EmptyString +:+ String x after) with (String x after).
           cbn [Py.startswith]. rewrite Ascii.eqb_refl. exact Hs.
      * intros [y [Hy Hs]].
        change (EmptyString +:+ String y after) with (String y after) in Hs.
        cbn [Py.startswith] in Hs.
        destruct (Ascii.eqb_spec y x) as [-> | _]; [ | discriminate Hs].
        apply andb_true_iff. split; [ | exact Hs].
        apply negb_true_iff. apply N.eqb_neq. exact Hy.
  - cbn [letters app wild_startswith].
    destruct s as [ | x s].
    + split; [discriminate | ]. intros [y [_ Hy]]. discriminate Hy.
    + cbn [item_ok]. split.
      * intros Hok. apply andb_true_iff in Hok. destruct Hok as [Ha Hs].
        apply IH in Hs. destruct Hs as [y [Hy Hs]]. exists y.
        split; [exact Hy | ].
        change (String a before +:+ String y after)
          with (String a (before +:+ String y after)).
        cbn [Py.startswith]. rewrite Ha. exact Hs.
      * intros [y [Hy Hs]].
        change (String a before +:+ String y after)
          with (String a (before +:+ String y after)) in Hs.
        cbn [Py.startswith] in Hs.
        destruct (Ascii.eqb a x); [ | discriminate Hs].
        apply IH. exists y. split; assumption.
Qed.

Lemma wild_contains_dot (before after s : string) :
  wild_contains (letters before ++ AnyButNewline :: letters after) s = true
  <-> exists x, Py.code x <> 10%N
                /\ Py.contains (before +:+ String x after) s = true.
Proof.
  induction s as [ | c s IH]; cbn [wild_contains Py.contains].
  - rewrite orb_false_r, wild_startswith_dot.
    split; intros [x [Hx Hs]]; exists x; (split; [exact Hx | ]).
    + rewrite Hs. reflexivity.
    + rewrite orb_false_r in Hs. exact Hs.
  - rewrite orb_true_iff, IH, wild_startswith_dot. split.
    + intros [[x [Hx Hs]] | [x [Hx Hs]]]; exists x; (split; [exact Hx | ]);
        rewrite Hs; [reflexivity | apply orb_true_r].
    + intros [x [Hx Hs]]. apply orb_true_iff in Hs.
      destruct Hs as [Hs | Hs]; [left | right]; exists x; split; assumption.
Qed.

(** The six patterns compile to chains of one-character tests. *)
Lemma guarantee_patterns_compile :
  List.map (fun p => Re.compile p Re.no_flags) guarantee_patterns
  = List.map (fun items => Some (chain (List.map item_test items)))
      guarantee_items.
Proof. cbv -[Re.lit item_test Py.code]. reflexivity. Qed.

Lemma any_search_chains (patterns : list string)
    (itemss : list (list phrase_item)) (s : string) (fl : Re.flags) :
  List.map (fun p => Re.compile p fl) patterns
  = List.map (fun items => Some (chain (List.map item_test items))) itemss ->
  forallb lower_items itemss = true ->
  any_search patterns s fl
  = existsb (fun items => wild_contains items (Py.lower s)) itemss.
Proof.
  unfold any_search. revert itemss.
  induction patterns as [ | p patterns IH]; intros [ | items itemss] Hc Hlow;
    try discriminate Hc; [reflexivity | ].
  cbn in Hc. injection Hc as Hp Hrest.
  cbn in Hlow. apply andb_true_iff in Hlow. destruct Hlow as [Hitems Hlow].
  cbn [existsb]. rewrite (IH itemss Hrest Hlow). f_equal.
  unfold Re.found, Re.search. rewrite Hp, scan_chain.
  apply occurs_lower. exact Hitems.
Qed.

Lemma has_guarantee_language_eq (ai_output : string) :
  _has_guarantee_language ai_output
  = existsb (fun items => wild_contains items (Py.lower ai_output))
      guarantee_items.
Proof.
  unfold _has_guarantee_language.
  apply any_search_chains; [exact guarantee_patterns_compile | ].
  vm_compute. reflexivity.
Qed.

(** On the texts of the embedding (code points below 256) the flag is
    characterised by the lowered text. Only the direction from right to left
    is used below: it is the one that does not depend on that range. *)
Lemma has_guarantee_language_iff (ai_output : string) :
  _has_guarantee_language ai_output = true
  <-> (exists phrase,
         In phrase guarantee_phrases
         /\ Py.contains phrase (Py.lower ai_output) = true)
      \/ (exists x,
            Py.code x <> 10%N
            /\ Py.contains ("risk" +:+ String x "free") (Py.lower ai_output)
               = true).
Proof.
  rewrite has_guarantee_language_eq. unfold guarantee_items.
  rewrite List.existsb_app, orb_true_iff. cbn [existsb].
  rewrite orb_false_r, wild_contains_dot, List.existsb_exists.
  split.
  - intros [[items [Hin Hfound]] | Hdot]; [left | right; exact Hdot].
    apply List.in_map_iff in Hin. destruct Hin as [phrase [<- Hin]].
    exists phrase. split; [exact Hin | ].
    rewrite <- wild_contains_letters. exact Hfound.
  - intros [[phrase [Hin Hfound]] | Hdot]; [left | right; exact Hdot].
    exists (letters phrase). split; [apply List.in_map; exact Hin | ].
    rewrite wild_contains_letters. exact Hfound.
Qed.

(** X24. A submission in which "risk" and "free" stand with exactly one
    character other than a newline between them ("risk-free", "Risk Free",
    "RISK_FREE"), in any letter case, is flagged by
    [_has_guarantee_language], is reported with "Contains forward-looking
    guarantees", and fails for every rubric, score and scenario, through the
    engine's verdict and through the runner's. *)
Theorem risk_free_wording_fails (ai_output : string) (x : ascii) :
  Py.code x <> 10%N ->
  Py.contains ("risk" +:+ String x "free") (Py.lower ai_output) = true ->
  _has_guarantee_language ai_output = true
  /\ (forall scenario,
         In "Contains forward-looking guarantees"
           (_check_critical_failures ai_output scenario))
  /\ (forall self overall_score scenario,
         determine_pass_fail self overall_score
           (_check_critical_failures ai_output scenario) = false)
  /\ (forall r overall_score scenario,
         EvalRunner.passed r overall_score
           (_check_critical_failures ai_output scenario) = false).
Proof.
  intros Hx Hfound.
  assert (Hflag : _has_guarantee_language ai_output = true).
  { apply has_guarantee_language_iff. right. exists x.
    split; [exact Hx | exact Hfound]. }
  assert (Hreported : forall scenario,
             In "Contains forward-looking guarantees"
               (_check_critical_failures ai_output scenario)).
  { intros scenario. rewrite check_critical_failures_eq.
    unfold critical_failures_spec. rewrite Hflag.
    rewrite !List.in_app_iff. right. right. left. left. reflexivity. }
  split; [exact Hflag | ]. split; [exact Hreported | ]. split.
  - intros self overall_score scenario.
    pose proof (Hreported scenario) as Hin. unfold determine_pass_fail.
    destruct (_check_critical_failures ai_output scenario) as [ | f fs];
      [destruct Hin | reflexivity].
  - intros r overall_score scenario.
    pose proof (Hreported scenario) as Hin. unfold EvalRunner.passed.
    destruct (_check_critical_failures ai_output scenario) as [ | f fs];
      [destruct Hin | apply andb_false_r].
Qed.

Lemma risk_free_wording_fails_witness :
  Py.code "-" <> 10%N
  /\ Py.contains "risk-free" (Py.lower "A Risk-Free return.") = true
  /\ _has_guarantee_language "A Risk-Free return." = true
  /\ (forall self overall_score scenario,
         determine_pass_fail self overall_score
           (_check_critical_failures "A Risk-Free return." scenario) = false).
Proof.
  assert (Hx : Py.code "-" <> 10%N) by discriminate.
  assert (Hfound : Py.contains ("risk" +:+ String "-" "free")
                     (Py.lower "A Risk-Free return.") = true)
    by reflexivity.
  split; [exact Hx | ]. split; [exact Hfound | ].
  destruct (risk_free_wording_fails "A Risk-Free return." "-" Hx Hfound)
    as [Hflag [_ [Hfails _]]].
  split; [exact Hflag | exact Hfails].
Defined.

(** X25. A submission that contains one of the guarantee phrases, in any
    letter case, is reported with "Contains forward-looking guarantees" and
    fails for every rubric, score and scenario, through the engine's verdict
    and through the runner's. *)
Theorem guarantee_language_fails (ai_output phrase : string) :
  In phrase guarantee_phrases ->
  Py.contains phrase (Py.lower ai_output) = true ->
  (forall scenario,
      In "Contains forward-looking guarantees"
        (_check_critical_failures ai_output scenario))
  /\ (forall self overall_score scenario,
         determine_pass_fail self overall_score
           (_check_critical_failures ai_output scenario) = false)
  /\ (forall r overall_score scenario,
         EvalRunner.passed r overall_score
           (_check_critical_failures ai_output scenario) = false).
Proof.
  intros Hin Hfound.
  assert (Hflag : _has_guarantee_language ai_output = true)
    by (apply has_guarantee_language_iff; left; exists phrase; split;
        assumption).
  assert (Hreported : forall scenario,
             In "Contains forward-looking guarantees"
               (_check_critical_failures ai_output scenario)).
  { intros scenario. rewrite check_critical_failures_eq.
    unfold critical_failures_spec. rewrite Hflag.
    apply List.in_or_app. right. apply List.in_or_app. right.
    apply List.in_or_app. left. left. reflexivity. }
  split; [exact Hreported | ]. split.
  - intros self overall_score scenario. specialize (Hreported scenario).
    destruct (_check_critical_failures ai_output scenario);
      [destruct Hreported | ].
    reflexivity.
  - intros r overall_score scenario. specialize (Hreported scenario).
    unfold EvalRunner.passed.
    destruct (_check_critical_failures ai_output scenario);
      [destruct Hreported | ].
    apply andb_false_r.
Qed.

Lemma guarantee_language_fails_witness :
  In "guaranteed" guarantee_phrases
  /\ Py.contains "guaranteed" (Py.lower "Returns are GUARANTEED.") = true
  /\ (forall self overall_score scenario,
         determine_pass_fail self overall_score
           (_check_critical_failures "Returns are GUARANTEED." scenario)
         = false).
Proof.
  assert (Hin : In "guaranteed" guarantee_phrases) by (left; reflexivity).
  assert (Hfound : Py.contains "guaranteed"
                     (Py.lower "Returns are GUARANTEED.") = true)
    by reflexivity.
  split; [exact Hin | ]. split; [exact Hfound | ].
  exact (proj1 (proj2 (guarantee_language_fails "Returns are GUARANTEED."
                         "guaranteed" Hin Hfound))).
Defined.

(** ** Scenario rules and single words *)

Lemma found_letters (p word s : string) (fl : Re.flags) :
  Re.compile p fl = Some (chain (List.map item_test (letters word))) ->
  lower_items (letters word) = true ->
  Re.found p s fl = Py.contains word (Py.lower s).
Proof.
  intros Hp Hlow. unfold Re.found, Re.search.
  rewrite Hp, scan_chain, (occurs_lower _ _ Hlow).
  apply wild_contains_letters.
Qed.

Lemma words_compile :
  List.map (fun p => Re.compile p Re.I) (probability_words ++ scenario_words)
  = List.map (fun w => Some (chain (List.map item_test (letters w))))
      (probability_words ++ scenario_words).
Proof. cbv -[Re.lit item_test Py.code]. reflexivity. Qed.

Lemma word_found (word s : string) :
  In word (probability_words ++ scenario_words) ->
  Re.found word s Re.I = Py.contains word (Py.lower s).
Proof.
  intros Hin. apply found_letters.
  - exact (proj1 List.map_ext_in_iff words_compile word Hin).
  - cbn in Hin.
    repeat (destruct Hin as [<- | Hin]; [vm_compute; reflexivity | ]).
    destruct Hin.
Qed.

(** X26. A submission that mentions one of "probability", "likelihood",
    "chance" and one of "asymmetric", "binary", "catalyst", in any letter
    case, satisfies every scenario rule: [_check_scenario_critical_failure]
    is false for every rule text, and [_check_critical_failures] reports no
    scenario critical failure for any scenario. *)
Theorem scenario_rules_satisfied_by_words (ai_output word1 word2 : string) :
  In word1 probability_words ->
  Py.contains word1 (Py.lower ai_output) = true ->
  In word2 scenario_words ->
  Py.contains word2 (Py.lower ai_output) = true ->
  (forall critical_failure,
      _check_scenario_critical_failure ai_output critical_failure = false)
  /\ (forall scenario critical_failure,
         ~ In ("Scenario critical failure: " +:+ critical_failure)
             (_check_critical_failures ai_output scenario)).
Proof.
  intros Hin1 Hfound1 Hin2 Hfound2.
  assert (Hrule : forall critical_failure,
             _check_scenario_critical_failure ai_output critical_failure
             = false).
  { intros critical_failure. unfold _check_scenario_critical_failure.
    cbv zeta.
    destruct (Py.contains "no probability estimate"
                (Py.lower critical_failure)).
    - apply negb_false_iff. unfold any_search.
      apply List.existsb_exists. exists word1. split.
      + right. exact Hin1.
      + rewrite word_found by (apply List.in_or_app; left; exact Hin1).
        exact Hfound1.
    - destruct (Py.contains "ignores binary" (Py.lower critical_failure)
                || Py.contains "binary nature" (Py.lower critical_failure));
        [ | reflexivity].
      apply negb_false_iff. unfold any_search.
      apply List.existsb_exists. exists word2. split.
      + cbn in Hin2. cbn.
        destruct Hin2 as [<- | [<- | [<- | []]]]; tauto.
      + rewrite word_found by (apply List.in_or_app; right; exact Hin2).
        exact Hfound2. }
  split; [exact Hrule | ].
  intros scenario critical_failure Hin.
  rewrite check_critical_failures_eq in Hin. unfold critical_failures_spec in Hin.
  rewrite !List.in_app_iff, List.in_map_iff in Hin.
  destruct Hin as [Hh | [Hr | [Hg | [c' [_ Hin]]]]].
  - destruct (_detect_hallucination ai_output scenario);
      [destruct Hh as [Hh | []]; discriminate Hh | destruct Hh].
  - destruct (_has_risk_section ai_output);
      [destruct Hr | destruct Hr as [Hr | []]; discriminate Hr].
  - destruct (_has_guarantee_language ai_output);
      [destruct Hg as [Hg | []]; discriminate Hg | destruct Hg].
  - apply List.filter_In in Hin. destruct Hin as [_ Hfired].
    rewrite Hrule in Hfired. discriminate Hfired.
Qed.

Lemma scenario_rules_satisfied_by_words_witness :
  In "chance" probability_words
  /\ In "binary" scenario_words
  /\ forall critical_failure,
       _check_scenario_critical_failure "A Binary event: 40% CHANCE."
         critical_failure = false.
Proof.
  assert (Hin1 : In "chance" probability_words)
    by (right; right; left; reflexivity).
  assert (Hin2 : In "binary" scenario_words) by (right; left; reflexivity).
  split; [exact Hin1 | ]. split; [exact Hin2 | ].
  exact (proj1 (scenario_rules_satisfied_by_words
                  "A Binary event: 40% CHANCE." "chance" "binary"
                  Hin1 eq_refl Hin2 eq_refl)).
Defined.
